(** * HapticRingMonitoring: spike-driven haptic audio rendering engine

    A shallow embedding of the Python sources

      - [core/config.py]           (configuration dictionary),
      - [audio/haptic_renderer.py] (procedural waveform synthesis),
      - [audio/audio_player.py]    (channel bookkeeping over pygame),
      - [core/haptic_system.py]    (coordinator and volume controller),

    together with the properties the design document states about them.

    Numbers.  Python [float] values are embedded as rationals [Q]: every
    finite double is a rational, comparisons are exact, and arithmetic is
    taken without rounding error.  Python [int] values are [Z].  The
    transcendental NumPy functions ([np.sin], [np.exp], [np.tanh], and the
    power [** 0.5]) are functions from doubles to doubles that the sources
    do not define; they are the fields of the interface [Libm] below and
    every general statement holds for all of their interpretations. *)

From Stdlib Require Import ZArith QArith Qabs Qround Lia Lqa List Bool String Sorted.
From stdpp Require Import base option list gmap strings pretty.

Set Default Proof Using "Type".

(* ===================================================================== *)
(** * Python and NumPy scalars                                            *)
(* ===================================================================== *)

Module Py.
Local Open Scope Q_scope.

(** Exceptions that the modelled code can raise. *)
Inductive exn := ValueError | TypeError | KeyError | IndexError.

Inductive result (A : Type) : Type :=
| Ok (x : A)
| Raise (e : exn).
Arguments Ok {A} x.
Arguments Raise {A} e.

Definition bind {A B} (m : result A) (k : A -> result B) : result B :=
  match m with
  | Ok x => k x
  | Raise e => Raise e
  end.

(** Strict comparison on floats, [x < y]. *)
Definition ltb (x y : Q) : bool := negb (Qle_bool y x).
(** [x <= y]. *)
Definition leb (x y : Q) : bool := Qle_bool x y.

(** Built-in [max(x, y)] and [min(x, y)] on floats. *)
Definition max (x y : Q) : Q := if ltb x y then y else x.
Definition min (x y : Q) : Q := if ltb y x then y else x.

(** [int(x)]: truncation toward zero. *)
Definition int (x : Q) : Z := Z.quot (Qnum x) (Zpos (Qden x)).

(** [abs(x)]. *)
Definition abs (x : Q) : Q := Qabs x.

(** An insertion-ordered [dict] with integer keys (the audio player
    iterates over its dictionaries, so the order is kept). *)
Definition dict (V : Type) : Type := list (Z * V).

Fixpoint dict_get {V} (k : Z) (d : dict V) : option V :=
  match d with
  | [] => None
  | (k', v) :: d' => if Z.eqb k k' then Some v else dict_get k d'
  end.

Definition dict_mem {V} (k : Z) (d : dict V) : bool :=
  match dict_get k d with Some _ => true | None => false end.

(** [d[k] = v]: an existing key keeps its position. *)
Fixpoint dict_set {V} (k : Z) (v : V) (d : dict V) : dict V :=
  match d with
  | [] => [(k, v)]
  | (k', v') :: d' =>
      if Z.eqb k k' then (k, v) :: d' else (k', v') :: dict_set k v d'
  end.

(** [del d[k]]. *)
Fixpoint dict_del {V} (k : Z) (d : dict V) : dict V :=
  match d with
  | [] => []
  | (k', v') :: d' =>
      if Z.eqb k k' then d' else (k', v') :: dict_del k d'
  end.

Definition dict_keys {V} (d : dict V) : list Z := map fst d.
End Py.

Notation "'let*' x ':=' m 'in' k" := (Py.bind m (fun x => k))
  (at level 10, x name, m at level 100, k at level 200).

(** The transcendental functions of NumPy's math library, as functions on
    doubles.  [np_sqrt] is the elementwise power [** 0.5]. *)
Class Libm := {
  np_sin : Q -> Q;
  np_exp : Q -> Q;
  np_tanh : Q -> Q;
  np_sqrt : Q -> Q
}.

(** The state of NumPy's global random generator: the sequence of standard
    normal deviates it is going to hand out. *)
Definition RandomState : Type := nat -> Q.

Module Np.
Local Open Scope Q_scope.
Import Py.

(** [np.pi], the double nearest to pi, as the rational it is. *)
Definition pi : Q := 884279719003555 # 281474976710656.

(** Elementwise arithmetic with broadcasting of scalars. *)
Definition smul (k : Q) (v : list Q) : list Q := map (Qmult k) v.
Definition muls (v : list Q) (k : Q) : list Q := map (fun x => x * k) v.
Definition divs (v : list Q) (k : Q) : list Q := map (fun x => x / k) v.
Definition sadd (k : Q) (v : list Q) : list Q := map (Qplus k) v.
Definition vadd (v w : list Q) : list Q := zip_with Qplus v w.
Definition vmul (v w : list Q) : list Q := zip_with Qmult v w.

Definition sin `{Libm} (v : list Q) : list Q := map np_sin v.
Definition exp `{Libm} (v : list Q) : list Q := map np_exp v.
Definition tanh `{Libm} (v : list Q) : list Q := map np_tanh v.
Definition sqrt `{Libm} (v : list Q) : list Q := map np_sqrt v.

(** [np.arange(n)] as floats. *)
Definition arange (n : nat) : list Q := map (fun i => inject_Z (Z.of_nat i)) (seq 0 n).

(** [np.linspace(start, stop, num, endpoint)]; a negative [num] raises
    [ValueError]. *)
Definition linspace (start stop : Q) (num : Z) (endpoint : bool) : result (list Q) :=
  if (num <? 0)%Z then Raise ValueError
  else
    let n := Z.to_nat num in
    let div := if endpoint then (num - 1)%Z else num in
    let delta := stop - start in
    if (0 <? div)%Z then
      let step := delta / inject_Z div in
      let y := sadd start (smul step (arange n)) in
      Ok (if endpoint && (1 <? num)%Z then take (n - 1) y ++ [stop] else y)
    else
      Ok (sadd start (smul delta (arange n))).

(** [np.ones(n) / n]. *)
Definition box_kernel (n : nat) : list Q := divs (replicate n 1) (inject_Z (Z.of_nat n)).

(** Sum of two coefficient lists of different lengths. *)
Fixpoint padd (v w : list Q) : list Q :=
  match v, w with
  | [], _ => w
  | _, [] => v
  | x :: v', y :: w' => (x + y) :: padd v' w'
  end.

(** The full discrete convolution, of length [N + M - 1]. *)
Fixpoint convolve_full (a v : list Q) : list Q :=
  match a with
  | [] => []
  | x :: a' => padd (smul x v) (0 :: convolve_full a' v)
  end.

(** [np.convolve(a, v, mode='same')]: the centre of the full convolution,
    as long as the longer argument; an empty argument raises. *)
Definition convolve_same (a v : list Q) : result (list Q) :=
  match a, v with
  | [], _ | _, [] => Raise ValueError
  | _, _ =>
      let n1 := Nat.max (length a) (length v) in
      let n2 := Nat.min (length a) (length v) in
      Ok (take n1 (drop ((n2 - 1) / 2) (convolve_full a v)))
  end.

(** [np.clip(x, lo, hi)] on a scalar, and elementwise. *)
Definition clip1 (x lo hi : Q) : Q := Py.min (Py.max x lo) hi.
Definition clip (v : list Q) (lo hi : Q) : list Q := map (fun x => clip1 x lo hi) v.

(** [np.cumsum]. *)
Fixpoint cumsum_from (acc : Q) (v : list Q) : list Q :=
  match v with
  | [] => []
  | x :: v' => (acc + x) :: cumsum_from (acc + x) v'
  end.
Definition cumsum (v : list Q) : list Q := cumsum_from 0 v.

(** [w[:k] *= ramp] and [w[k:] *= ramp], for slices as long as [ramp]. *)
Definition imul_head (k : nat) (ramp w : list Q) : list Q :=
  vmul (take k w) ramp ++ drop k w.
Definition imul_tail (k : nat) (ramp w : list Q) : list Q :=
  take k w ++ vmul (drop k w) ramp.

(** Two's complement reading of an integer on 16 bits. *)
Definition wrap_int16 (z : Z) : Z := ((z + 32768) mod 65536 - 32768)%Z.

(** [x.astype(np.int16)] on one double: the C conversion, which drops the
    fractional part; a value outside the 16-bit range keeps its low 16
    bits. *)
Definition to_int16 (x : Q) : Z := wrap_int16 (Py.int x).
Definition astype_int16 (v : list Q) : list Z := map to_int16 v.

(** [np.random.normal(0, 1, n)]: the next [n] deviates. *)
Definition random_normal (n : nat) (g : RandomState) : list Q * RandomState :=
  (map g (seq 0 n), fun i => g (n + i)%nat).
End Np.

(* ===================================================================== *)
(** * pygame.mixer                                                        *)
(* ===================================================================== *)

(** The part of pygame the sources rely on.  A [Sound] is an object with a
    sample buffer and a playback volume; objects live in a store and are
    referred to by their address, so that the sound cache, the selected
    sounds and the audio player's channel table can share one object. *)
Module Pygame.
Local Open Scope Q_scope.

Record Sound := mkSound {
  snd_buffer : list Z;
  snd_volume : Q
}.

Definition ref : Type := nat.

Record mixer := mkMixer {
  mx_sounds : list Sound;             (* the store of Sound objects *)
  mx_playing : Py.dict (ref * Z)      (* channel id -> (sound, loops) *)
}.

Definition mixer_empty : mixer := mkMixer [] [].

(** [pygame.mixer.Sound(buffer=samples)]: a new object at full volume. *)
Definition Sound_new (samples : list Z) (m : mixer) : ref * mixer :=
  (length (mx_sounds m),
   mkMixer (mx_sounds m ++ [mkSound samples 1]) (mx_playing m)).

(** [sound.set_volume(value)]: a negative value is ignored and a value
    above 1.0 is stored as 1.0. *)
Definition set_volume (r : ref) (value : Q) (m : mixer) : mixer :=
  if Py.ltb value 0 then m
  else
    let value := if Py.ltb 1 value then 1 else value in
    mkMixer (alter (fun s => mkSound (snd_buffer s) value) r (mx_sounds m))
            (mx_playing m).

(** [pygame.mixer.Channel(id).play(sound, loops)]. *)
Definition channel_play (id : Z) (r : ref) (loops : Z) (m : mixer) : mixer :=
  mkMixer (mx_sounds m) (Py.dict_set id (r, loops) (mx_playing m)).

(** [channel.stop()]. *)
Definition channel_stop (id : Z) (m : mixer) : mixer :=
  mkMixer (mx_sounds m) (Py.dict_del id (mx_playing m)).

(** [pygame.mixer.quit()]: all playback stops. *)
Definition mixer_quit (m : mixer) : mixer := mkMixer (mx_sounds m) [].
End Pygame.

(* ===================================================================== *)
(** * audio/haptic_renderer.py                                            *)
(* ===================================================================== *)

Module HapticRenderer.
Local Open Scope Q_scope.
Import Py.

Record t := mk { sample_rate : Z }.

(** [HapticRenderer(sample_rate=44100)]. *)
Definition __init__ (sample_rate : Z) : t := mk sample_rate.
Definition default : t := __init__ 44100.

Section Generators.
Context `{Libm}.
Variable self : t.

Let sr : Q := inject_Z (sample_rate self).

(** The two lines every generator starts with:
    [n_s = int(self.sample_rate * (ms / 1000.0))] and
    [t = np.linspace(0, ms / 1000.0, n_s, False)]. *)
Definition time_axis (ms : Q) : result (Z * list Q) :=
  let n_s := Py.int (sr * (ms / 1000)) in
  let* t := Np.linspace 0 (ms / 1000) n_s false in
  Ok (n_s, t).

(** [attack_samples = int(seconds * self.sample_rate)] and, when it is
    below [n_s], [wave_data[:attack_samples] *= np.linspace(0, 1, attack_samples)]. *)
Definition linear_attack (seconds : Q) (n_s : Z) (wave_data : list Q) : result (list Q) :=
  let attack_samples := Py.int (seconds * sr) in
  if (attack_samples <? n_s)%Z then
    let* ramp := Np.linspace 0 1 attack_samples true in
    Ok (Np.imul_head (Z.to_nat attack_samples) ramp wave_data)
  else Ok wave_data.

(** [fade_out_samples = int(self.sample_rate * (fade_out_ms / 1000.0))]
    and, when [n_s > fade_out_samples and fade_out_ms > 0],
    [wave_data[n_s - fade_out_samples:] *= np.linspace(1, 0, fade_out_samples)]. *)
Definition linear_fade_out (fade_out_ms : Q) (n_s : Z) (wave_data : list Q) : result (list Q) :=
  let fade_out_samples := Py.int (sr * (fade_out_ms / 1000)) in
  if (fade_out_samples <? n_s)%Z && Py.ltb 0 fade_out_ms then
    let* ramp := Np.linspace 1 0 fade_out_samples true in
    Ok (Np.imul_tail (Z.to_nat (n_s - fade_out_samples)) ramp wave_data)
  else Ok wave_data.

(** The exponential variant used by the two special sounds:
    [actual = min(fade_out_samples, n_s)] and
    [wave_data[n_s - actual:] *= np.exp(rate * np.linspace(0, 1, actual))]. *)
Definition exp_fade_out (rate fade_out_ms : Q) (n_s : Z) (wave_data : list Q) : result (list Q) :=
  let fade_out_samples := Py.int (sr * (fade_out_ms / 1000)) in
  if (fade_out_samples <? n_s)%Z && Py.ltb 0 fade_out_ms then
    let actual_fade_samples := Z.min fade_out_samples n_s in
    let* ramp := Np.linspace 0 1 actual_fade_samples true in
    Ok (Np.imul_tail (Z.to_nat (n_s - actual_fade_samples))
                     (Np.exp (Np.smul rate ramp)) wave_data)
  else Ok wave_data.

(** [if n_s > bound: wave_data = np.convolve(wave_data, np.ones(k) / k, mode='same')]. *)
Definition smooth (bound : Z) (k : nat) (n_s : Z) (wave_data : list Q) : result (list Q) :=
  if (bound <? n_s)%Z then Np.convolve_same wave_data (Np.box_kernel k)
  else Ok wave_data.

(** [amp * np.sin(omega * t)], for [omega] of the form
    [2 * np.pi * hz * k]. *)
Definition tone (amp omega : Q) (t : list Q) : list Q :=
  Np.smul amp (Np.sin (Np.smul omega t)).

(** [(wave_data * 32767).astype(np.int16)]. *)
Definition quantize (wave_data : list Q) : list Z :=
  Np.astype_int16 (Np.muls wave_data 32767).

(** A keyword argument [name=default] received through [**kwargs]: any
    other keyword is a [TypeError]. *)
Definition kwarg (name : string) (default : Q) (kwargs : gmap string Q) : result Q :=
  if bool_decide (delete name kwargs = empty) then
    Ok (match lookup name kwargs with Some x => x | None => default end)
  else Raise TypeError.

Definition create_sound_buffer (hz ms amp fade_out_ms : Q) : result (list Z) :=
  let* nt := time_axis ms in
  let '(n_s, t) := nt in
  let wave_data := tone amp (2 * Np.pi * hz) t in
  let* wave_data := linear_fade_out fade_out_ms n_s wave_data in
  Ok (quantize wave_data).

Definition _create_glass_waveform (hz ms amp fade_out_ms : Q) (kwargs : gmap string Q)
  : result (list Z) :=
  let* brightness := kwarg "brightness" 2 kwargs in
  let* nt := time_axis ms in
  let '(n_s, t) := nt in
  let fundamental := tone (amp * 0.85) (2 * Np.pi * hz) t in
  let harmonic2 := tone (amp * 0.08 * brightness * 0.2) (2 * Np.pi * hz * 2) t in
  let harmonic3 := tone (amp * 0.03 * brightness * 0.1) (2 * Np.pi * hz * 3) t in
  let subtle_texture :=
    Np.vmul (tone (amp * 0.001) (2 * Np.pi * hz * 8) t)
            (Np.sadd 1 (Np.smul 0.1 (Np.sin (Np.smul (2 * Np.pi * 2) t)))) in
  let wave_data :=
    Np.vadd (Np.vadd (Np.vadd fundamental harmonic2) harmonic3) subtle_texture in
  let* wave_data := smooth 20 15 n_s wave_data in
  let* wave_data := linear_attack 0.001 n_s wave_data in
  let* wave_data := linear_fade_out fade_out_ms n_s wave_data in
  Ok (quantize wave_data).

Definition _create_metal_waveform (hz ms amp fade_out_ms : Q) (kwargs : gmap string Q)
  : result (list Z) :=
  let* resonance := kwarg "resonance" 1.5 kwargs in
  let* nt := time_axis ms in
  let '(n_s, t) := nt in
  let fundamental := tone (amp * 0.7) (2 * Np.pi * hz) t in
  let harmonic2 := tone (amp * 0.25 * resonance) (2 * Np.pi * hz * 2) t in
  let harmonic3 := tone (amp * 0.15 * resonance) (2 * Np.pi * hz * 3) t in
  let harmonic5 := tone (amp * 0.08 * resonance) (2 * Np.pi * hz * 5) t in
  let metal_ring :=
    Np.vmul (tone (amp * 0.05 * resonance) (2 * Np.pi * hz * 7) t) (Np.exp (Np.smul (-1.5) t)) in
  let metal_vibration :=
    Np.vmul (tone (amp * 0.03) (2 * Np.pi * hz * 1.3) t)
            (Np.sadd 1 (Np.smul 0.3 (Np.sin (Np.smul (2 * Np.pi * 4) t)))) in
  let wave_data :=
    Np.vadd (Np.vadd (Np.vadd (Np.vadd (Np.vadd fundamental harmonic2) harmonic3)
                               harmonic5) metal_ring) metal_vibration in
  let* wave_data := smooth 10 5 n_s wave_data in
  let* wave_data := linear_attack 0.001 n_s wave_data in
  let* wave_data := linear_fade_out fade_out_ms n_s wave_data in
  Ok (quantize (Np.clip wave_data (-1) 1)).

(** [for i in range(1, len(x)): x[i] = a * x[i] + b * x[i-1]], given the
    already filtered [x[i-1]]. *)
Fixpoint one_pole (a b prev : Q) (x : list Q) : list Q :=
  match x with
  | [] => []
  | xi :: x' => let yi := a * xi + b * prev in yi :: one_pole a b yi x'
  end.
Definition low_pass (a b : Q) (x : list Q) : list Q :=
  match x with
  | [] => []
  | x0 :: x' => x0 :: one_pole a b x0 x'
  end.

Definition _create_wood_waveform (hz ms amp fade_out_ms : Q) (kwargs : gmap string Q)
           (g : RandomState) : result (list Z * RandomState) :=
  let* warmth := kwarg "warmth" 1 kwargs in
  let* nt := time_axis ms in
  let '(n_s, t) := nt in
  let fundamental := tone (amp * 0.65) (2 * Np.pi * hz) t in
  let harmonic2 := tone (amp * 0.15 * warmth) (2 * Np.pi * hz * 2) t in
  let harmonic3 := tone (amp * 0.08 * warmth) (2 * Np.pi * hz * 3) t in
  let '(noise, g) := Np.random_normal (Z.to_nat n_s) g in
  let wood_roughness := Np.smul (amp * 0.08) noise in
  let wood_roughness := low_pass 0.6 0.4 wood_roughness in
  let wood_grain :=
    Np.vmul (tone (amp * 0.04) (2 * Np.pi * hz * 0.3) t)
            (Np.sadd 1 (Np.smul 0.5 (Np.sin (Np.smul (2 * Np.pi * 0.8) t)))) in
  let wood_pulse :=
    Np.vmul (tone (amp * 0.02) (2 * Np.pi * hz * 8) t) (Np.exp (Np.smul (-3) t)) in
  let wave_data :=
    Np.vadd (Np.vadd (Np.vadd (Np.vadd (Np.vadd fundamental harmonic2) harmonic3)
                               wood_roughness) wood_grain) wood_pulse in
  let* wave_data := smooth 15 8 n_s wave_data in
  let* wave_data := linear_attack 0.003 n_s wave_data in
  let* wave_data := linear_fade_out fade_out_ms n_s wave_data in
  Ok (quantize (Np.clip wave_data (-1) 1), g).

Definition _create_plastic_waveform (hz ms amp fade_out_ms : Q) (kwargs : gmap string Q)
  : result (list Z) :=
  let* hardness := kwarg "hardness" 1 kwargs in
  let* nt := time_axis ms in
  let '(n_s, t) := nt in
  let fundamental := tone (amp * 0.78) (2 * Np.pi * hz) t in
  let harmonic2 := tone (amp * 0.09 * hardness * 0.3) (2 * Np.pi * hz * 2) t in
  let harmonic4 := tone (amp * 0.05 * hardness * 0.2) (2 * Np.pi * hz * 4) t in
  let plastic_texture := tone (amp * 0.0008) (2 * Np.pi * hz * 6) t in
  let wave_data :=
    Np.vadd (Np.vadd (Np.vadd fundamental harmonic2) harmonic4) plastic_texture in
  let* wave_data := smooth 15 12 n_s wave_data in
  let* wave_data := linear_attack 0.001 n_s wave_data in
  let* wave_data := linear_fade_out fade_out_ms n_s wave_data in
  Ok (quantize wave_data).

Definition _create_fabric_waveform (hz ms amp fade_out_ms : Q) (kwargs : gmap string Q)
           (g : RandomState) : result (list Z * RandomState) :=
  let* softness := kwarg "softness" 1 kwargs in
  let* nt := time_axis ms in
  let '(n_s, t) := nt in
  let fundamental := tone (amp * 0.4) (2 * Np.pi * hz * 0.8) t in
  let '(noise, g) := Np.random_normal (Z.to_nat n_s) g in
  let fabric_noise := Np.smul (amp * 0.4 * softness) noise in
  let fabric_noise := low_pass 0.2 0.8 fabric_noise in
  let '(noise, g) := Np.random_normal (Z.to_nat n_s) g in
  let fiber_texture :=
    Np.vmul (tone (amp * 0.1) (2 * Np.pi * hz * 0.1) t) (Np.sadd 1 (Np.smul 0.2 noise)) in
  let swish_effect :=
    Np.vmul (tone (amp * 0.08) (2 * Np.pi * hz * 0.05) t) (Np.exp (Np.smul (-0.5) t)) in
  let wave_data :=
    Np.vadd (Np.vadd (Np.vadd fundamental fabric_noise) fiber_texture) swish_effect in
  let* wave_data := linear_attack 0.015 n_s wave_data in
  let* wave_data := linear_fade_out fade_out_ms n_s wave_data in
  Ok (quantize (Np.clip wave_data (-1) 1), g).

Definition _create_ceramic_waveform (hz ms amp fade_out_ms : Q) (kwargs : gmap string Q)
  : result (list Z) :=
  let* brittleness := kwarg "brittleness" 1.5 kwargs in
  let* nt := time_axis ms in
  let '(n_s, t) := nt in
  let fundamental := tone (amp * 0.7) (2 * Np.pi * hz) t in
  let harmonic2 := tone (amp * 0.3 * brittleness) (2 * Np.pi * hz * 2) t in
  let harmonic3 := tone (amp * 0.2 * brittleness) (2 * Np.pi * hz * 3) t in
  let harmonic4 := tone (amp * 0.1 * brittleness) (2 * Np.pi * hz * 4) t in
  let wave_data :=
    Np.vadd (Np.vadd (Np.vadd fundamental harmonic2) harmonic3) harmonic4 in
  let* wave_data := linear_attack 0.002 n_s wave_data in
  let* wave_data := linear_fade_out fade_out_ms n_s wave_data in
  Ok (quantize (Np.clip wave_data (-1) 1)).

Definition _create_rubber_waveform (hz ms amp fade_out_ms : Q) (kwargs : gmap string Q)
  : result (list Z) :=
  let* elasticity := kwarg "elasticity" 1 kwargs in
  let* nt := time_axis ms in
  let '(n_s, t) := nt in
  let fundamental := tone (amp * 0.8) (2 * Np.pi * hz * 0.8) t in
  let harmonic2 := tone (amp * 0.2 * elasticity) (2 * Np.pi * hz * 1.6) t in
  let elastic_modulation :=
    Np.sadd 1 (Np.smul 0.2 (Np.sin (Np.smul (2 * Np.pi * hz * 0.1) t))) in
  let wave_data := Np.vmul (Np.vadd fundamental harmonic2) elastic_modulation in
  let* wave_data := linear_attack 0.005 n_s wave_data in
  let decay_envelope := Np.exp (Np.divs (Np.smul (-2) t) (ms / 1000)) in
  let wave_data := Np.vmul wave_data decay_envelope in
  let* wave_data := linear_fade_out fade_out_ms n_s wave_data in
  Ok (quantize (Np.clip wave_data (-1) 1)).

(** The [if]/[elif] chain of [create_material_sound] that computes
    [sound_buffer]. *)
Definition material_sound_buffer (material_type : string) (hz ms amp fade_out_ms : Q)
           (kwargs : gmap string Q) (g : RandomState) : result (list Z * RandomState) :=
  let pure (r : result (list Z)) := let* b := r in Ok (b, g) in
  if String.eqb material_type "glass" then
    pure (_create_glass_waveform hz ms amp fade_out_ms kwargs)
  else if String.eqb material_type "metal" then
    pure (_create_metal_waveform hz ms amp fade_out_ms kwargs)
  else if String.eqb material_type "wood" then
    _create_wood_waveform hz ms amp fade_out_ms kwargs g
  else if String.eqb material_type "plastic" then
    pure (_create_plastic_waveform hz ms amp fade_out_ms kwargs)
  else if String.eqb material_type "fabric" then
    _create_fabric_waveform hz ms amp fade_out_ms kwargs g
  else if String.eqb material_type "ceramic" then
    pure (_create_ceramic_waveform hz ms amp fade_out_ms kwargs)
  else if String.eqb material_type "rubber" then
    pure (_create_rubber_waveform hz ms amp fade_out_ms kwargs)
  else
    pure (create_sound_buffer hz ms amp fade_out_ms).

(** The closing lines of every sound constructor: an empty buffer is
    replaced by [np.array([0], dtype=np.int16)]. *)
Definition sound_of_buffer (sound_buffer : list Z) (m : Pygame.mixer)
  : Pygame.ref * Pygame.mixer :=
  if (length sound_buffer =? 0)%nat then Pygame.Sound_new [0%Z] m
  else Pygame.Sound_new sound_buffer m.

Definition create_sound_object (hz ms amp fade_out_ms : Q) (m : Pygame.mixer)
  : result (Pygame.ref * Pygame.mixer) :=
  let* sound_buffer := create_sound_buffer hz ms amp fade_out_ms in
  Ok (sound_of_buffer sound_buffer m).

Definition create_material_sound (material_type : string) (hz ms amp fade_out_ms : Q)
           (kwargs : gmap string Q) (g : RandomState) (m : Pygame.mixer)
  : result (Pygame.ref * RandomState * Pygame.mixer) :=
  let* bg := material_sound_buffer material_type hz ms amp fade_out_ms kwargs g in
  let '(sound_buffer, g) := bg in
  let '(r, m) := sound_of_buffer sound_buffer m in
  Ok (r, g, m).

Definition create_sweep_sound (start_hz end_hz ms amp fade_out_ms : Q) (m : Pygame.mixer)
  : result (Pygame.ref * Pygame.mixer) :=
  let* nt := time_axis ms in
  let '(n_s, t) := nt in
  let* frequency_sweep := Np.linspace start_hz end_hz n_s true in
  let phase :=
    Np.divs (Np.muls (Np.smul (2 * Np.pi) (Np.cumsum frequency_sweep)) (ms / 1000))
            (inject_Z n_s) in
  let wave_data := Np.smul amp (Np.sin phase) in
  let* wave_data := linear_fade_out fade_out_ms n_s wave_data in
  Ok (sound_of_buffer (quantize wave_data) m).

(** The three smoothing passes of the pressure sound,
    [for i in range(3): kernel_size = 8 - i * 2; ...]. *)
Fixpoint smooth_passes (sizes : list Z) (wave_data : list Q) : result (list Q) :=
  match sizes with
  | [] => Ok wave_data
  | kernel_size :: sizes' =>
      let* wave_data :=
        (if (2 <? kernel_size)%Z
         then Np.convolve_same wave_data (Np.box_kernel (Z.to_nat kernel_size))
         else Ok wave_data) in
      smooth_passes sizes' wave_data
  end.

Definition create_sa_background_sound (hz ms amp fade_out_ms : Q) (m : Pygame.mixer)
  : result (Pygame.ref * Pygame.mixer) :=
  let* nt := time_axis ms in
  let '(n_s, t) := nt in
  let base_hz := Py.max (Py.min (hz * 1.5) 120) 80 in
  let fundamental := tone (amp * 0.7) (2 * Np.pi * base_hz) t in
  let sub_harmonic := tone (amp * 0.2) (2 * Np.pi * base_hz * 0.8) t in
  let second_harmonic := tone (amp * 0.1) (2 * Np.pi * base_hz * 2) t in
  let vibration_modulation :=
    Np.sadd 1 (Np.smul 0.03 (Np.sin (Np.smul (2 * Np.pi * base_hz * 0.05) t))) in
  let wave_data :=
    Np.vmul (Np.vadd (Np.vadd fundamental sub_harmonic) second_harmonic)
            vibration_modulation in
  let* wave_data :=
    (if (20 <? n_s)%Z
     then smooth_passes (map (fun i => 8 - i * 2)%Z [0; 1; 2]%Z) wave_data
     else Ok wave_data) in
  let* wave_data := linear_attack 0.01 n_s wave_data in
  let* wave_data := exp_fade_out (-1.2) fade_out_ms n_s wave_data in
  let wave_data := Np.muls (Np.tanh (Np.muls wave_data 0.9)) 0.95 in
  Ok (sound_of_buffer (quantize wave_data) m).

Definition create_ra_click_sound (hz ms amp fade_out_ms : Q) (m : Pygame.mixer)
  : result (Pygame.ref * Pygame.mixer) :=
  let* nt := time_axis ms in
  let '(n_s, t) := nt in
  let click_hz := Py.min (Py.max (hz * 0.3) 18) 25 in
  let fundamental := tone (amp * 0.6) (2 * Np.pi * click_hz) t in
  let sub_harmonic := tone (amp * 0.1) (2 * Np.pi * click_hz * 0.5) t in
  let envelope := Np.exp (Np.divs (Np.smul (-8) t) (ms / 1000)) in
  let wave_data := Np.vmul (Np.vadd fundamental sub_harmonic) envelope in
  let* wave_data :=
    (if (10 <? n_s)%Z then
       let kernel_size := Z.min 8 (n_s / 3) in
       if (2 <? kernel_size)%Z
       then Np.convolve_same wave_data (Np.box_kernel (Z.to_nat kernel_size))
       else Ok wave_data
     else Ok wave_data) in
  let attack_samples := Py.int (0.0001 * sr) in
  let* wave_data :=
    (if (0 <? attack_samples)%Z && (attack_samples <? n_s)%Z then
       let* ramp := Np.linspace 0 1 attack_samples true in
       let attack_curve := Np.sqrt ramp in
       Ok (Np.imul_head (Z.to_nat attack_samples) attack_curve wave_data)
     else Ok wave_data) in
  let* wave_data := exp_fade_out (-3) fade_out_ms n_s wave_data in
  let wave_data := Np.muls (Np.tanh (Np.muls wave_data 0.9)) 0.8 in
  Ok (sound_of_buffer (quantize wave_data) m).
End Generators.
End HapticRenderer.

(* ===================================================================== *)
(** * audio/audio_player.py                                               *)
(* ===================================================================== *)

Module AudioPlayer.
Local Open Scope Q_scope.
Import Py.

Record t := mk {
  is_initialized : bool;
  continuous_channels : dict Pygame.ref;   (* channel id -> its 'sound' *)
  target_volumes : dict Q;
  current_volumes : dict Q;
  volume_smooth_factor : Q
}.

(** [AudioPlayer()]; [mixer_ok] tells whether [pygame.mixer.init]
    succeeded. *)
Definition __init__ (mixer_ok : bool) : t := mk mixer_ok [] [] [] 0.15.

Definition play_sound (sound_object : Pygame.ref) (channel_id : Z) (volume : Q)
           (self : t) (m : Pygame.mixer) : bool * Pygame.mixer :=
  if negb (is_initialized self) then (false, m)
  else if (channel_id <? 0)%Z then (false, m)
  else
    let volume :=
      if negb (leb 0 volume && leb volume 1) then Np.clip1 volume 0 1 else volume in
    let m := Pygame.set_volume sound_object volume m in
    let m := Pygame.channel_play channel_id sound_object 0 m in
    (true, m).

Definition start_continuous_sound (sound_object : Pygame.ref) (channel_id : Z)
           (initial_volume : Q) (self : t) (m : Pygame.mixer) : bool * t * Pygame.mixer :=
  if negb (is_initialized self) then (false, self, m)
  else
    let m := Pygame.set_volume sound_object initial_volume m in
    let m := Pygame.channel_play channel_id sound_object (-1) m in
    (true,
     mk (is_initialized self)
        (dict_set channel_id sound_object (continuous_channels self))
        (dict_set channel_id initial_volume (target_volumes self))
        (dict_set channel_id initial_volume (current_volumes self))
        (volume_smooth_factor self),
     m).

Definition set_continuous_volume (channel_id : Z) (target_volume : Q) (self : t) : t :=
  if dict_mem channel_id (continuous_channels self) then
    mk (is_initialized self) (continuous_channels self)
       (dict_set channel_id (Np.clip1 target_volume 0 1) (target_volumes self))
       (current_volumes self) (volume_smooth_factor self)
  else self.

(** One turn of the loop of [update_volumes], for the channel [channel_id]. *)
Definition update_volume (channel_id : Z) (st : t * Pygame.mixer) : t * Pygame.mixer :=
  let '(self, m) := st in
  match dict_get channel_id (target_volumes self),
        dict_get channel_id (current_volumes self) with
  | Some target_vol, Some current_vol =>
      let new_vol := current_vol + (target_vol - current_vol) * volume_smooth_factor self in
      let new_vol := if ltb (Py.abs (new_vol - target_vol)) 0.001 then target_vol else new_vol in
      match dict_get channel_id (continuous_channels self) with
      | Some sound_obj =>
          (mk (is_initialized self) (continuous_channels self) (target_volumes self)
              (dict_set channel_id new_vol (current_volumes self))
              (volume_smooth_factor self),
           Pygame.set_volume sound_obj new_vol m)
      | None => (self, m)
      end
  | _, _ => (self, m)
  end.

Definition update_volumes (self : t) (m : Pygame.mixer) : t * Pygame.mixer :=
  fold_left (fun st channel_id => update_volume channel_id st)
            (dict_keys (continuous_channels self)) (self, m).

Definition stop_continuous_sound (channel_id : Z) (self : t) (m : Pygame.mixer)
  : t * Pygame.mixer :=
  if dict_mem channel_id (continuous_channels self) then
    (mk (is_initialized self)
        (dict_del channel_id (continuous_channels self))
        (dict_del channel_id (target_volumes self))
        (dict_del channel_id (current_volumes self))
        (volume_smooth_factor self),
     Pygame.channel_stop channel_id m)
  else (self, m).

Definition is_continuous_playing (channel_id : Z) (self : t) : bool :=
  dict_mem channel_id (continuous_channels self).

(** The loop [for channel_id in list(self.continuous_channels.keys()):
    self.stop_continuous_sound(channel_id)], which [quit] runs and the
    coordinator's [cleanup] runs once more before it. *)
Definition stop_all_continuous (self : t) (m : Pygame.mixer) : t * Pygame.mixer :=
  fold_left (fun st channel_id => stop_continuous_sound channel_id st.1 st.2)
            (dict_keys (continuous_channels self)) (self, m).

Definition quit (self : t) (m : Pygame.mixer) : t * Pygame.mixer :=
  if is_initialized self then
    let '(self, m) := stop_all_continuous self m in
    (mk false (continuous_channels self) (target_volumes self) (current_volumes self)
        (volume_smooth_factor self),
     Pygame.mixer_quit m)
  else (self, m).
End AudioPlayer.

(* ===================================================================== *)
(** * core/config.py                                                      *)
(* ===================================================================== *)

Module Config.
Local Open Scope Q_scope.
Local Open Scope string_scope.

Record neuron := mkNeuron { a : Q; b : Q; c : Q; d : Q; v_init : Q }.

Record input_current := mkInput {
  click_mag : Q;
  ra_click_scl_chg : Q;
  RA_CLICK_SUSTAIN_DURATION : Z;
  ra_motion_scl_spd_dev : Q;
  ra_min_spd_for_input : Q;
  ra_click_clip_min : Q;
  ra_click_clip_max : Q;
  ra_motion_clip_min : Q;
  ra_motion_clip_max : Q
}.

Record sound := mkSound {
  sa_hz : Q; sa_ms : Q; sa_amp : Q; sa_sound_volume : Q;
  ra_motion_base_hz : Q; ra_motion_ms : Q; ra_motion_base_amp : Q;
  ra_motion_vol_min_spd : Q; ra_motion_vol_max_spd : Q;
  ra_motion_min_vol_scl : Q; ra_motion_max_vol_scl : Q;
  ra_click_hz : Q; ra_click_ms : Q; ra_click_amp : Q; ra_click_volume : Q
}.

(** One entry of [config['materials']]: the keys ['r'] and ['f'], the
    optional ['type'], and the remaining keys, which are handed to the
    waveform generator as keyword arguments. *)
Record material := mkMaterial {
  r : Q;
  f : Q;
  type : option string;
  params : gmap string Q
}.

Record t := mk {
  neuron_dt_ms : Q;
  plot_hist_sz : Z;
  sa_neuron : neuron;
  ra_neuron : neuron;          (* keys base_a, base_b, base_c, base_d, v_init *)
  ra_click_neuron : neuron;
  input : input_current;
  snd : sound;
  materials : list (string * material)
}.

(** The assertions of [_validate_config]. *)
Definition _validate_config (config : t) : bool :=
  Py.ltb 0 (neuron_dt_ms config) && (0 <? plot_hist_sz config)%Z
  && (Py.ltb 0 (sa_hz (snd config)) && Py.ltb (sa_hz (snd config)) 22050)
  && (Py.ltb 0 (ra_motion_base_hz (snd config)) && Py.ltb (ra_motion_base_hz (snd config)) 22050)
  && (Py.ltb 0 (ra_click_hz (snd config)) && Py.ltb (ra_click_hz (snd config)) 22050)
  && forallb (fun kv => Py.ltb 0 (r (kv.2)) && Py.ltb 0 (f (kv.2))) (materials config).

Definition get_haptic_config : t := {|
  neuron_dt_ms := 1;
  plot_hist_sz := 500;
  sa_neuron := mkNeuron 0.05 0.25 (-65) 6 (-70);
  ra_neuron := mkNeuron 0.4 0.25 (-65) 1.5 (-65);
  ra_click_neuron := mkNeuron 0.3 0.25 (-65) 6 (-65);
  input := {|
    click_mag := 12;
    ra_click_scl_chg := 100;
    RA_CLICK_SUSTAIN_DURATION := 3;
    ra_motion_scl_spd_dev := 0.02;
    ra_min_spd_for_input := 1;
    ra_click_clip_min := -40;
    ra_click_clip_max := 40;
    ra_motion_clip_min := -30;
    ra_motion_clip_max := 30
  |};
  snd := {|
    sa_hz := 60; sa_ms := 120; sa_amp := 0.3; sa_sound_volume := 0.2;
    ra_motion_base_hz := 30; ra_motion_ms := 100; ra_motion_base_amp := 0.8;
    ra_motion_vol_min_spd := 100; ra_motion_vol_max_spd := 5000;
    ra_motion_min_vol_scl := 0.7; ra_motion_max_vol_scl := 1;
    ra_click_hz := 150; ra_click_ms := 70; ra_click_amp := 2.5; ra_click_volume := 1
  |};
  materials := [
    ("Glass",   mkMaterial 0.05 1.6 (Some "glass")   {[ "brightness" := 3 ]});
    ("Metal",   mkMaterial 1.2  1   (Some "metal")   {[ "resonance" := 2.2 ]});
    ("Wood",    mkMaterial 1.8  0.8 (Some "wood")    {[ "warmth" := 2.5 ]});
    ("Plastic", mkMaterial 0.3  1.1 (Some "plastic") {[ "hardness" := 1.5 ]});
    ("Fabric",  mkMaterial 0.02 0.6 (Some "fabric")  {[ "softness" := 3 ]});
    ("Ceramic", mkMaterial 0.6  1.3 (Some "ceramic") {[ "brittleness" := 1.8 ]});
    ("Rubber",  mkMaterial 0.4  0.7 (Some "rubber")  {[ "elasticity" := 2 ]})
  ]
  |}.
End Config.

(* ===================================================================== *)
(** * neuron/izhikevich_neuron.py and neuron/spike_encoder.py             *)
(* ===================================================================== *)

Module IzhikevichNeuron.
Local Open Scope Q_scope.

(** Modelled from the spec: the file [neuron/izhikevich_neuron.py] is
    imported by [neuron/__init__.py] but is not among the sources.  The
    design document gives the state as the pair of the membrane potential
    [v] and the recovery variable [u], and the parameters [a], [b], [c],
    [d] and [v_init] (here [Config.neuron]). *)
Record t := mk { params : Config.neuron; v : Q; u : Q }.

(** Modelled from the spec: the constructor of the missing file, "v=v_init,
    u=b*v_init at construction (not 0)". *)
Definition __init__ (p : Config.neuron) : t :=
  mk p (Config.v_init p) (Config.b p * Config.v_init p).

(** Modelled from the spec: the Euler update of the missing [step], before
    the spike check,
    [v' = v + dt*(0.04*v^2 + 5*v + 140 - u + I)] and
    [u' = u + dt*(a*(b*v - u))]. *)
Definition euler (self : t) (input_current dt_ms : Q) : Q * Q :=
  let v' := v self + dt_ms * (0.04 * (v self * v self) + 5 * v self + 140 - u self + input_current) in
  let u' := u self + dt_ms * (Config.a (params self) * (Config.b (params self) * v self - u self)) in
  (v', u').

(** Modelled from the spec: [step(input_current, dt_ms) -> (spiked,
    state_after)] of the missing file, "if v' >= 30.0: spiked = true;
    v' = c; u' = u' + d else: spiked = false". *)
Definition step (input_current dt_ms : Q) (self : t) : bool * t :=
  let '(v', u') := euler self input_current dt_ms in
  if Py.leb 30 v' then
    (true, mk (params self) (Config.c (params self)) (u' + Config.d (params self)))
  else
    (false, mk (params self) v' u').

(** The states a neuron goes through on a sequence of input currents. *)
Fixpoint run (currents : list Q) (dt_ms : Q) (self : t) : list (bool * t) :=
  match currents with
  | [] => []
  | i :: rest => let '(spiked, self') := step i dt_ms self in
                 (spiked, self') :: run rest dt_ms self'
  end.
End IzhikevichNeuron.

(** What [core/haptic_system.py] uses of the class [SpikeEncoder], whose
    file [neuron/spike_encoder.py] is not among the sources: the constructor,
    [step], and [update_sa_input].  The coordinator is defined over any
    implementation of this interface. *)
Class SpikeEncoderImpl := {
  SpikeEncoder : Type;
  SpikeEncoder_init :
    Config.neuron -> Config.neuron -> Config.neuron -> Q -> Config.input_current -> SpikeEncoder;
  (** [step(mouse_speed, avg_mouse_speed, material_roughness, mouse_pressed)]
      returns [(sa_fired, ra_motion_fired, ra_click_fired, sa_vu,
      ra_motion_vu, ra_click_vu)]. *)
  SpikeEncoder_step :
    Q -> Q -> Q -> bool -> SpikeEncoder ->
    (bool * bool * bool * (Q * Q) * (Q * Q) * (Q * Q)) * SpikeEncoder;
  SpikeEncoder_update_sa_input : Q -> SpikeEncoder -> SpikeEncoder
}.

Module SpecEncoder.
Local Open Scope Q_scope.

(** Modelled from the spec: the missing [neuron/spike_encoder.py].  The
    encoder "owns three NeuronIntegrator instances: pressure, motion,
    click", a held pressure current, and the state of the edge-triggered
    click pulse (the previous press state and the ticks left). *)
Record t := mk {
  sa : IzhikevichNeuron.t;
  ra_motion : IzhikevichNeuron.t;
  ra_click : IzhikevichNeuron.t;
  dt_ms : Q;
  input_config : Config.input_current;
  sa_input : Q;
  prev_pressed : bool;
  click_ticks_left : Z
}.

(** Modelled from the spec: construction of the missing encoder, one
    integrator per channel and no current held. *)
Definition __init__ (sa_params ra_params ra_click_params : Config.neuron) (neuron_dt_ms : Q)
           (input_config : Config.input_current) : t :=
  mk (IzhikevichNeuron.__init__ sa_params) (IzhikevichNeuron.__init__ ra_params)
     (IzhikevichNeuron.__init__ ra_click_params) neuron_dt_ms input_config 0 false 0.

(** Modelled from the spec: [set_pressure_input(magnitude)] of the missing
    encoder ([update_sa_input] for its caller), "a held scalar". *)
Definition update_sa_input (magnitude : Q) (self : t) : t :=
  mk (sa self) (ra_motion self) (ra_click self) (dt_ms self) (input_config self)
     magnitude (prev_pressed self) (click_ticks_left self).

(** Modelled from the spec: [step] of the missing encoder.  Motion current
    is "mouse_speed * material_roughness * scale when mouse_speed >=
    min_speed_threshold and mouse_pressed is true, else 0; result clipped";
    a rising edge of the press state "injects a fixed-magnitude pulse for a
    configured sustain duration measured in ticks"; "all three integrators
    are stepped unconditionally every tick". *)
Definition step (mouse_speed avg_mouse_speed material_roughness : Q) (mouse_pressed : bool)
           (self : t) : (bool * bool * bool * (Q * Q) * (Q * Q) * (Q * Q)) * t :=
  let ic := input_config self in
  let motion :=
    if Py.leb (Config.ra_min_spd_for_input ic) mouse_speed && mouse_pressed
    then mouse_speed * material_roughness * Config.ra_motion_scl_spd_dev ic else 0 in
  let motion := Np.clip1 motion (Config.ra_motion_clip_min ic) (Config.ra_motion_clip_max ic) in
  let ticks :=
    if mouse_pressed && negb (prev_pressed self)
    then Config.RA_CLICK_SUSTAIN_DURATION ic else click_ticks_left self in
  let click :=
    if (0 <? ticks)%Z
    then Np.clip1 (Config.ra_click_scl_chg ic) (Config.ra_click_clip_min ic)
                  (Config.ra_click_clip_max ic)
    else 0 in
  let '(sa_fired, sa') := IzhikevichNeuron.step (sa_input self) (dt_ms self) (sa self) in
  let '(ra_motion_fired, ra') := IzhikevichNeuron.step motion (dt_ms self) (ra_motion self) in
  let '(ra_click_fired, rc') := IzhikevichNeuron.step click (dt_ms self) (ra_click self) in
  ((sa_fired, ra_motion_fired, ra_click_fired,
    (IzhikevichNeuron.v sa', IzhikevichNeuron.u sa'),
    (IzhikevichNeuron.v ra', IzhikevichNeuron.u ra'),
    (IzhikevichNeuron.v rc', IzhikevichNeuron.u rc')),
   mk sa' ra' rc' (dt_ms self) ic (sa_input self) mouse_pressed
      (if (0 <? ticks)%Z then ticks - 1 else 0)%Z).

Definition impl : SpikeEncoderImpl := {|
  SpikeEncoder := t;
  SpikeEncoder_init := __init__;
  SpikeEncoder_step := step;
  SpikeEncoder_update_sa_input := update_sa_input
  |}.
End SpecEncoder.

(* ===================================================================== *)
(** * core/haptic_system.py                                               *)
(* ===================================================================== *)

Module HapticSystem.
Local Open Scope Q_scope.
Local Open Scope string_scope.
Import Py.

Section WithEncoder.
Context `{Libm} `{SpikeEncoderImpl}.

Record t := mk {
config : Config.t;
audio_player : AudioPlayer.t;
haptic_renderer : HapticRenderer.t;
spike_encoder : SpikeEncoder;
materials : list (string * Config.material);
material_keys : list string;
current_material_key : string;
current_roughness : Q;
sound_cache : gmap string Pygame.ref;
sa_sound : Pygame.ref;
ra_motion_sound : Pygame.ref;
ra_click_sound : Pygame.ref;
ra_motion_loop_sound : Pygame.ref;
spike_window_duration_sec : Q;
ra_motion_spike_timestamps : list (Q * bool);
current_spike_rate : Q;
target_volume : Q;
current_volume : Q;
volume_smooth_factor : Q;
volume_fast_decay_factor : Q;
spike_rate_update_interval : Z;
spike_rate_update_counter : Z;
mouse_pressed : bool;
last_mouse_time : Q;
last_logged_volume : option Q
}.

(** Attribute assignment, [self.field = x]. *)
Definition set_audio_player (x : AudioPlayer.t) (self : t) : t :=
  mk (config self) x (haptic_renderer self) (spike_encoder self) (materials self)
     (material_keys self) (current_material_key self) (current_roughness self)
     (sound_cache self) (sa_sound self) (ra_motion_sound self) (ra_click_sound self)
     (ra_motion_loop_sound self) (spike_window_duration_sec self)
     (ra_motion_spike_timestamps self) (current_spike_rate self) (target_volume self)
     (current_volume self) (volume_smooth_factor self) (volume_fast_decay_factor self)
     (spike_rate_update_interval self) (spike_rate_update_counter self)
     (mouse_pressed self) (last_mouse_time self) (last_logged_volume self).
Definition set_spike_encoder (x : SpikeEncoder) (self : t) : t :=
  mk (config self) (audio_player self) (haptic_renderer self) x (materials self)
     (material_keys self) (current_material_key self) (current_roughness self)
     (sound_cache self) (sa_sound self) (ra_motion_sound self) (ra_click_sound self)
     (ra_motion_loop_sound self) (spike_window_duration_sec self)
     (ra_motion_spike_timestamps self) (current_spike_rate self) (target_volume self)
     (current_volume self) (volume_smooth_factor self) (volume_fast_decay_factor self)
     (spike_rate_update_interval self) (spike_rate_update_counter self)
     (mouse_pressed self) (last_mouse_time self) (last_logged_volume self).
Definition set_current_material_key (x : string) (self : t) : t :=
  mk (config self) (audio_player self) (haptic_renderer self) (spike_encoder self)
     (materials self) (material_keys self) x (current_roughness self) (sound_cache self)
     (sa_sound self) (ra_motion_sound self) (ra_click_sound self)
     (ra_motion_loop_sound self) (spike_window_duration_sec self)
     (ra_motion_spike_timestamps self) (current_spike_rate self) (target_volume self)
     (current_volume self) (volume_smooth_factor self) (volume_fast_decay_factor self)
     (spike_rate_update_interval self) (spike_rate_update_counter self)
     (mouse_pressed self) (last_mouse_time self) (last_logged_volume self).
Definition set_current_roughness (x : Q) (self : t) : t :=
  mk (config self) (audio_player self) (haptic_renderer self) (spike_encoder self)
     (materials self) (material_keys self) (current_material_key self) x
     (sound_cache self) (sa_sound self) (ra_motion_sound self) (ra_click_sound self)
     (ra_motion_loop_sound self) (spike_window_duration_sec self)
     (ra_motion_spike_timestamps self) (current_spike_rate self) (target_volume self)
     (current_volume self) (volume_smooth_factor self) (volume_fast_decay_factor self)
     (spike_rate_update_interval self) (spike_rate_update_counter self)
     (mouse_pressed self) (last_mouse_time self) (last_logged_volume self).
Definition set_ra_motion_sound (x : Pygame.ref) (self : t) : t :=
  mk (config self) (audio_player self) (haptic_renderer self) (spike_encoder self)
     (materials self) (material_keys self) (current_material_key self)
     (current_roughness self) (sound_cache self) (sa_sound self) x (ra_click_sound self)
     (ra_motion_loop_sound self) (spike_window_duration_sec self)
     (ra_motion_spike_timestamps self) (current_spike_rate self) (target_volume self)
     (current_volume self) (volume_smooth_factor self) (volume_fast_decay_factor self)
     (spike_rate_update_interval self) (spike_rate_update_counter self)
     (mouse_pressed self) (last_mouse_time self) (last_logged_volume self).
Definition set_ra_click_sound (x : Pygame.ref) (self : t) : t :=
  mk (config self) (audio_player self) (haptic_renderer self) (spike_encoder self)
     (materials self) (material_keys self) (current_material_key self)
     (current_roughness self) (sound_cache self) (sa_sound self) (ra_motion_sound self)
     x (ra_motion_loop_sound self) (spike_window_duration_sec self)
     (ra_motion_spike_timestamps self) (current_spike_rate self) (target_volume self)
     (current_volume self) (volume_smooth_factor self) (volume_fast_decay_factor self)
     (spike_rate_update_interval self) (spike_rate_update_counter self)
     (mouse_pressed self) (last_mouse_time self) (last_logged_volume self).
Definition set_ra_motion_loop_sound (x : Pygame.ref) (self : t) : t :=
  mk (config self) (audio_player self) (haptic_renderer self) (spike_encoder self)
     (materials self) (material_keys self) (current_material_key self)
     (current_roughness self) (sound_cache self) (sa_sound self) (ra_motion_sound self)
     (ra_click_sound self) x (spike_window_duration_sec self)
     (ra_motion_spike_timestamps self) (current_spike_rate self) (target_volume self)
     (current_volume self) (volume_smooth_factor self) (volume_fast_decay_factor self)
     (spike_rate_update_interval self) (spike_rate_update_counter self)
     (mouse_pressed self) (last_mouse_time self) (last_logged_volume self).
Definition set_ra_motion_spike_timestamps (x : list (Q * bool)) (self : t) : t :=
  mk (config self) (audio_player self) (haptic_renderer self) (spike_encoder self)
     (materials self) (material_keys self) (current_material_key self)
     (current_roughness self) (sound_cache self) (sa_sound self) (ra_motion_sound self)
     (ra_click_sound self) (ra_motion_loop_sound self) (spike_window_duration_sec self)
     x (current_spike_rate self) (target_volume self) (current_volume self)
     (volume_smooth_factor self) (volume_fast_decay_factor self)
     (spike_rate_update_interval self) (spike_rate_update_counter self)
     (mouse_pressed self) (last_mouse_time self) (last_logged_volume self).
Definition set_current_spike_rate (x : Q) (self : t) : t :=
  mk (config self) (audio_player self) (haptic_renderer self) (spike_encoder self)
     (materials self) (material_keys self) (current_material_key self)
     (current_roughness self) (sound_cache self) (sa_sound self) (ra_motion_sound self)
     (ra_click_sound self) (ra_motion_loop_sound self) (spike_window_duration_sec self)
     (ra_motion_spike_timestamps self) x (target_volume self) (current_volume self)
     (volume_smooth_factor self) (volume_fast_decay_factor self)
     (spike_rate_update_interval self) (spike_rate_update_counter self)
     (mouse_pressed self) (last_mouse_time self) (last_logged_volume self).
Definition set_target_volume (x : Q) (self : t) : t :=
  mk (config self) (audio_player self) (haptic_renderer self) (spike_encoder self)
     (materials self) (material_keys self) (current_material_key self)
     (current_roughness self) (sound_cache self) (sa_sound self) (ra_motion_sound self)
     (ra_click_sound self) (ra_motion_loop_sound self) (spike_window_duration_sec self)
     (ra_motion_spike_timestamps self) (current_spike_rate self) x (current_volume self)
     (volume_smooth_factor self) (volume_fast_decay_factor self)
     (spike_rate_update_interval self) (spike_rate_update_counter self)
     (mouse_pressed self) (last_mouse_time self) (last_logged_volume self).
Definition set_current_volume (x : Q) (self : t) : t :=
  mk (config self) (audio_player self) (haptic_renderer self) (spike_encoder self)
     (materials self) (material_keys self) (current_material_key self)
     (current_roughness self) (sound_cache self) (sa_sound self) (ra_motion_sound self)
     (ra_click_sound self) (ra_motion_loop_sound self) (spike_window_duration_sec self)
     (ra_motion_spike_timestamps self) (current_spike_rate self) (target_volume self) x
     (volume_smooth_factor self) (volume_fast_decay_factor self)
     (spike_rate_update_interval self) (spike_rate_update_counter self)
     (mouse_pressed self) (last_mouse_time self) (last_logged_volume self).
Definition set_spike_rate_update_counter (x : Z) (self : t) : t :=
  mk (config self) (audio_player self) (haptic_renderer self) (spike_encoder self)
     (materials self) (material_keys self) (current_material_key self)
     (current_roughness self) (sound_cache self) (sa_sound self) (ra_motion_sound self)
     (ra_click_sound self) (ra_motion_loop_sound self) (spike_window_duration_sec self)
     (ra_motion_spike_timestamps self) (current_spike_rate self) (target_volume self)
     (current_volume self) (volume_smooth_factor self) (volume_fast_decay_factor self)
     (spike_rate_update_interval self) x (mouse_pressed self) (last_mouse_time self)
     (last_logged_volume self).
Definition set_mouse_pressed (x : bool) (self : t) : t :=
  mk (config self) (audio_player self) (haptic_renderer self) (spike_encoder self)
     (materials self) (material_keys self) (current_material_key self)
     (current_roughness self) (sound_cache self) (sa_sound self) (ra_motion_sound self)
     (ra_click_sound self) (ra_motion_loop_sound self) (spike_window_duration_sec self)
     (ra_motion_spike_timestamps self) (current_spike_rate self) (target_volume self)
     (current_volume self) (volume_smooth_factor self) (volume_fast_decay_factor self)
     (spike_rate_update_interval self) (spike_rate_update_counter self) x
     (last_mouse_time self) (last_logged_volume self).
Definition set_last_logged_volume (x : option Q) (self : t) : t :=
  mk (config self) (audio_player self) (haptic_renderer self) (spike_encoder self)
     (materials self) (material_keys self) (current_material_key self)
     (current_roughness self) (sound_cache self) (sa_sound self) (ra_motion_sound self)
     (ra_click_sound self) (ra_motion_loop_sound self) (spike_window_duration_sec self)
     (ra_motion_spike_timestamps self) (current_spike_rate self) (target_volume self)
     (current_volume self) (volume_smooth_factor self) (volume_fast_decay_factor self)
     (spike_rate_update_interval self) (spike_rate_update_counter self)
     (mouse_pressed self) (last_mouse_time self) x.

(** The f-string [f"{role}_{mat_key}_{hz}"]. *)
Definition cache_key (role mat_key : string) (hz : Z) : string :=
  role ++ "_" ++ mat_key ++ "_" ++ pretty hz.

(** [materials[key]] on the ordered dictionary of materials. *)
Fixpoint materials_get (key : string) (materials : list (string * Config.material))
  : result Config.material :=
  match materials with
  | [] => Raise KeyError
  | (k, props) :: rest => if String.eqb key k then Ok props else materials_get key rest
  end.

(** [sound_cache[key]]. *)
Definition cache_get (key : string) (sound_cache : gmap string Pygame.ref)
  : result Pygame.ref :=
  match lookup key sound_cache with
  | Some r => Ok r
  | None => Raise KeyError
  end.

(** The state that sound creation acts on while the object is being
  initialised: the cache, NumPy's random generator and the mixer. *)
Definition creation_state : Type := gmap string Pygame.ref * RandomState * Pygame.mixer.

Definition _create_material_sounds (renderer : HapticRenderer.t) (snd_cfg : Config.sound)
         (st : creation_state) (entry : string * Config.material) : result creation_state :=
  let '(mat_key, mat_props) := entry in
  let '(sound_cache, g, m) := st in
  (* RA motion sound *)
  let ra_motion_hz := Py.int (Config.ra_motion_base_hz snd_cfg * Config.f mat_props) in
  let ra_motion_cache_key := cache_key "ra_motion" mat_key ra_motion_hz in
  let* rgm :=
  match Config.type mat_props with
  | Some ty =>
      HapticRenderer.create_material_sound renderer ty (inject_Z ra_motion_hz)
        (Config.ra_motion_ms snd_cfg) (Config.ra_motion_base_amp snd_cfg) 10
        (Config.params mat_props) g m
  | None =>
      let* rm := HapticRenderer.create_sound_object renderer (inject_Z ra_motion_hz)
                   (Config.ra_motion_ms snd_cfg) (Config.ra_motion_base_amp snd_cfg) 10 m in
      Ok (rm.1, g, rm.2)
  end in
  let '(r, g, m) := rgm in
  let sound_cache := insert ra_motion_cache_key r sound_cache in
  (* RA click sound *)
  let ra_click_hz := Py.int (Config.ra_click_hz snd_cfg * Config.f mat_props) in
  let ra_click_cache_key := cache_key "ra_click" mat_key ra_click_hz in
  let click_amp := Config.ra_click_amp snd_cfg in
  let* rm := HapticRenderer.create_ra_click_sound renderer (inject_Z ra_click_hz)
             (Config.ra_click_ms snd_cfg) click_amp 5 m in
  let '(r, m) := rm in
  let sound_cache := insert ra_click_cache_key r sound_cache in
  (* RA motion loop sound *)
  let loop_duration_ms := 2000 in
  let ra_loop_cache_key := cache_key "ra_motion_loop" mat_key ra_motion_hz in
  let* rgm :=
  match Config.type mat_props with
  | Some ty =>
      HapticRenderer.create_material_sound renderer ty (inject_Z ra_motion_hz)
        loop_duration_ms (Config.ra_motion_base_amp snd_cfg) 0
        (Config.params mat_props) g m
  | None =>
      let* rm := HapticRenderer.create_sound_object renderer (inject_Z ra_motion_hz)
                   loop_duration_ms (Config.ra_motion_base_amp snd_cfg) 0 m in
      Ok (rm.1, g, rm.2)
  end in
  let '(r, g, m) := rgm in
  Ok (insert ra_loop_cache_key r sound_cache, g, m).

(** The loop [for mat_key, mat_props in self.materials.items()]. *)
Fixpoint create_all_material_sounds (renderer : HapticRenderer.t) (snd_cfg : Config.sound)
       (materials : list (string * Config.material)) (st : creation_state)
  : result creation_state :=
  match materials with
  | [] => Ok st
  | entry :: rest =>
    let* st := _create_material_sounds renderer snd_cfg st entry in
    create_all_material_sounds renderer snd_cfg rest st
  end.

(** The three cache reads of [_update_current_material_sounds]. *)
Definition current_material_sounds (snd_cfg : Config.sound)
         (materials : list (string * Config.material)) (current_material_key : string)
         (sound_cache : gmap string Pygame.ref)
  : result (Pygame.ref * Pygame.ref * Pygame.ref) :=
  let* mat_props := materials_get current_material_key materials in
  let ra_motion_hz := Py.int (Config.ra_motion_base_hz snd_cfg * Config.f mat_props) in
  let ra_click_hz := Py.int (Config.ra_click_hz snd_cfg * Config.f mat_props) in
  let* motion := cache_get (cache_key "ra_motion" current_material_key ra_motion_hz) sound_cache in
  let* click := cache_get (cache_key "ra_click" current_material_key ra_click_hz) sound_cache in
  let* loop := cache_get (cache_key "ra_motion_loop" current_material_key ra_motion_hz) sound_cache in
  Ok (motion, click, loop).

Definition _update_current_material_sounds (self : t) : result t :=
  let* mcl := current_material_sounds (Config.snd (config self)) (materials self)
              (current_material_key self) (sound_cache self) in
  let '(motion, click, loop) := mcl in
  Ok (set_ra_motion_loop_sound loop (set_ra_click_sound click (set_ra_motion_sound motion self))).

(** The object that [__init__] leaves behind, given its components and the
    sounds it has generated: the volume controller starts with an empty
    window, silent, with attack factor 0.4 and decay factor 0.8, a 25 ms
    window and a rate update every second tick; the mouse is not pressed. *)
Definition new (config : Config.t) (audio_player : AudioPlayer.t)
           (haptic_renderer : HapticRenderer.t) (spike_encoder : SpikeEncoder)
           (materials : list (string * Config.material)) (material_keys : list string)
           (current_material_key : string) (current_roughness : Q)
           (sound_cache : gmap string Pygame.ref)
           (sa_sound ra_motion_sound ra_click_sound ra_motion_loop_sound : Pygame.ref)
           (now : Q) : t :=
  mk config audio_player haptic_renderer spike_encoder materials material_keys
     current_material_key current_roughness sound_cache
     sa_sound ra_motion_sound ra_click_sound ra_motion_loop_sound
     (* spike_window_duration_sec *) 0.025
     (* ra_motion_spike_timestamps *) []
     (* current_spike_rate, target_volume, current_volume *) 0 0 0
     (* volume_smooth_factor, volume_fast_decay_factor *) 0.4 0.8
     (* spike_rate_update_interval, spike_rate_update_counter *) 2 0
     (* mouse_pressed, last_mouse_time *) false now
     (* last_logged_volume is not yet an attribute *) None.

(** [HapticSystem(config)].  The environment supplies whether the mixer
  could be opened, the state of the random generator and the reading of
  [time.perf_counter()]. *)
Definition __init__ (config : Config.t) (mixer_ok : bool) (g : RandomState) (now : Q)
  : result (t * RandomState * Pygame.mixer) :=
  let audio_player := AudioPlayer.__init__ mixer_ok in
  let haptic_renderer := HapticRenderer.default in
  let spike_encoder :=
  SpikeEncoder_init (Config.sa_neuron config) (Config.ra_neuron config)
    (Config.ra_click_neuron config) (Config.neuron_dt_ms config) (Config.input config) in
  let materials := Config.materials config in
  let material_keys := map fst materials in
  let* current_material_key :=
  match material_keys with k :: _ => Ok k | [] => Raise IndexError end in
  let* props := materials_get current_material_key materials in
  let current_roughness := Config.r props in
  (* _init_all_sounds *)
  let snd_cfg := Config.snd config in
  let m := Pygame.mixer_empty in
  let* rm := HapticRenderer.create_sa_background_sound haptic_renderer
             (Config.sa_hz snd_cfg) (Config.sa_ms snd_cfg) (Config.sa_amp snd_cfg) 20 m in
  let '(sa_sound, m) := rm in
  let* st := create_all_material_sounds haptic_renderer snd_cfg materials (empty, g, m) in
  let '(sound_cache, g, m) := st in
  let* mcl := current_material_sounds snd_cfg materials current_material_key sound_cache in
  let '(motion, click, loop) := mcl in
  (* the loop sound starts silent on channel 1 *)
  let '(_, audio_player, m) := AudioPlayer.start_continuous_sound loop 1 0 audio_player m in
  Ok (new config audio_player haptic_renderer spike_encoder materials material_keys
       current_material_key current_roughness sound_cache sa_sound motion click loop now,
    g, m).

Definition change_material (material_index : Z) (self : t) (m : Pygame.mixer)
  : result (bool * t * Pygame.mixer) :=
  if (0 <=? material_index)%Z && (material_index <? Z.of_nat (length (material_keys self)))%Z then
  let* key :=
    match lookup (Z.to_nat material_index) (material_keys self) with
    | Some k => Ok k
    | None => Raise IndexError
    end in
  let self := set_current_material_key key self in
  let* props := materials_get key (materials self) in
  let self := set_current_roughness (Config.r props) self in
  let '(ap, m) :=
    if AudioPlayer.is_continuous_playing 1 (audio_player self)
    then AudioPlayer.stop_continuous_sound 1 (audio_player self) m
    else (audio_player self, m) in
  let self := set_audio_player ap self in
  let* self := _update_current_material_sounds self in
  let '(_, ap, m) :=
    AudioPlayer.start_continuous_sound (ra_motion_loop_sound self) 1 (current_volume self)
      (audio_player self) m in
  Ok (true, set_audio_player ap self, m)
  else Ok (false, self, m).

Definition update_mouse_state (pressed : bool) (speed avg_speed : Q) (self : t) : t :=
  set_mouse_pressed pressed self.

(** The [while] loop of [_calculate_spike_rate]: [popleft] as long as the
  oldest entry is older than [cutoff_time]. *)
Fixpoint prune (cutoff_time : Q) (timestamps : list (Q * bool)) : list (Q * bool) :=
  match timestamps with
  | [] => []
  | (timestamp, spike_occurred) :: rest =>
    if ltb timestamp cutoff_time then prune cutoff_time rest else timestamps
  end.

Definition _calculate_spike_rate (current_time : Q) (self : t) : Q * t :=
  let cutoff_time := current_time - spike_window_duration_sec self in
  let self :=
  set_ra_motion_spike_timestamps (prune cutoff_time (ra_motion_spike_timestamps self)) self in
  let spike_count :=
  Z.of_nat (length (filter (fun e => snd e = true) (ra_motion_spike_timestamps self))) in
  let effective_duration :=
  match ra_motion_spike_timestamps self with
  | (oldest_time, _) :: _ =>
      let actual_duration := current_time - oldest_time in
      Py.max (Py.min actual_duration (spike_window_duration_sec self)) 0.005
  | [] => spike_window_duration_sec self
  end in
  (if ltb 0 effective_duration then inject_Z spike_count / effective_duration else 0, self).

Definition _spike_rate_to_volume (spike_rate : Q) (self : t) : Q :=
  let snd_cfg := Config.snd (config self) in
  let min_spike_rate := 20 in
  let max_spike_rate := 120 in
  let min_volume := Config.ra_motion_min_vol_scl snd_cfg in
  let max_volume := Config.ra_motion_max_vol_scl snd_cfg in
  if leb spike_rate 0 then 0
  else if leb spike_rate min_spike_rate then min_volume
  else if leb max_spike_rate spike_rate then max_volume
  else
  let volume_range := max_volume - min_volume in
  let rate_range := max_spike_rate - min_spike_rate in
  let volume := min_volume + ((spike_rate - min_spike_rate) / rate_range) * volume_range in
  Np.clip1 volume 0 1.

(** The body of [_update_ra_motion_volume], one definition per commented
    block of the source. *)

(** Spike history: [self.ra_motion_spike_timestamps.append((current_time,
    ra_motion_fired))]. *)
Definition record_spike (ra_motion_fired : bool) (current_time : Q) (self : t) : t :=
  set_ra_motion_spike_timestamps
    (ra_motion_spike_timestamps self ++ [(current_time, ra_motion_fired)]) self.

(** Spike rate, recomputed periodically: the counter is incremented and,
    once it reaches the update interval, the rate is recomputed and the
    counter reset. *)
Definition refresh_rate (current_time : Q) (self : t) : t :=
  let self := set_spike_rate_update_counter (spike_rate_update_counter self + 1)%Z self in
  if (spike_rate_update_interval self <=? spike_rate_update_counter self)%Z then
    let '(rate, self) := _calculate_spike_rate current_time self in
    set_spike_rate_update_counter 0%Z (set_current_spike_rate rate self)
  else self.

(** Target volume. *)
Definition retarget (self : t) : t :=
  if mouse_pressed self && ltb 0 (current_spike_rate self)
  then set_target_volume (_spike_rate_to_volume (current_spike_rate self) self) self
  else set_target_volume 0 self.

(** Volume smoothing: gentle when rising, fast when falling. *)
Definition smooth (self : t) : t :=
  let smooth_factor :=
    if ltb (current_volume self) (target_volume self)
    then volume_smooth_factor self else volume_fast_decay_factor self in
  set_current_volume
    (current_volume self + (target_volume self - current_volume self) * smooth_factor) self.

(** Small differences snap to the target. *)
Definition snap (self : t) : t :=
  if ltb (Py.abs (current_volume self - target_volume self)) 0.005
  then set_current_volume (target_volume self) self else self.

(** Continuous sound volume. *)
Definition push_target (self : t) : t :=
  if AudioPlayer.is_continuous_playing 1 (audio_player self)
  then set_audio_player
         (AudioPlayer.set_continuous_volume 1 (current_volume self) (audio_player self)) self
  else self.

(** Logging of large volume changes; [last_logged_volume] becomes an
    attribute on the first call. *)
Definition log_volume (self : t) : t :=
  match last_logged_volume self with
  | Some logged =>
      if ltb 0.05 (Py.abs (current_volume self - logged))
      then set_last_logged_volume (Some (current_volume self)) self else self
  | None => set_last_logged_volume (Some (current_volume self)) self
  end.

Definition _update_ra_motion_volume (ra_motion_fired : bool) (current_time : Q)
           (self : t) (m : Pygame.mixer) : t * Pygame.mixer :=
  let self := record_spike ra_motion_fired current_time self in
  let self := refresh_rate current_time self in
  let self := retarget self in
  let self := smooth self in
  let self := snap self in
  let self := push_target self in
  let '(ap, m) := AudioPlayer.update_volumes (audio_player self) m in
  let self := set_audio_player ap self in
  let self := log_volume self in
  (self, m).

(** [step(mouse_speed, avg_mouse_speed)]; [current_time] is the reading of
  [time.perf_counter()]. *)
Definition step (mouse_speed avg_mouse_speed : Q) (current_time : Q)
         (self : t) (m : Pygame.mixer)
  : (bool * bool * bool * (Q * Q) * (Q * Q) * (Q * Q)) * t * Pygame.mixer :=
  let '(out, enc) :=
  SpikeEncoder_step mouse_speed avg_mouse_speed (current_roughness self)
    (mouse_pressed self) (spike_encoder self) in
  let self := set_spike_encoder enc self in
  let '(sa_fired, ra_motion_fired, ra_click_fired, sa_vu, ra_motion_vu, ra_click_vu) := out in
  let m :=
  if (sa_fired : bool) then
    let volume := Config.sa_sound_volume (Config.snd (config self)) in
    (AudioPlayer.play_sound (sa_sound self) 0 volume (audio_player self) m).2
  else m in
  let m :=
  if (ra_click_fired : bool) then
    let volume := Config.ra_click_volume (Config.snd (config self)) in
    (AudioPlayer.play_sound (ra_click_sound self) 2 volume (audio_player self) m).2
  else m in
  let '(self, m) := _update_ra_motion_volume ra_motion_fired current_time self m in
  (out, self, m).

Definition mouse_press (click_magnitude : option Q) (self : t) (m : Pygame.mixer)
  : t * Pygame.mixer :=
  let self := set_mouse_pressed true self in
  let click_magnitude :=
  match click_magnitude with
  | Some x => x
  | None => Config.click_mag (Config.input (config self))
  end in
  let self :=
  set_spike_encoder (SpikeEncoder_update_sa_input click_magnitude (spike_encoder self)) self in
  let volume := Config.ra_click_volume (Config.snd (config self)) in
  (self, (AudioPlayer.play_sound (ra_click_sound self) 2 volume (audio_player self) m).2).

Definition mouse_release (self : t) : t :=
  let self := set_mouse_pressed false self in
  let self := set_spike_encoder (SpikeEncoder_update_sa_input 0 (spike_encoder self)) self in
  let self := set_target_volume 0 self in
  let self := set_current_volume 0 self in
  if AudioPlayer.is_continuous_playing 1 (audio_player self)
  then set_audio_player (AudioPlayer.set_continuous_volume 1 0 (audio_player self)) self
  else self.

(** [cleanup()]: every continuous sound is stopped, then the player quits. *)
Definition cleanup (self : t) (m : Pygame.mixer) : t * Pygame.mixer :=
  let '(ap, m) := AudioPlayer.stop_all_continuous (audio_player self) m in
  let '(ap, m) := AudioPlayer.quit ap m in
  (set_audio_player ap self, m).
End WithEncoder.
End HapticSystem.

(* ===================================================================== *)
(** * Call sequences and concrete instances                               *)
(* ===================================================================== *)

Module Trace.
Local Open Scope Q_scope.

Section WithEncoder.
Context `{SpikeEncoderImpl}.

(** The calls a driver makes on a running system.  A tick carries the
  pointer speeds and the clock reading. *)
Inductive call :=
| Step (mouse_speed avg_mouse_speed current_time : Q)
| MousePress (click_magnitude : option Q)
| MouseRelease.

Definition perform (c : call) (st : HapticSystem.t * Pygame.mixer)
  : HapticSystem.t * Pygame.mixer :=
  let '(self, m) := st in
  match c with
  | Step mouse_speed avg_mouse_speed current_time =>
    let '(_, self, m) := HapticSystem.step mouse_speed avg_mouse_speed current_time self m in
    (self, m)
  | MousePress click_magnitude => HapticSystem.mouse_press click_magnitude self m
  | MouseRelease => (HapticSystem.mouse_release self, m)
  end.

Definition run (calls : list call) (st : HapticSystem.t * Pygame.mixer)
  : HapticSystem.t * Pygame.mixer :=
  fold_left (fun st c => perform c st) calls st.

(** A run of ticks only, given as (speed, average speed, clock) triples. *)
Definition ticks (inputs : list (Q * Q * Q)) : list call :=
  map (fun i => Step i.1.1 i.1.2 i.2) inputs.
End WithEncoder.
End Trace.

Module Fixture.
Local Open Scope Q_scope.
Local Open Scope string_scope.

(** An interpretation of the math library under which every waveform is
    silent; closed examples need some interpretation. *)
Definition silent : Libm := Build_Libm (fun _ => 0) (fun _ => 0) (fun _ => 0) (fun _ => 0).

(** The object [HapticSystem.__init__] assembles for [config] whose first
    material is [(key, props)], before any sound has been generated: the
    cache is empty and the sound attributes refer to address 0. *)
Definition system (config : Config.t) (key : string) (props : Config.material)
  : @HapticSystem.t SpecEncoder.impl :=
  @HapticSystem.new SpecEncoder.impl
    config (AudioPlayer.__init__ true) HapticRenderer.default
    (SpecEncoder.__init__ (Config.sa_neuron config) (Config.ra_neuron config)
       (Config.ra_click_neuron config) (Config.neuron_dt_ms config) (Config.input config))
    (Config.materials config) (map fst (Config.materials config))
    key (Config.r props) empty 0%nat 0%nat 0%nat 0%nat 0.

Definition glass : Config.material :=
  Config.mkMaterial 0.05 1.6 (Some "glass") {[ "brightness" := 3 ]}.

(** The shipped configuration. *)
Definition shipped : @HapticSystem.t SpecEncoder.impl :=
  system Config.get_haptic_config "Glass" glass.


(** The clock of a driver that ticks every millisecond, from 0. *)
Definition millisecond_ticks (n : nat) : list (Q * bool) :=
  map (fun k => (inject_Z (Z.of_nat k) / 1000, false)) (seq 0 n).

End Fixture.

(* ===================================================================== *)
(** * Notions used in the statements                                      *)
(* ===================================================================== *)

Module Notions.
Local Open Scope Q_scope.
Local Open Scope string_scope.

Section WithEncoder.
Context `{SpikeEncoderImpl}.

(** The attributes that no method assigns after construction. *)
Definition same_constants (s s' : HapticSystem.t) : Prop :=
  HapticSystem.config s' = HapticSystem.config s /\
  HapticSystem.volume_smooth_factor s' = HapticSystem.volume_smooth_factor s /\
  HapticSystem.volume_fast_decay_factor s' = HapticSystem.volume_fast_decay_factor s /\
  HapticSystem.spike_window_duration_sec s' = HapticSystem.spike_window_duration_sec s /\
  HapticSystem.spike_rate_update_interval s' = HapticSystem.spike_rate_update_interval s.

(** Two objects agree on every attribute of the volume controller. *)
Definition same_controller (s s' : HapticSystem.t) : Prop :=
  same_constants s s' /\
  HapticSystem.mouse_pressed s' = HapticSystem.mouse_pressed s /\
  HapticSystem.target_volume s' = HapticSystem.target_volume s /\
  HapticSystem.current_volume s' = HapticSystem.current_volume s /\
  HapticSystem.current_spike_rate s' = HapticSystem.current_spike_rate s /\
  HapticSystem.ra_motion_spike_timestamps s' = HapticSystem.ra_motion_spike_timestamps s /\
  HapticSystem.spike_rate_update_counter s' = HapticSystem.spike_rate_update_counter s.

(** Both volumes of the controller lie in [0, 1]. *)
Definition volumes_in_unit_interval (s : HapticSystem.t) : Prop :=
  (0 <= HapticSystem.target_volume s /\ HapticSystem.target_volume s <= 1) /\
  (0 <= HapticSystem.current_volume s /\ HapticSystem.current_volume s <= 1).

(** The state after a tick, from the triple that [step] returns. *)
Definition after_step (mouse_speed avg_mouse_speed current_time : Q)
           (self : HapticSystem.t) (m : Pygame.mixer) : HapticSystem.t :=
  (HapticSystem.step mouse_speed avg_mouse_speed current_time self m).1.2.

(** The volume controller alone, run on a sequence of clock readings and
    motion spike flags. *)
Definition controller_run (ticks : list (Q * bool)) (st : HapticSystem.t * Pygame.mixer)
  : HapticSystem.t * Pygame.mixer :=
  fold_left (fun st tick => HapticSystem._update_ra_motion_volume tick.2 tick.1 st.1 st.2)
            ticks st.

(** The objects that the constructor can leave behind. *)
Definition freshly_constructed (s : HapticSystem.t) : Prop :=
  exists config audio_player haptic_renderer spike_encoder materials material_keys
         current_material_key current_roughness sound_cache
         sa_sound ra_motion_sound ra_click_sound ra_motion_loop_sound now,
    s = HapticSystem.new config audio_player haptic_renderer spike_encoder materials
          material_keys current_material_key current_roughness sound_cache
          sa_sound ra_motion_sound ra_click_sound ra_motion_loop_sound now.

(** The invariant of the controller: smoothing factors and volumes in
    [0, 1]. *)
Definition controller_invariant (s : HapticSystem.t) : Prop :=
  (0 <= HapticSystem.volume_smooth_factor s <= 1) /\
  (0 <= HapticSystem.volume_fast_decay_factor s <= 1) /\
  volumes_in_unit_interval s.
End WithEncoder.

(** One smoothing update toward [target] with the factor [factor], followed
    by the snap. *)
Definition smooth_toward (target factor current : Q) : Q :=
  let moved := current + (target - current) * factor in
  if Py.ltb (Py.abs (moved - target)) 0.005 then target else moved.


(** The number of samples of a sound of [ms] milliseconds, as the default
    renderer computes it. *)
Definition samples (ms : Q) : Z :=
  Py.int (inject_Z (HapticRenderer.sample_rate HapticRenderer.default) * (ms / 1000)).

(** A stage of a generator that returns an array as long as its input. *)
Definition keeps_length (n_s : Z) (stage : list Q -> Py.result (list Q)) : Prop :=
  forall w, length w = Z.to_nat n_s ->
    exists w', stage w = Py.Ok w' /\ length w' = Z.to_nat n_s.

(** The generator returns a buffer of [samples ms] samples. *)
Definition returns_samples (ms : Q) (r : Py.result (list Z)) : Prop :=
  exists buf, r = Py.Ok buf /\ length buf = Z.to_nat (samples ms).

(** The keyword parameter of the generator of each material type; other
    types fall back to the plain tone, which takes none. *)
Definition material_kwarg (material_type : string) : option string :=
  if String.eqb material_type "glass" then Some "brightness"
  else if String.eqb material_type "metal" then Some "resonance"
  else if String.eqb material_type "wood" then Some "warmth"
  else if String.eqb material_type "plastic" then Some "hardness"
  else if String.eqb material_type "fabric" then Some "softness"
  else if String.eqb material_type "ceramic" then Some "brittleness"
  else if String.eqb material_type "rubber" then Some "elasticity"
  else None.

(** The keyword arguments are acceptable for the material type: they name
    nothing but the parameter of its generator. *)
Definition valid_kwargs (material_type : string) (kwargs : gmap string Q) : Prop :=
  match material_kwarg material_type with
  | Some name => delete name kwargs = empty
  | None => True
  end.






(** The range of [np.int16]. *)
Definition in_int16 (z : Z) : Prop := (-32768 <= z <= 32767)%Z.

(** Every entry of a timestamp window is at least as recent as [cutoff]. *)
Definition none_older (cutoff : Q) (window : list (Q * bool)) : Prop :=
  Forall (fun e => cutoff <= e.1) window.
End Notions.

(* ===================================================================== *)
(** * Call sequences                                                      *)
(* ===================================================================== *)

Module PlayerTrace.
Local Open Scope Q_scope.

(** The calls a client makes on an [AudioPlayer]. *)
Inductive call :=
| PlaySound (sound_object : Pygame.ref) (channel_id : Z) (volume : Q)
| StartContinuousSound (sound_object : Pygame.ref) (channel_id : Z) (initial_volume : Q)
| SetContinuousVolume (channel_id : Z) (target_volume : Q)
| UpdateVolumes
| StopContinuousSound (channel_id : Z)
| Quit.

Definition perform (c : call) (st : AudioPlayer.t * Pygame.mixer)
  : AudioPlayer.t * Pygame.mixer :=
  let '(self, m) := st in
  match c with
  | PlaySound sound_object channel_id volume =>
      (self, (AudioPlayer.play_sound sound_object channel_id volume self m).2)
  | StartContinuousSound sound_object channel_id initial_volume =>
      let '(_, self, m) :=
        AudioPlayer.start_continuous_sound sound_object channel_id initial_volume self m in
      (self, m)
  | SetContinuousVolume channel_id target_volume =>
      (AudioPlayer.set_continuous_volume channel_id target_volume self, m)
  | UpdateVolumes => AudioPlayer.update_volumes self m
  | StopContinuousSound channel_id => AudioPlayer.stop_continuous_sound channel_id self m
  | Quit => AudioPlayer.quit self m
  end.

Definition run (calls : list call) (st : AudioPlayer.t * Pygame.mixer)
  : AudioPlayer.t * Pygame.mixer :=
  fold_left (fun st c => perform c st) calls st.

(** The continuous sounds of the call sequence start at volumes in
    [0, 1]. *)
Definition starts_in_unit_interval (c : call) : Prop :=
  match c with
  | StartContinuousSound _ _ initial_volume => 0 <= initial_volume /\ initial_volume <= 1
  | _ => True
  end.
End PlayerTrace.

Module Session.
Local Open Scope Q_scope.

Section WithEncoder.
Context `{SpikeEncoderImpl}.

(** The calls a front end makes on the coordinator between its construction
    and its [cleanup]. *)
Inductive call :=
| Step (mouse_speed avg_mouse_speed current_time : Q)
| MousePress (click_magnitude : option Q)
| MouseRelease
| UpdateMouseState (pressed : bool) (speed avg_speed : Q)
| ChangeMaterial (material_index : Z).

Definition perform (c : call) (st : HapticSystem.t * Pygame.mixer)
  : Py.result (HapticSystem.t * Pygame.mixer) :=
  let '(self, m) := st in
  match c with
  | Step mouse_speed avg_mouse_speed current_time =>
      let '(_, self, m) := HapticSystem.step mouse_speed avg_mouse_speed current_time self m in
      Py.Ok (self, m)
  | MousePress click_magnitude => Py.Ok (HapticSystem.mouse_press click_magnitude self m)
  | MouseRelease => Py.Ok (HapticSystem.mouse_release self, m)
  | UpdateMouseState pressed speed avg_speed =>
      Py.Ok (HapticSystem.update_mouse_state pressed speed avg_speed self, m)
  | ChangeMaterial material_index =>
      let* r := HapticSystem.change_material material_index self m in
      Py.Ok (r.1.2, r.2)
  end.

Fixpoint run (calls : list call) (st : HapticSystem.t * Pygame.mixer)
  : Py.result (HapticSystem.t * Pygame.mixer) :=
  match calls with
  | [] => Py.Ok st
  | c :: rest => let* st := perform c st in run rest st
  end.
End WithEncoder.
End Session.

(* ===================================================================== *)
(** * Invariants of the player, the coordinator and the renderer          *)
(* ===================================================================== *)

Module PlayerNotions.
Local Open Scope Q_scope.

(** The bookkeeping of a player is consistent: the three dictionaries have
    the same keys, in the same order, each once. *)
Definition consistent (self : AudioPlayer.t) : Prop :=
  List.NoDup (Py.dict_keys (AudioPlayer.continuous_channels self)) /\
  Py.dict_keys (AudioPlayer.target_volumes self)
  = Py.dict_keys (AudioPlayer.continuous_channels self) /\
  Py.dict_keys (AudioPlayer.current_volumes self)
  = Py.dict_keys (AudioPlayer.continuous_channels self).

(** One update of a volume toward its target, as [update_volumes] does it
    for a channel. *)
Definition approach (factor target_vol current_vol : Q) : Q :=
  let new_vol := current_vol + (target_vol - current_vol) * factor in
  if Py.ltb (Py.abs (new_vol - target_vol)) 0.001 then target_vol else new_vol.

(** The invariant of a player along its calls. *)
Definition player_invariant (self : AudioPlayer.t) : Prop :=
  consistent self /\ AudioPlayer.volume_smooth_factor self = 0.15 /\
  (AudioPlayer.is_initialized self = false -> AudioPlayer.continuous_channels self = []).

(** Every target and current volume of the player lies in [0, 1]. *)
Definition unit_volumes (self : AudioPlayer.t) : Prop :=
  Forall (fun kv => 0 <= kv.2 <= 1) (AudioPlayer.target_volumes self) /\
  Forall (fun kv => 0 <= kv.2 <= 1) (AudioPlayer.current_volumes self).
End PlayerNotions.

Module SystemNotions.
Local Open Scope Q_scope.
Local Open Scope string_scope.
Import HapticSystem Notions.

Section WithEncoder.
Context `{SpikeEncoderImpl}.

(** The three sounds of every material are in the cache. *)
Definition sounds_cached (s : t) : Prop :=
  forall key, In key (material_keys s) ->
    exists sounds,
      current_material_sounds (Config.snd (config s)) (materials s) key (sound_cache s)
      = Py.Ok sounds.

(** The selected material is one of the materials, and the roughness and
    the three selected sounds are its own. *)
Definition material_selected (s : t) : Prop :=
  (exists props,
     materials_get (current_material_key s) (materials s) = Py.Ok props /\
     current_roughness s = Config.r props) /\
  current_material_sounds (Config.snd (config s)) (materials s) (current_material_key s)
    (sound_cache s)
  = Py.Ok (ra_motion_sound s, ra_click_sound s, ra_motion_loop_sound s).

(** The object is as the constructor sets it up: the materials are those
    of the configuration and every sound is in the cache. *)
Definition set_up (s : t) : Prop :=
  materials s = Config.materials (config s) /\
  material_keys s = map fst (materials s) /\
  sounds_cached s /\ material_selected s.

(** The looping sound of the selected material plays on channel 1, at the
    volume of the controller; or the mixer could not be opened and the
    player keeps nothing. *)
Definition loop_follows_controller (s : t) (m : Pygame.mixer) : Prop :=
  let player := audio_player s in
  if AudioPlayer.is_initialized player then
    AudioPlayer.continuous_channels player = [(1%Z, ra_motion_loop_sound s)] /\
    AudioPlayer.target_volumes player = [(1%Z, current_volume s)] /\
    (exists v, AudioPlayer.current_volumes player = [(1%Z, v)] /\ 0 <= v /\ v <= 1) /\
    AudioPlayer.volume_smooth_factor player = 0.15 /\
    Py.dict_get 1 (Pygame.mx_playing m) = Some (ra_motion_loop_sound s, (-1)%Z)
  else player = AudioPlayer.mk false [] [] [] 0.15.

(** The attributes that only the constructor and [change_material]
    assign. *)
Definition same_materials (s s' : t) : Prop :=
  config s' = config s /\ materials s' = materials s /\
  material_keys s' = material_keys s /\
  current_material_key s' = current_material_key s /\
  current_roughness s' = current_roughness s /\
  sound_cache s' = sound_cache s /\ sa_sound s' = sa_sound s /\
  ra_motion_sound s' = ra_motion_sound s /\ ra_click_sound s' = ra_click_sound s /\
  ra_motion_loop_sound s' = ra_motion_loop_sound s.

(** The mixer between two points of a call: channel 1 is as it was, and
    only the pressure sound and the click sound may have another volume. *)
Definition one_shots (self : t) (m m1 : Pygame.mixer) : Prop :=
  Py.dict_get 1 (Pygame.mx_playing m1) = Py.dict_get 1 (Pygame.mx_playing m) /\
  (forall r, r <> sa_sound self -> r <> ra_click_sound self ->
     lookup r (Pygame.mx_sounds m1) = lookup r (Pygame.mx_sounds m)) /\
  (AudioPlayer.is_initialized (audio_player self) = false -> m1 = m).

(** What holds of the coordinator and the mixer between any two calls of a
    session. *)
Definition operational (s : t) (m : Pygame.mixer) : Prop :=
  set_up s /\ loop_follows_controller s m /\ controller_invariant s.

(** The player of the coordinator: its invariant, and whether the mixer was
    opened. *)
Definition player_live (mixer_ok : bool) (self : t) : Prop :=
  PlayerNotions.player_invariant (audio_player self) /\
  AudioPlayer.is_initialized (audio_player self) = mixer_ok.
End WithEncoder.

(** The volume scales of the configuration lie in [0, 1]. *)
Definition unit_scales (config : Config.t) : Prop :=
  (0 <= Config.ra_motion_min_vol_scl (Config.snd config) /\
   Config.ra_motion_min_vol_scl (Config.snd config) <= 1) /\
  (0 <= Config.ra_motion_max_vol_scl (Config.snd config) /\
   Config.ra_motion_max_vol_scl (Config.snd config) <= 1).

(** The three cache keys of a material are in the cache. *)
Definition material_cached (snd_cfg : Config.sound) (cache : gmap string Pygame.ref)
           (entry : string * Config.material) : Prop :=
  let ra_motion_hz := Py.int (Config.ra_motion_base_hz snd_cfg * Config.f entry.2) in
  let ra_click_hz := Py.int (Config.ra_click_hz snd_cfg * Config.f entry.2) in
  is_Some (cache !! cache_key "ra_motion" entry.1 ra_motion_hz) /\
  is_Some (cache !! cache_key "ra_click" entry.1 ra_click_hz) /\
  is_Some (cache !! cache_key "ra_motion_loop" entry.1 ra_motion_hz).

(** The keyword parameters of the material are those of the generator of
    its type. *)
Definition material_valid (entry : string * Config.material) : Prop :=
  match Config.type entry.2 with
  | Some material_type => valid_kwargs material_type (Config.params entry.2)
  | None => True
  end.

(** The configurations that the constructor accepts: at least one
    material, durations that are not negative, and for every material the
    keyword parameters of its type. *)
Definition constructible (config : Config.t) : Prop :=
  Config.materials config <> [] /\
  0 <= Config.sa_ms (Config.snd config) /\
  0 <= Config.ra_motion_ms (Config.snd config) /\
  0 <= Config.ra_click_ms (Config.snd config) /\
  Forall material_valid (Config.materials config).

(** The rate lies between 40 and 200 times a spike count. *)
Definition rate_of_count (rate : Q) : Prop :=
  exists spike_count : Z,
    (0 <= spike_count)%Z /\
    40 * inject_Z spike_count <= rate /\ rate <= 200 * inject_Z spike_count.
End SystemNotions.

Module RendererNotions.
End RendererNotions.

(* ===================================================================== *)
(** * Comparisons and clipping                                            *)
(* ===================================================================== *)

Section Scalars.
Local Open Scope Q_scope.

Lemma ltb_true (x y : Q) : Py.ltb x y = true <-> x < y.
Proof.
  unfold Py.ltb. rewrite negb_true_iff, <- not_true_iff_false, Qle_bool_iff.
  split; [apply Qnot_le_lt | apply Qlt_not_le].
Qed.

Lemma ltb_false (x y : Q) : Py.ltb x y = false <-> y <= x.
Proof.
  unfold Py.ltb. rewrite negb_false_iff, Qle_bool_iff. tauto.
Qed.

Lemma leb_true (x y : Q) : Py.leb x y = true <-> x <= y.
Proof. apply Qle_bool_iff. Qed.

Lemma leb_false (x y : Q) : Py.leb x y = false <-> y < x.
Proof.
  unfold Py.leb. rewrite <- not_true_iff_false, Qle_bool_iff.
  split; [apply Qnot_le_lt | apply Qlt_not_le].
Qed.
End Scalars.

(** Case analysis on every float comparison in sight, leaving the order
    facts as hypotheses. *)
Ltac float_case :=
  match goal with
  | |- context [Py.ltb ?x ?y] =>
      let b := fresh "b" in let E := fresh "E" in
      remember (Py.ltb x y) as b eqn:E in *; symmetry in E;
      destruct b; [apply ltb_true in E | apply ltb_false in E]
  | |- context [Py.leb ?x ?y] =>
      let b := fresh "b" in let E := fresh "E" in
      remember (Py.leb x y) as b eqn:E in *; symmetry in E;
      destruct b; [apply leb_true in E | apply leb_false in E]
  | H : context [Py.ltb ?x ?y] |- _ =>
      let b := fresh "b" in let E := fresh "E" in
      remember (Py.ltb x y) as b eqn:E in *; symmetry in E;
      destruct b; [apply ltb_true in E | apply ltb_false in E]
  | H : context [Py.leb ?x ?y] |- _ =>
      let b := fresh "b" in let E := fresh "E" in
      remember (Py.leb x y) as b eqn:E in *; symmetry in E;
      destruct b; [apply leb_true in E | apply leb_false in E]
  end.
Ltac float_cases := repeat float_case.

Section Scalars2.
Local Open Scope Q_scope.

Lemma clip1_id (x lo hi : Q) : lo <= x -> x <= hi -> Np.clip1 x lo hi = x.
Proof.
  intros Hlo Hhi. unfold Np.clip1, Py.min, Py.max.
  float_cases; try reflexivity; lra.
Qed.

Lemma clip1_range (x lo hi : Q) : lo <= hi -> lo <= Np.clip1 x lo hi <= hi.
Proof.
  intros Hlh. unfold Np.clip1, Py.min, Py.max.
  float_cases; lra.
Qed.

Lemma Qabs_lt_iff (x y : Q) : Qabs x < y <-> - y < x /\ x < y.
Proof. apply Qabs_Qlt_condition. Qed.

Lemma Qabs_le_iff (x y : Q) : Qabs x <= y <-> - y <= x /\ x <= y.
Proof. apply Qabs_Qle_condition. Qed.
End Scalars2.

(* ===================================================================== *)
(** * The rate-to-volume map                                              *)
(* ===================================================================== *)

Section RateToVolume.
Local Open Scope Q_scope.
Context `{SpikeEncoderImpl}.
Variable self : HapticSystem.t.

Let min_volume := Config.ra_motion_min_vol_scl (Config.snd (HapticSystem.config self)).
Let max_volume := Config.ra_motion_max_vol_scl (Config.snd (HapticSystem.config self)).
Let volume (r : Q) := HapticSystem._spike_rate_to_volume r self.















End RateToVolume.

Section C1.
Local Open Scope Q_scope.



End C1.

(* ===================================================================== *)
(** * The volume controller                                               *)
(* ===================================================================== *)

(** Case analysis on the branches of a method body. *)
Ltac branch :=
  match goal with
  | |- context [if ?b then _ else _] => destruct b eqn:?
  | |- context [let '(_, _) := ?p in _] => destruct p eqn:?
  | |- context [match ?o with Some _ => _ | None => _ end] => destruct o eqn:?
  end.

(** Reduction of attribute reads on an object given by its attributes. *)
Tactic Notation "fields" "in" hyp(H) :=
  cbn [HapticSystem.set_audio_player HapticSystem.set_spike_encoder
       HapticSystem.set_current_material_key HapticSystem.set_current_roughness
       HapticSystem.set_ra_motion_sound HapticSystem.set_ra_click_sound
       HapticSystem.set_ra_motion_loop_sound HapticSystem.set_ra_motion_spike_timestamps
       HapticSystem.set_current_spike_rate HapticSystem.set_target_volume
       HapticSystem.set_current_volume HapticSystem.set_spike_rate_update_counter
       HapticSystem.set_mouse_pressed HapticSystem.set_last_logged_volume
       HapticSystem.config HapticSystem.audio_player HapticSystem.haptic_renderer
       HapticSystem.spike_encoder HapticSystem.materials HapticSystem.material_keys
       HapticSystem.current_material_key HapticSystem.current_roughness
       HapticSystem.sound_cache HapticSystem.sa_sound HapticSystem.ra_motion_sound
       HapticSystem.ra_click_sound HapticSystem.ra_motion_loop_sound
       HapticSystem.spike_window_duration_sec HapticSystem.ra_motion_spike_timestamps
       HapticSystem.current_spike_rate HapticSystem.target_volume
       HapticSystem.current_volume HapticSystem.volume_smooth_factor
       HapticSystem.volume_fast_decay_factor HapticSystem.spike_rate_update_interval
       HapticSystem.spike_rate_update_counter HapticSystem.mouse_pressed
       HapticSystem.last_mouse_time HapticSystem.last_logged_volume
       HapticSystem.new fst snd] in H.
Ltac fields :=
  cbn [HapticSystem.set_audio_player HapticSystem.set_spike_encoder
       HapticSystem.set_current_material_key HapticSystem.set_current_roughness
       HapticSystem.set_ra_motion_sound HapticSystem.set_ra_click_sound
       HapticSystem.set_ra_motion_loop_sound HapticSystem.set_ra_motion_spike_timestamps
       HapticSystem.set_current_spike_rate HapticSystem.set_target_volume
       HapticSystem.set_current_volume HapticSystem.set_spike_rate_update_counter
       HapticSystem.set_mouse_pressed HapticSystem.set_last_logged_volume
       HapticSystem.config HapticSystem.audio_player HapticSystem.haptic_renderer
       HapticSystem.spike_encoder HapticSystem.materials HapticSystem.material_keys
       HapticSystem.current_material_key HapticSystem.current_roughness
       HapticSystem.sound_cache HapticSystem.sa_sound HapticSystem.ra_motion_sound
       HapticSystem.ra_click_sound HapticSystem.ra_motion_loop_sound
       HapticSystem.spike_window_duration_sec HapticSystem.ra_motion_spike_timestamps
       HapticSystem.current_spike_rate HapticSystem.target_volume
       HapticSystem.current_volume HapticSystem.volume_smooth_factor
       HapticSystem.volume_fast_decay_factor HapticSystem.spike_rate_update_interval
       HapticSystem.spike_rate_update_counter HapticSystem.mouse_pressed
       HapticSystem.last_mouse_time HapticSystem.last_logged_volume
       HapticSystem.new fst snd].

Section Controller.
Local Open Scope Q_scope.
Context `{SpikeEncoderImpl}.
Import HapticSystem Notions.



(** The sound side of a tick leaves the controller's attributes alone. *)
Lemma update_ra_motion_volume_controller (fired : bool) (now : Q) (self : t) (m : Pygame.mixer) :
  same_controller (snap (smooth (retarget (refresh_rate now (record_spike fired now self)))))
                  (_update_ra_motion_volume fired now self m).1.
Proof.
  unfold _update_ra_motion_volume.
  generalize (snap (smooth (retarget (refresh_rate now (record_spike fired now self))))).
  intros s. destruct (AudioPlayer.update_volumes _ _) as [ap m']. cbn [fst].
  unfold same_controller, same_constants, log_volume, push_target.
  repeat branch; fields; repeat split.
Qed.

(** Each conditional block, as assignments whose values carry the
    condition. *)
Lemma refresh_rate_assignments (now : Q) (self : t) :
  let recompute :=
    (spike_rate_update_interval self <=? spike_rate_update_counter self + 1)%Z in
  let counted := set_spike_rate_update_counter (spike_rate_update_counter self + 1)%Z self in
  refresh_rate now self =
  set_spike_rate_update_counter (if recompute then 0 else spike_rate_update_counter self + 1)%Z
    (set_current_spike_rate
       (if recompute then (_calculate_spike_rate now counted).1 else current_spike_rate self)
       (set_ra_motion_spike_timestamps
          (if recompute
           then prune (now - spike_window_duration_sec self) (ra_motion_spike_timestamps self)
           else ra_motion_spike_timestamps self) self)).
Proof.
  destruct self. unfold refresh_rate, _calculate_spike_rate. fields.
  branch; reflexivity.
Qed.

Lemma retarget_assignments (self : t) :
  retarget self =
  set_target_volume
    (if mouse_pressed self && Py.ltb 0 (current_spike_rate self)
     then _spike_rate_to_volume (current_spike_rate self) self else 0) self.
Proof. unfold retarget. branch; reflexivity. Qed.

Lemma snap_assignments (self : t) :
  snap self =
  set_current_volume
    (if Py.ltb (Py.abs (current_volume self - target_volume self)) 0.005
     then target_volume self else current_volume self) self.
Proof. destruct self. unfold snap. fields. branch; reflexivity. Qed.

Lemma spike_rate_to_volume_config (r : Q) (s1 s2 : t) :
  config s1 = config s2 -> _spike_rate_to_volume r s1 = _spike_rate_to_volume r s2.
Proof. intros E. unfold _spike_rate_to_volume. rewrite E. reflexivity. Qed.

(** What one controller tick does to the attributes of the controller. *)
Lemma update_ra_motion_volume_fields (fired : bool) (now : Q) (self : t) (m : Pygame.mixer) :
  let s' := (_update_ra_motion_volume fired now self m).1 in
  let recompute :=
    (spike_rate_update_interval self <=? spike_rate_update_counter self + 1)%Z in
  same_constants self s' /\
  mouse_pressed s' = mouse_pressed self /\
  target_volume s' =
    (if mouse_pressed self && Py.ltb 0 (current_spike_rate s')
     then _spike_rate_to_volume (current_spike_rate s') self else 0) /\
  current_volume s' =
    smooth_toward (target_volume s')
      (if Py.ltb (current_volume self) (target_volume s')
       then volume_smooth_factor self else volume_fast_decay_factor self)
      (current_volume self) /\
  ra_motion_spike_timestamps s' =
    (let appended := ra_motion_spike_timestamps self ++ [(now, fired)] in
     if recompute then prune (now - spike_window_duration_sec self) appended else appended) /\
  spike_rate_update_counter s' =
    (if recompute then 0 else spike_rate_update_counter self + 1)%Z.
Proof.
  intros s' recompute.
  destruct (update_ra_motion_volume_controller fired now self m)
    as ((E1 & E2 & E3 & E4 & E5) & E6 & E7 & E8 & E9 & E10 & E11).
  fold s' in E1, E2, E3, E4, E5, E6, E7, E8, E9, E10, E11.
  unfold same_constants. rewrite E1, E2, E3, E4, E5, E6, E7, E8, E9, E10, E11.
  clear. rewrite snap_assignments, retarget_assignments, refresh_rate_assignments.
  unfold smooth, record_spike. fields. fold recompute.
  repeat split; try reflexivity.
Qed.

(** A tick of the whole system is a controller tick on the state in which
    the encoder has advanced. *)
Lemma after_step_is_update (mouse_speed avg_mouse_speed now : Q) (self : t) (m : Pygame.mixer) :
  exists fired enc m',
    after_step mouse_speed avg_mouse_speed now self m
    = (_update_ra_motion_volume fired now (set_spike_encoder enc self) m').1.
Proof.
  unfold after_step, step.
  destruct (SpikeEncoder_step _ _ _ _ _) as [[[[[[sa_fired fired] click_fired] ?] ?] ?] enc].
  match goal with
  | |- context [_update_ra_motion_volume fired now ?s ?m'] =>
      exists fired, enc, m'; destruct (_update_ra_motion_volume fired now s m'); reflexivity
  end.
Qed.

Lemma step_fields (mouse_speed avg_mouse_speed now : Q) (self : t) (m : Pygame.mixer) :
  let s' := after_step mouse_speed avg_mouse_speed now self m in
  let recompute :=
    (spike_rate_update_interval self <=? spike_rate_update_counter self + 1)%Z in
  same_constants self s' /\
  mouse_pressed s' = mouse_pressed self /\
  target_volume s' =
    (if mouse_pressed self && Py.ltb 0 (current_spike_rate s')
     then _spike_rate_to_volume (current_spike_rate s') self else 0) /\
  current_volume s' =
    smooth_toward (target_volume s')
      (if Py.ltb (current_volume self) (target_volume s')
       then volume_smooth_factor self else volume_fast_decay_factor self)
      (current_volume self) /\
  (exists fired,
     ra_motion_spike_timestamps s' =
       (let appended := ra_motion_spike_timestamps self ++ [(now, fired)] in
        if recompute then prune (now - spike_window_duration_sec self) appended else appended)) /\
  spike_rate_update_counter s' =
    (if recompute then 0 else spike_rate_update_counter self + 1)%Z.
Proof.
  destruct (after_step_is_update mouse_speed avg_mouse_speed now self m)
    as (fired & enc & m' & ->).
  pose proof (update_ra_motion_volume_fields fired now (set_spike_encoder enc self) m') as Hf.
  unfold same_constants in *. fields in Hf.
  rewrite (spike_rate_to_volume_config _ (set_spike_encoder enc self) self) in Hf
    by reflexivity.
  destruct Hf as (Hc & Hp & Ht & Hv & Hw & Hk).
  split; [exact Hc|]. split; [exact Hp|]. split; [exact Ht|]. split; [exact Hv|].
  split; [exists fired; exact Hw | exact Hk].
Qed.

Lemma mouse_press_fields (click_magnitude : option Q) (self : t) (m : Pygame.mixer) :
  let s' := (mouse_press click_magnitude self m).1 in
  same_constants self s' /\ mouse_pressed s' = true /\
  target_volume s' = target_volume self /\ current_volume s' = current_volume self /\
  ra_motion_spike_timestamps s' = ra_motion_spike_timestamps self /\
  spike_rate_update_counter s' = spike_rate_update_counter self.
Proof. unfold mouse_press, same_constants. fields. repeat split. Qed.

Lemma mouse_release_fields (self : t) :
  let s' := mouse_release self in
  same_constants self s' /\ mouse_pressed s' = false /\
  target_volume s' = 0 /\ current_volume s' = 0 /\
  ra_motion_spike_timestamps s' = ra_motion_spike_timestamps self /\
  spike_rate_update_counter s' = spike_rate_update_counter self.
Proof. unfold mouse_release, same_constants. branch; fields; repeat split. Qed.

Lemma perform_constants (c : Trace.call) (st : t * Pygame.mixer) :
  same_constants st.1 (Trace.perform c st).1.
Proof.
  destruct st as [self m]. destruct c as [ms av now|cm|]; cbn [Trace.perform fst snd].
  - pose proof (step_fields ms av now self m) as (Hc & _). unfold after_step in Hc.
    destruct (step ms av now self m) as [[out s'] m']. exact Hc.
  - apply mouse_press_fields.
  - apply mouse_release_fields.
Qed.


(** ** Range of the volumes *)

Lemma spike_rate_to_volume_range (r : Q) (self : t) :
  let snd_cfg := Config.snd (config self) in
  0 <= Config.ra_motion_min_vol_scl snd_cfg <= 1 ->
  0 <= Config.ra_motion_max_vol_scl snd_cfg <= 1 ->
  0 <= _spike_rate_to_volume r self <= 1.
Proof.
  intros snd_cfg Hmin Hmax. unfold _spike_rate_to_volume. fold snd_cfg.
  repeat branch; try lra. apply clip1_range. lra.
Qed.

Lemma smooth_toward_range (target factor current : Q) :
  0 <= target <= 1 -> 0 <= factor <= 1 -> 0 <= current <= 1 ->
  0 <= smooth_toward target factor current <= 1.
Proof.
  intros Ht Hf Hc. unfold smooth_toward. branch; [lra | nra].
Qed.

Lemma perform_invariant (c : Trace.call) (st : t * Pygame.mixer) :
  let snd_cfg := Config.snd (config st.1) in
  0 <= Config.ra_motion_min_vol_scl snd_cfg <= 1 ->
  0 <= Config.ra_motion_max_vol_scl snd_cfg <= 1 ->
  controller_invariant st.1 -> controller_invariant (Trace.perform c st).1.
Proof.
  destruct st as [self m]. intros snd_cfg. subst snd_cfg. cbn [fst].
  intros Hmin Hmax (Ha & Hd & (Ht & Hc)).
  unfold controller_invariant, volumes_in_unit_interval.
  destruct c as [ms av now|cm|]; cbn [Trace.perform fst snd].
  - destruct (step_fields ms av now self m) as ((_ & Ea & Ed & _) & _ & Et & Ec & _).
    unfold after_step in *. destruct (step ms av now self m) as [[out s'] m']. cbn [fst snd] in *.
    assert (Ht' : 0 <= target_volume s' <= 1).
    { rewrite Et. branch; [apply spike_rate_to_volume_range; assumption | lra]. }
    rewrite Ea, Ed. split; [assumption|]. split; [assumption|].
    split; [lra|]. rewrite Ec.
    assert (0 <= smooth_toward (target_volume s')
                   (if Py.ltb (current_volume self) (target_volume s')
                    then volume_smooth_factor self else volume_fast_decay_factor self)
                   (current_volume self) <= 1); [|lra].
    apply smooth_toward_range; [assumption | branch; assumption | lra].
  - destruct (mouse_press_fields cm self m) as ((_ & Ea & Ed & _) & _ & Et & Ec & _).
    rewrite Ea, Ed, Et, Ec. repeat split; lra.
  - destruct (mouse_release_fields self) as ((_ & Ea & Ed & _) & _ & Et & Ec & _).
    rewrite Ea, Ed, Et, Ec. repeat split; lra.
Qed.

Lemma run_invariant (calls : list Trace.call) (st : t * Pygame.mixer) :
  let snd_cfg := Config.snd (config st.1) in
  0 <= Config.ra_motion_min_vol_scl snd_cfg <= 1 ->
  0 <= Config.ra_motion_max_vol_scl snd_cfg <= 1 ->
  controller_invariant st.1 -> controller_invariant (Trace.run calls st).1.
Proof.
  revert st. induction calls as [|c calls IH]; intros st snd_cfg Hmin Hmax Hinv; cbn [Trace.run fold_left].
  - exact Hinv.
  - destruct (perform_constants c st) as (Ecfg & _).
    apply IH; try (rewrite Ecfg; assumption).
    apply perform_invariant; assumption.
Qed.
End Controller.

(* ===================================================================== *)
(** * Volumes along arbitrary call sequences                              *)
(* ===================================================================== *)

Section Volumes.
Local Open Scope Q_scope.
Import HapticSystem Notions.

Lemma shipped_is_fresh : freshly_constructed Fixture.shipped.
Proof. unfold Fixture.shipped, Fixture.system. repeat eexists. Qed.

Lemma fresh_controller `{SpikeEncoderImpl} (s : t) :
  freshly_constructed s ->
  volume_smooth_factor s = 0.4 /\ volume_fast_decay_factor s = 0.8 /\
  spike_window_duration_sec s = 0.025 /\ spike_rate_update_interval s = 2%Z /\
  spike_rate_update_counter s = 0%Z /\ ra_motion_spike_timestamps s = [] /\
  target_volume s = 0 /\ current_volume s = 0 /\ mouse_pressed s = false.
Proof.
  intros (? & ? & ? & ? & ? & ? & ? & ? & ? & ? & ? & ? & ? & ? & ->).
  repeat split.
Qed.

(** The constructor returns a freshly constructed object over the
    configuration it was given. *)
Lemma init_is_fresh `{Libm} `{SpikeEncoderImpl} (config : Config.t) (mixer_ok : bool)
      (g g' : RandomState) (now : Q) (s : t) (m : Pygame.mixer) :
  __init__ config mixer_ok g now = Py.Ok (s, g', m) ->
  freshly_constructed s /\ HapticSystem.config s = config.
Proof.
  unfold __init__. intros E.
  repeat match type of E with
  | Py.bind ?x _ = _ => destruct x as [?|?]; cbn [Py.bind] in E; [|discriminate]
  | (let '(_, _) := ?p in _) = _ => destruct p
  end.
  injection E as <- _ _. split; [unfold freshly_constructed; repeat eexists | reflexivity].
Qed.

(** C2.  From the object the constructor leaves behind (target and current
    volume 0), under a configuration whose minimum and maximum volume scales
    lie in [0, 1], the target volume and the current volume are in [0, 1]
    after every finite sequence of [step], [mouse_press] and [mouse_release]
    calls. *)
Theorem volumes_stay_in_unit_interval `{SpikeEncoderImpl}
        (s0 : t) (m : Pygame.mixer) (calls : list Trace.call) :
  let snd_cfg := Config.snd (config s0) in
  freshly_constructed s0 ->
  0 <= Config.ra_motion_min_vol_scl snd_cfg <= 1 ->
  0 <= Config.ra_motion_max_vol_scl snd_cfg <= 1 ->
  let s := (Trace.run calls (s0, m)).1 in
  (0 <= target_volume s /\ target_volume s <= 1) /\
  (0 <= current_volume s /\ current_volume s <= 1).
Proof.
  intros snd_cfg Hfresh Hmin Hmax s.
  destruct (fresh_controller s0 Hfresh) as (Ea & Ed & _ & _ & _ & _ & Et & Ec & _).
  assert (Hinv : controller_invariant (s0, m).1).
  { unfold controller_invariant, volumes_in_unit_interval. cbn [fst].
    rewrite Ea, Ed, Et, Ec. repeat split; lra. }
  apply (run_invariant calls (s0, m)) in Hinv; try assumption.
  apply Hinv.
Qed.

Lemma volumes_stay_in_unit_interval_shipped :
  let s :=
    (Trace.run [Trace.MousePress None; Trace.Step 300 250 0.001; Trace.MouseRelease;
                Trace.MousePress None; Trace.Step 500 400 0.002]
               (Fixture.shipped, Pygame.mixer_empty)).1 in
  (0 <= target_volume s /\ target_volume s <= 1) /\
  (0 <= current_volume s /\ current_volume s <= 1).
Proof.
  apply (volumes_stay_in_unit_interval Fixture.shipped Pygame.mixer_empty).
  - exact shipped_is_fresh.
  - simpl. lra.
  - simpl. lra.
Defined.


End Volumes.

(* ===================================================================== *)
(** * Release of the button                                               *)
(* ===================================================================== *)

Section Release.
Local Open Scope Q_scope.
Context `{SpikeEncoderImpl}.
Import HapticSystem Notions.





End Release.

Section ReleaseWitness.
Local Open Scope Q_scope.
Import HapticSystem Notions.

End ReleaseWitness.

(* ===================================================================== *)
(** * The spike timestamp window                                          *)
(* ===================================================================== *)

Section Window.
Local Open Scope Q_scope.
Context `{SpikeEncoderImpl}.
Import HapticSystem Notions.

(** Pruning removes entries from the head only. *)
Lemma prune_suffix (cutoff : Q) (w : list (Q * bool)) :
  exists k, (k <= length w)%nat /\ prune cutoff w = drop k w.
Proof.
  induction w as [|[t f] w IH]; cbn [prune].
  - exists 0%nat. split; [reflexivity | reflexivity].
  - destruct (Py.ltb t cutoff).
    + destruct IH as (k & Hk & ->). exists (S k). split; [cbn; lia | reflexivity].
    + exists 0%nat. split; [cbn; lia | reflexivity].
Qed.

(** An entry at the tail that is not older than the cutoff survives. *)
Lemma prune_keeps_tail (cutoff now : Q) (fired : bool) (w : list (Q * bool)) :
  cutoff <= now -> last (prune cutoff (w ++ [(now, fired)])) = Some (now, fired).
Proof.
  intros Hnow. induction w as [|[t f] w IH]; cbn [app prune].
  - assert (E : Py.ltb now cutoff = false) by (apply ltb_false; assumption).
    rewrite E. reflexivity.
  - destruct (Py.ltb t cutoff); [exact IH|].
    change ((t, f) :: w ++ [(now, fired)]) with (((t, f) :: w) ++ [(now, fired)]).
    apply last_snoc.
Qed.

(** On a window in time order, pruning leaves no entry older than the
    cutoff. *)
Lemma prune_none_older (cutoff : Q) (w : list (Q * bool)) :
  StronglySorted Qle (map fst w) -> none_older cutoff (prune cutoff w).
Proof.
  unfold none_older. induction w as [|[t f] w IH]; cbn [prune map fst]; intros Hs.
  - constructor.
  - apply StronglySorted_inv in Hs as [Hs Hall].
    destruct (Py.ltb t cutoff) eqn:E.
    + apply IH. exact Hs.
    + apply ltb_false in E. constructor; [exact E|].
      rewrite Forall_map in Hall. eapply Forall_impl; [exact Hall|].
      intros [t' f'] Ht'. cbn [fst] in *. eapply Qle_trans; eassumption.
Qed.

Lemma sorted_drop (k : nat) (l : list Q) :
  StronglySorted Qle l -> StronglySorted Qle (drop k l).
Proof.
  revert k. induction l as [|x l IH]; intros k Hs.
  - rewrite drop_nil. constructor.
  - destruct k as [|k]; [exact Hs|].
    cbn [drop]. apply IH. apply StronglySorted_inv in Hs. tauto.
Qed.

Lemma controller_run_snoc (ticks : list (Q * bool)) (tick : Q * bool)
      (st : t * Pygame.mixer) :
  controller_run (ticks ++ [tick]) st =
  _update_ra_motion_volume tick.2 tick.1 (controller_run ticks st).1 (controller_run ticks st).2.
Proof. unfold controller_run. rewrite fold_left_app. reflexivity. Qed.

(** Along a run of the controller from a new object the counter tells the
    parity of the number of ticks, and the window is a tail of the history
    of ticks. *)
Lemma controller_run_window (s0 : t) (m : Pygame.mixer) (ticks : list (Q * bool)) :
  freshly_constructed s0 ->
  let s := (controller_run ticks (s0, m)).1 in
  spike_window_duration_sec s = 0.025 /\ spike_rate_update_interval s = 2%Z /\
  spike_rate_update_counter s = (if Nat.even (length ticks) then 0 else 1)%Z /\
  exists k, (k <= length ticks)%nat /\ ra_motion_spike_timestamps s = drop k ticks.
Proof.
  intros Hfresh.
  destruct (fresh_controller s0 Hfresh) as (_ & _ & Ed & Ei & Ek & Ew & _).
  induction ticks as [|[now fired] ticks IH] using rev_ind.
  - cbn. rewrite Ed, Ei, Ek, Ew. repeat split. exists 0%nat. split; [lia | reflexivity].
  - cbn zeta in *. rewrite controller_run_snoc. cbn [fst snd].
    destruct IH as (Hd & Hi & Hk & (k & Hle & Hw)).
    set (st := controller_run ticks (s0, m)) in *.
    destruct (update_ra_motion_volume_fields fired now st.1 st.2)
      as ((_ & _ & _ & Ed' & Ei') & _ & _ & _ & Ew' & Ek').
    rewrite Ed', Ei', Ew', Ek', Hd, Hi, Hk, Hw. clear Ed' Ei' Ew' Ek'.
    rewrite length_app, Nat.add_1_r, Nat.even_succ, <- Nat.negb_even.
    split; [reflexivity|]. split; [reflexivity|].
    cbn zeta. rewrite <- (drop_app_le ticks [(now, fired)] k) by exact Hle.
    destruct (Nat.even (length ticks)); cbn [negb Z.leb Z.add Z.compare Pos.add Pos.compare
                                             Pos.compare_cont Pos.succ].
    + split; [reflexivity|]. exists k. split; [lia | reflexivity].
    + split; [reflexivity|].
      destruct (prune_suffix (now - 0.025) (drop k (ticks ++ [(now, fired)])))
        as (j & Hj & ->).
      rewrite length_drop, length_app in Hj. cbn [length] in Hj.
      exists (k + j)%nat. split; [lia | apply drop_drop].
Qed.

(** C9 (as amended).  Every controller tick appends [(now, fired)] at the
    tail of the window, and entries leave the window from its head only.
    The pruning is part of the spike-rate update, which runs on every second
    tick: on the odd ticks nothing is pruned, and after every even tick, the
    clock never going back, no retained entry is older than
    [now - 0.025]. *)
Theorem window_appended_each_tick_pruned_on_rate_update
        (s0 : t) (m : Pygame.mixer) (earlier : list (Q * bool)) (now : Q) (fired : bool) :
  freshly_constructed s0 ->
  StronglySorted Qle (map fst (earlier ++ [(now, fired)])) ->
  let before := controller_run earlier (s0, m) in
  let window := ra_motion_spike_timestamps before.1 in
  let window' :=
    ra_motion_spike_timestamps (_update_ra_motion_volume fired now before.1 before.2).1 in
  last window' = Some (now, fired) /\
  (exists k, window' = drop k (window ++ [(now, fired)])) /\
  (Nat.Even (length earlier) -> window' = window ++ [(now, fired)]) /\
  (Nat.Odd (length earlier) -> none_older (now - 0.025) window').
Proof.
  intros Hfresh Hsorted before window window'.
  destruct (controller_run_window s0 m earlier Hfresh) as (Hd & Hi & Hk & (k & Hle & Hw)).
  fold before in Hd, Hi, Hk, Hw. fold window in Hw.
  destruct (update_ra_motion_volume_fields fired now before.1 before.2)
    as (_ & _ & _ & _ & Ew' & _).
  fold window' window in Ew'. rewrite Hd, Hi, Hk in Ew'. cbn zeta in Ew'.
  assert (Hsuffix : window ++ [(now, fired)] = drop k (earlier ++ [(now, fired)])).
  { rewrite Hw. symmetry. apply drop_app_le. exact Hle. }
  destruct (Nat.even (length earlier)) eqn:Hparity;
    cbn [Z.leb Z.add Z.compare Pos.add Pos.compare Pos.compare_cont Pos.succ] in Ew'.
  - rewrite Ew'. split; [apply last_snoc|]. split; [exists 0%nat; reflexivity|].
    split; [reflexivity|].
    intros Hodd. apply Nat.even_spec in Hparity.
    destruct (Nat.Even_Odd_False _ Hparity Hodd).
  - rewrite Ew'. split; [apply prune_keeps_tail; lra|].
    split.
    { destruct (prune_suffix (now - 0.025) (window ++ [(now, fired)])) as (j & _ & ->).
      exists j. reflexivity. }
    split.
    { intros Heven. apply Nat.even_spec in Heven. congruence. }
    intros _. apply prune_none_older. rewrite Hsuffix, <- skipn_map.
    apply sorted_drop. exact Hsorted.
Qed.
End Window.

Section WindowExamples.
Local Open Scope Q_scope.
Import HapticSystem Notions.

Lemma window_appended_each_tick_pruned_on_rate_update_shipped :
  let before :=
    controller_run [(0.001, false); (0.002, true); (0.030, false)]
                   (Fixture.shipped, Pygame.mixer_empty) in
  let window' :=
    ra_motion_spike_timestamps (_update_ra_motion_volume true 0.031 before.1 before.2).1 in
  last window' = Some (0.031, true) /\ none_older (0.031 - 0.025) window'.
Proof.
  destruct (window_appended_each_tick_pruned_on_rate_update
              Fixture.shipped Pygame.mixer_empty
              [(0.001, false); (0.002, true); (0.030, false)] 0.031 true)
    as (Hlast & _ & _ & Hpruned).
  - exact shipped_is_fresh.
  - cbn [map app fst].
    repeat first [apply SSorted_nil | apply SSorted_cons
                 | apply List.Forall_nil | apply List.Forall_cons];
      vm_compute; discriminate.
  - split; [exact Hlast|]. apply Hpruned. exists 1%nat. reflexivity.
Defined.

(** C9 fails as stated: on a regular one-millisecond clock, after the 29th
    tick (at 28 ms) the window still holds the entry of 2 ms, which is older
    than 28 ms - 25 ms; it is pruned one tick later. *)
Lemma window_not_pruned_on_odd_ticks :
  let after := (controller_run (Fixture.millisecond_ticks 29) (Fixture.shipped, Pygame.mixer_empty)).1 in
  head (ra_motion_spike_timestamps after) = Some (2 / 1000, false) /\
  ~ none_older (28 / 1000 - spike_window_duration_sec after) (ra_motion_spike_timestamps after).
Proof.
  cbv zeta.
  assert (E : ra_motion_spike_timestamps
                (controller_run (Fixture.millisecond_ticks 29) (Fixture.shipped, Pygame.mixer_empty)).1
              = drop 2 (Fixture.millisecond_ticks 29)).
  { vm_compute. reflexivity. }
  assert (Ed : spike_window_duration_sec
                (controller_run (Fixture.millisecond_ticks 29) (Fixture.shipped, Pygame.mixer_empty)).1
              = 0.025).
  { vm_compute. reflexivity. }
  rewrite E, Ed. split; [reflexivity|].
  unfold none_older. intros Hall. apply Forall_inv in Hall.
  vm_compute in Hall. apply Hall. reflexivity.
Qed.
End WindowExamples.

(* ===================================================================== *)
(** * The neuron integrator                                               *)
(* ===================================================================== *)

Section Neuron.
Local Open Scope Q_scope.
Import IzhikevichNeuron.

Lemma step_params (input_current dt_ms : Q) (self : t) :
  params (step input_current dt_ms self).2 = params self.
Proof.
  unfold step. destruct (euler self input_current dt_ms) as [v' u'].
  destruct (Py.leb 30 v'); reflexivity.
Qed.

Lemma step_spiked (input_current dt_ms : Q) (self : t) :
  (step input_current dt_ms self).1 = true ->
  v (step input_current dt_ms self).2 = Config.c (params self).
Proof.
  unfold step. destruct (euler self input_current dt_ms) as [v' u'].
  destruct (Py.leb 30 v'); [reflexivity | discriminate].
Qed.

Lemma run_spiked (currents : list Q) (dt_ms : Q) (self : t) :
  Forall (fun r => r.1 = true -> v r.2 = Config.c (params self)) (run currents dt_ms self).
Proof.
  revert self. induction currents as [|i rest IH]; intros self; cbn [run].
  - constructor.
  - pose proof (step_spiked i dt_ms self) as Hs. pose proof (step_params i dt_ms self) as Hp.
    destruct (step i dt_ms self) as [spiked self']. cbn [fst snd] in *.
    constructor; [exact Hs|]. rewrite <- Hp. apply IH.
Qed.

(** C5.  Whenever a step detects a spike, that is, the potential computed
    in the step is at least 30 before the reset, the step reports the spike
    and leaves [v] equal to [c] and [u] equal to the recovery value computed
    in the step plus [d]; along any sequence of input currents, every state
    reported with a spike has [v = c]. *)
Theorem spike_resets_neuron (self : t) (input_current dt_ms : Q) :
  let v_pre := (euler self input_current dt_ms).1 in
  let u_pre := (euler self input_current dt_ms).2 in
  30 <= v_pre ->
  (step input_current dt_ms self).1 = true /\
  v (step input_current dt_ms self).2 = Config.c (params self) /\
  u (step input_current dt_ms self).2 = u_pre + Config.d (params self) /\
  forall currents,
    Forall (fun r => r.1 = true -> v r.2 = Config.c (params self))
           (run currents dt_ms (step input_current dt_ms self).2).
Proof.
  intros v_pre u_pre Hspike. subst v_pre u_pre.
  split; [|split; [|split]].
  - unfold step. destruct (euler self input_current dt_ms) as [v' u']. cbn [fst] in Hspike.
    apply leb_true in Hspike. rewrite Hspike. reflexivity.
  - apply step_spiked. unfold step.
    destruct (euler self input_current dt_ms) as [v' u']. cbn [fst] in Hspike.
    apply leb_true in Hspike. rewrite Hspike. reflexivity.
  - unfold step. destruct (euler self input_current dt_ms) as [v' u']. cbn [fst snd] in *.
    apply leb_true in Hspike. rewrite Hspike. reflexivity.
  - intros currents. rewrite <- (step_params input_current dt_ms self). apply run_spiked.
Qed.

Lemma spike_resets_neuron_click :
  let self := mk (Config.ra_click_neuron Config.get_haptic_config) (-30) (-10) in
  (step 40 1 self).1 = true /\ v (step 40 1 self).2 = -65 /\
  u (step 40 1 self).2 = (euler self 40 1).2 + 6.
Proof.
  destruct (spike_resets_neuron
              (mk (Config.ra_click_neuron Config.get_haptic_config) (-30) (-10)) 40 1)
    as (Hs & Hv & Hu & _).
  - vm_compute. discriminate.
  - repeat split; assumption.
Defined.
End Neuron.

(* ===================================================================== *)
(** * Material selection                                                  *)
(* ===================================================================== *)

Section Materials.
Local Open Scope Q_scope.
Import HapticSystem.

(** C10.  For a material index outside [0, len(material_keys)),
    [change_material] returns [False] and leaves the object and the mixer
    as they were: the material key, the roughness, the selected sounds and
    the continuous playback are unchanged. *)
Theorem change_material_out_of_range `{SpikeEncoderImpl}
        (material_index : Z) (self : t) (m : Pygame.mixer) :
  (material_index < 0 \/ Z.of_nat (length (material_keys self)) <= material_index)%Z ->
  change_material material_index self m = Py.Ok (false, self, m).
Proof.
  intros Hout. unfold change_material.
  destruct (0 <=? material_index)%Z eqn:E0; [|reflexivity].
  destruct (material_index <? Z.of_nat (length (material_keys self)))%Z eqn:E1; [|reflexivity].
  apply Z.leb_le in E0. apply Z.ltb_lt in E1. lia.
Qed.

Lemma change_material_out_of_range_shipped :
  change_material 7 Fixture.shipped Pygame.mixer_empty
  = Py.Ok (false, Fixture.shipped, Pygame.mixer_empty) /\
  change_material (-1) Fixture.shipped Pygame.mixer_empty
  = Py.Ok (false, Fixture.shipped, Pygame.mixer_empty).
Proof.
  split; apply change_material_out_of_range.
  - right. vm_compute. discriminate.
  - left. reflexivity.
Defined.
End Materials.

(* ===================================================================== *)
(** * Array lengths                                                       *)
(* ===================================================================== *)

Section Arrays.
Local Open Scope Q_scope.
Context `{Libm}.

Lemma int_nonneg (x : Q) : 0 <= x -> (0 <= Py.int x)%Z.
Proof.
  intros Hx. unfold Py.int. apply Z.quot_pos; [|lia].
  unfold Qle in Hx. cbn in Hx. lia.
Qed.

Lemma int_floor (x : Q) : 0 <= x -> Py.int x = Qfloor x.
Proof.
  intros Hx. unfold Py.int. destruct x as [n d]. cbn [Qnum Qden Qfloor].
  apply Z.quot_div_nonneg; [|lia]. unfold Qle in Hx. cbn in Hx. lia.
Qed.

Lemma length_smul k v : length (Np.smul k v) = length v.
Proof. apply length_map. Qed.
Lemma length_muls v k : length (Np.muls v k) = length v.
Proof. apply length_map. Qed.
Lemma length_divs v k : length (Np.divs v k) = length v.
Proof. apply length_map. Qed.
Lemma length_sadd k v : length (Np.sadd k v) = length v.
Proof. apply length_map. Qed.
Lemma length_sin v : length (Np.sin v) = length v.
Proof. apply length_map. Qed.
Lemma length_exp v : length (Np.exp v) = length v.
Proof. apply length_map. Qed.
Lemma length_tanh v : length (Np.tanh v) = length v.
Proof. apply length_map. Qed.
Lemma length_sqrt v : length (Np.sqrt v) = length v.
Proof. apply length_map. Qed.
Lemma length_clip v lo hi : length (Np.clip v lo hi) = length v.
Proof. apply length_map. Qed.
Lemma length_vadd v w : length (Np.vadd v w) = Nat.min (length v) (length w).
Proof. apply length_zip_with. Qed.
Lemma length_vmul v w : length (Np.vmul v w) = Nat.min (length v) (length w).
Proof. apply length_zip_with. Qed.
Lemma length_arange n : length (Np.arange n) = n.
Proof. unfold Np.arange. rewrite length_map. apply length_seq. Qed.
Lemma length_astype v : length (Np.astype_int16 v) = length v.
Proof. apply length_map. Qed.


Lemma length_random_normal n g : length (Np.random_normal n g).1 = n.
Proof. cbn. rewrite length_map. apply length_seq. Qed.

(** [np.linspace] returns [num] samples whenever [num] is not negative. *)
Lemma linspace_ok (start stop : Q) (num : Z) (endpoint : bool) :
  (0 <= num)%Z ->
  exists y, Np.linspace start stop num endpoint = Py.Ok y /\ length y = Z.to_nat num.
Proof.
  intros Hnum. unfold Np.linspace.
  destruct (num <? 0)%Z eqn:E; [apply Z.ltb_lt in E; lia|].
  destruct (0 <? (if endpoint then num - 1 else num))%Z eqn:Ediv.
  - eexists. split; [reflexivity|].
    destruct (endpoint && (1 <? num)%Z) eqn:Eend.
    + apply andb_prop in Eend as [_ E1]. apply Z.ltb_lt in E1.
      rewrite length_app, length_take, length_sadd, length_smul, length_arange. cbn [length]. lia.
    + rewrite length_sadd, length_smul, length_arange. reflexivity.
  - eexists. split; [reflexivity|].
    rewrite length_sadd, length_smul, length_arange. reflexivity.
Qed.

Lemma length_padd v w : length (Np.padd v w) = Nat.max (length v) (length w).
Proof.
  revert w. induction v as [|x v IH]; intros [|y w]; cbn [Np.padd length]; try lia.
  rewrite IH. lia.
Qed.

Lemma length_convolve_full a v :
  v <> [] -> a <> [] -> length (Np.convolve_full a v) = (length a + length v - 1)%nat.
Proof.
  intros Hv. induction a as [|x a IH]; intros Ha; [congruence|].
  cbn [Np.convolve_full]. rewrite length_padd, length_smul. cbn [length].
  destruct a as [|x' a].
  - cbn. destruct v; [congruence|]. cbn. lia.
  - rewrite IH by discriminate. cbn [length]. destruct v; [congruence|]. cbn [length]. lia.
Qed.

(** A [same]-mode convolution is as long as the longer argument. *)
Lemma convolve_same_ok a v :
  a <> [] -> v <> [] ->
  exists r, Np.convolve_same a v = Py.Ok r /\ length r = Nat.max (length a) (length v).
Proof.
  intros Ha Hv. unfold Np.convolve_same.
  destruct a as [|x a]; [congruence|]. destruct v as [|y v]; [congruence|].
  eexists. split; [reflexivity|].
  rewrite length_take, length_drop, length_convolve_full by discriminate.
  set (n := length (x :: a)). set (k := length (y :: v)).
  assert (0 < n)%nat by (unfold n; cbn; lia). assert (0 < k)%nat by (unfold k; cbn; lia).
  assert ((Nat.min n k - 1) / 2 <= Nat.min n k - 1)%nat by (apply Nat.Div0.div_le_upper_bound; lia).
  lia.
Qed.

Lemma length_box_kernel n : length (Np.box_kernel n) = n.
Proof. unfold Np.box_kernel. rewrite length_divs. apply length_replicate. Qed.

Lemma length_imul_head k ramp w :
  length ramp = k -> (k <= length w)%nat -> length (Np.imul_head k ramp w) = length w.
Proof.
  intros Hr Hk. unfold Np.imul_head.
  rewrite length_app, length_vmul, length_take, length_drop. lia.
Qed.

Lemma length_imul_tail k ramp w :
  (length ramp + k = length w)%nat -> length (Np.imul_tail k ramp w) = length w.
Proof.
  intros Hr. unfold Np.imul_tail.
  rewrite length_app, length_vmul, length_take, length_drop. lia.
Qed.
End Arrays.

(* ===================================================================== *)
(** * Buffer lengths of the waveform generators                           *)
(* ===================================================================== *)

Section Stages.
Local Open Scope Q_scope.
Context `{Libm}.
Import HapticRenderer Notions.

Lemma scaled_nonneg (k x : Q) : 0 <= k -> 0 <= x -> 0 <= k * (x / 1000).
Proof.
  intros Hk Hx. apply Qmult_le_0_compat; [exact Hk|].
  unfold Qdiv. apply Qmult_le_0_compat; [exact Hx | discriminate].
Qed.

Lemma samples_nonneg (ms : Q) : 0 <= ms -> (0 <= samples ms)%Z.
Proof. intros Hms. apply int_nonneg, scaled_nonneg; [discriminate | exact Hms]. Qed.

Lemma time_axis_ok (ms : Q) :
  0 <= ms ->
  exists t, time_axis default ms = Py.Ok (samples ms, t) /\ length t = Z.to_nat (samples ms).
Proof.
  intros Hms. unfold time_axis. fold (samples ms).
  destruct (linspace_ok 0 (ms / 1000) (samples ms) false (samples_nonneg ms Hms))
    as (t & -> & Ht).
  exists t. split; [reflexivity | exact Ht].
Qed.

Lemma linear_attack_ok (seconds : Q) (n_s : Z) :
  0 <= seconds -> keeps_length n_s (linear_attack default seconds n_s).
Proof.
  intros Hs w Hw. unfold linear_attack.
  set (attack_samples := Py.int (seconds * inject_Z (sample_rate default))).
  assert (Ha : (0 <= attack_samples)%Z).
  { apply int_nonneg. apply Qmult_le_0_compat; [exact Hs | discriminate]. }
  destruct (attack_samples <? n_s)%Z eqn:E; [|exists w; split; [reflexivity | exact Hw]].
  apply Z.ltb_lt in E.
  destruct (linspace_ok 0 1 attack_samples true Ha) as (ramp & -> & Hr).
  eexists. split; [reflexivity|].
  rewrite length_imul_head; [exact Hw | exact Hr | lia].
Qed.

Lemma linear_fade_out_ok (fade_out_ms : Q) (n_s : Z) :
  keeps_length n_s (linear_fade_out default fade_out_ms n_s).
Proof.
  intros w Hw. unfold linear_fade_out.
  set (fade_out_samples := Py.int (inject_Z (sample_rate default) * (fade_out_ms / 1000))).
  destruct ((fade_out_samples <? n_s)%Z && Py.ltb 0 fade_out_ms) eqn:E;
    [|exists w; split; [reflexivity | exact Hw]].
  apply andb_prop in E as [E1 E2]. apply Z.ltb_lt in E1. apply ltb_true in E2.
  assert (Hf : (0 <= fade_out_samples)%Z).
  { apply int_nonneg, scaled_nonneg; [discriminate | apply Qlt_le_weak; exact E2]. }
  destruct (linspace_ok 1 0 fade_out_samples true Hf) as (ramp & -> & Hr).
  eexists. split; [reflexivity|].
  rewrite length_imul_tail; [exact Hw | lia].
Qed.

Lemma exp_fade_out_ok (rate fade_out_ms : Q) (n_s : Z) :
  keeps_length n_s (exp_fade_out default rate fade_out_ms n_s).
Proof.
  intros w Hw. unfold exp_fade_out.
  set (fade_out_samples := Py.int (inject_Z (sample_rate default) * (fade_out_ms / 1000))).
  destruct ((fade_out_samples <? n_s)%Z && Py.ltb 0 fade_out_ms) eqn:E;
    [|exists w; split; [reflexivity | exact Hw]].
  apply andb_prop in E as [E1 E2]. apply Z.ltb_lt in E1. apply ltb_true in E2.
  assert (Hf : (0 <= fade_out_samples)%Z).
  { apply int_nonneg, scaled_nonneg; [discriminate | apply Qlt_le_weak; exact E2]. }
  assert (Hmin : (0 <= Z.min fade_out_samples n_s)%Z) by lia.
  destruct (linspace_ok 0 1 (Z.min fade_out_samples n_s) true Hmin) as (ramp & -> & Hr).
  eexists. split; [reflexivity|].
  rewrite length_imul_tail; [exact Hw|].
  rewrite length_exp, length_smul. lia.
Qed.

Lemma convolve_box_ok (k : nat) (n_s : Z) :
  (0 < k)%nat -> (Z.of_nat k <= n_s)%Z ->
  keeps_length n_s (fun w => Np.convolve_same w (Np.box_kernel k)).
Proof.
  intros Hk Hn w Hw.
  destruct (convolve_same_ok w (Np.box_kernel k)) as (r & -> & Hr).
  - intros ->. cbn in Hw. lia.
  - intros E. apply (f_equal length) in E. rewrite length_box_kernel in E. cbn in E. lia.
  - exists r. split; [reflexivity|]. rewrite Hr, length_box_kernel. lia.
Qed.

Lemma smooth_ok (bound : Z) (k : nat) (n_s : Z) :
  (0 < k)%nat -> (Z.of_nat k <= bound + 1)%Z -> keeps_length n_s (smooth bound k n_s).
Proof.
  intros Hk Hb w Hw. unfold smooth.
  destruct (bound <? n_s)%Z eqn:E; [|exists w; split; [reflexivity | exact Hw]].
  apply Z.ltb_lt in E. apply (convolve_box_ok k n_s); [exact Hk | lia | exact Hw].
Qed.

Lemma length_tone (amp f : Q) (t : list Q) : length (tone amp f t) = length t.
Proof. unfold tone. rewrite length_smul, length_sin, length_smul. reflexivity. Qed.

Lemma length_quantize (w : list Q) : length (quantize w) = length w.
Proof. unfold quantize. rewrite length_astype, length_muls. reflexivity. Qed.

Lemma length_low_pass (a b : Q) (x : list Q) : length (low_pass a b x) = length x.
Proof.
  destruct x as [|x0 x]; [reflexivity|]. cbn [low_pass length]. f_equal.
  generalize x0. induction x as [|xi x IH]; intros prev; cbn [one_pole length]; [reflexivity|].
  rewrite IH. reflexivity.
Qed.
End Stages.

(** Lengths of the arrays that a generator combines. *)
Ltac lengths :=
  repeat first
    [ rewrite length_vadd | rewrite length_vmul | rewrite length_tone | rewrite length_sadd
    | rewrite length_smul | rewrite length_muls | rewrite length_divs | rewrite length_sin
    | rewrite length_exp | rewrite length_tanh | rewrite length_sqrt | rewrite length_clip
    | rewrite length_low_pass | rewrite length_quantize | rewrite length_map
    | rewrite length_seq ];
  try lia.

(** One stage of a generator body: the stage returns, with the length
    kept. *)
Ltac stage L :=
  match goal with
  | |- context [Py.bind (?f ?w) _] =>
      let w' := fresh "w" in let E := fresh "E" in let Hw := fresh "Hw" in
      destruct (L w) as (w' & E & Hw); [lengths | rewrite E; cbn [Py.bind]; clear E]
  end.

Section GeneratorLengths.
Local Open Scope Q_scope.
Local Open Scope string_scope.
Context `{Libm}.
Import HapticRenderer Notions.

Lemma kwarg_ok (name : string) (default : Q) (kwargs : gmap string Q) :
  delete name kwargs = empty -> exists x, kwarg name default kwargs = Py.Ok x.
Proof.
  intros Hk. unfold kwarg. rewrite bool_decide_eq_true_2 by exact Hk.
  eexists. reflexivity.
Qed.

Lemma create_sound_buffer_length (hz ms amp fade_out_ms : Q) :
  0 <= ms -> returns_samples ms (create_sound_buffer default hz ms amp fade_out_ms).
Proof.
  intros Hms. unfold returns_samples, create_sound_buffer.
  destruct (time_axis_ok ms Hms) as (t & -> & Ht). cbn [Py.bind].
  stage (linear_fade_out_ok fade_out_ms (samples ms)).
  eexists. split; [reflexivity | lengths].
Qed.

Lemma glass_length (hz ms amp fade_out_ms : Q) (kwargs : gmap string Q) :
  0 <= ms -> delete "brightness" kwargs = empty ->
  returns_samples ms (_create_glass_waveform default hz ms amp fade_out_ms kwargs).
Proof.
  intros Hms Hk. unfold returns_samples, _create_glass_waveform.
  destruct (kwarg_ok _ 2 kwargs Hk) as (p & ->). cbn [Py.bind].
  destruct (time_axis_ok ms Hms) as (t & -> & Ht). cbn [Py.bind].
  stage (smooth_ok 20 15 (samples ms) ltac:(lia) ltac:(lia)).
  stage (linear_attack_ok 0.001 (samples ms) ltac:(discriminate)).
  stage (linear_fade_out_ok fade_out_ms (samples ms)).
  eexists. split; [reflexivity | lengths].
Qed.

Lemma metal_length (hz ms amp fade_out_ms : Q) (kwargs : gmap string Q) :
  0 <= ms -> delete "resonance" kwargs = empty ->
  returns_samples ms (_create_metal_waveform default hz ms amp fade_out_ms kwargs).
Proof.
  intros Hms Hk. unfold returns_samples, _create_metal_waveform.
  destruct (kwarg_ok _ 1.5 kwargs Hk) as (p & ->). cbn [Py.bind].
  destruct (time_axis_ok ms Hms) as (t & -> & Ht). cbn [Py.bind].
  stage (smooth_ok 10 5 (samples ms) ltac:(lia) ltac:(lia)).
  stage (linear_attack_ok 0.001 (samples ms) ltac:(discriminate)).
  stage (linear_fade_out_ok fade_out_ms (samples ms)).
  eexists. split; [reflexivity | lengths].
Qed.

Lemma plastic_length (hz ms amp fade_out_ms : Q) (kwargs : gmap string Q) :
  0 <= ms -> delete "hardness" kwargs = empty ->
  returns_samples ms (_create_plastic_waveform default hz ms amp fade_out_ms kwargs).
Proof.
  intros Hms Hk. unfold returns_samples, _create_plastic_waveform.
  destruct (kwarg_ok _ 1 kwargs Hk) as (p & ->). cbn [Py.bind].
  destruct (time_axis_ok ms Hms) as (t & -> & Ht). cbn [Py.bind].
  stage (smooth_ok 15 12 (samples ms) ltac:(lia) ltac:(lia)).
  stage (linear_attack_ok 0.001 (samples ms) ltac:(discriminate)).
  stage (linear_fade_out_ok fade_out_ms (samples ms)).
  eexists. split; [reflexivity | lengths].
Qed.

Lemma ceramic_length (hz ms amp fade_out_ms : Q) (kwargs : gmap string Q) :
  0 <= ms -> delete "brittleness" kwargs = empty ->
  returns_samples ms (_create_ceramic_waveform default hz ms amp fade_out_ms kwargs).
Proof.
  intros Hms Hk. unfold returns_samples, _create_ceramic_waveform.
  destruct (kwarg_ok _ 1.5 kwargs Hk) as (p & ->). cbn [Py.bind].
  destruct (time_axis_ok ms Hms) as (t & -> & Ht). cbn [Py.bind].
  stage (linear_attack_ok 0.002 (samples ms) ltac:(discriminate)).
  stage (linear_fade_out_ok fade_out_ms (samples ms)).
  eexists. split; [reflexivity | lengths].
Qed.

Lemma rubber_length (hz ms amp fade_out_ms : Q) (kwargs : gmap string Q) :
  0 <= ms -> delete "elasticity" kwargs = empty ->
  returns_samples ms (_create_rubber_waveform default hz ms amp fade_out_ms kwargs).
Proof.
  intros Hms Hk. unfold returns_samples, _create_rubber_waveform.
  destruct (kwarg_ok _ 1 kwargs Hk) as (p & ->). cbn [Py.bind].
  destruct (time_axis_ok ms Hms) as (t & -> & Ht). cbn [Py.bind].
  stage (linear_attack_ok 0.005 (samples ms) ltac:(discriminate)).
  stage (linear_fade_out_ok fade_out_ms (samples ms)).
  eexists. split; [reflexivity | lengths].
Qed.

Lemma wood_length (hz ms amp fade_out_ms : Q) (kwargs : gmap string Q) (g : RandomState) :
  0 <= ms -> delete "warmth" kwargs = empty ->
  returns_samples ms
    (let* bg := _create_wood_waveform default hz ms amp fade_out_ms kwargs g in Py.Ok bg.1).
Proof.
  intros Hms Hk. unfold returns_samples, _create_wood_waveform.
  destruct (kwarg_ok _ 1 kwargs Hk) as (p & ->). cbn [Py.bind].
  destruct (time_axis_ok ms Hms) as (t & -> & Ht). cbn [Py.bind Np.random_normal].
  stage (smooth_ok 15 8 (samples ms) ltac:(lia) ltac:(lia)).
  stage (linear_attack_ok 0.003 (samples ms) ltac:(discriminate)).
  stage (linear_fade_out_ok fade_out_ms (samples ms)).
  eexists. split; [reflexivity | cbn [fst]; lengths].
Qed.

Lemma fabric_length (hz ms amp fade_out_ms : Q) (kwargs : gmap string Q) (g : RandomState) :
  0 <= ms -> delete "softness" kwargs = empty ->
  returns_samples ms
    (let* bg := _create_fabric_waveform default hz ms amp fade_out_ms kwargs g in Py.Ok bg.1).
Proof.
  intros Hms Hk. unfold returns_samples, _create_fabric_waveform.
  destruct (kwarg_ok _ 1 kwargs Hk) as (p & ->). cbn [Py.bind].
  destruct (time_axis_ok ms Hms) as (t & -> & Ht). cbn [Py.bind Np.random_normal].
  stage (linear_attack_ok 0.015 (samples ms) ltac:(discriminate)).
  stage (linear_fade_out_ok fade_out_ms (samples ms)).
  eexists. split; [reflexivity | cbn [fst]; lengths].
Qed.
End GeneratorLengths.

Section SoundLengths.
Local Open Scope Q_scope.
Local Open Scope string_scope.
Context `{Libm}.
Import HapticRenderer Notions.

Lemma material_sound_buffer_length (material_type : string) (hz ms amp fade_out_ms : Q)
      (kwargs : gmap string Q) (g : RandomState) :
  0 <= ms -> valid_kwargs material_type kwargs ->
  exists buf g',
    material_sound_buffer default material_type hz ms amp fade_out_ms kwargs g
    = Py.Ok (buf, g') /\ length buf = Z.to_nat (samples ms).
Proof.
  intros Hms. unfold valid_kwargs, material_kwarg, material_sound_buffer.
  repeat match goal with
  | |- context [String.eqb material_type ?s] => destruct (String.eqb material_type s)
  end; intros Hk.
  - destruct (glass_length hz ms amp fade_out_ms kwargs Hms Hk) as (buf & -> & Hl).
    exists buf, g. split; [reflexivity | exact Hl].
  - destruct (metal_length hz ms amp fade_out_ms kwargs Hms Hk) as (buf & -> & Hl).
    exists buf, g. split; [reflexivity | exact Hl].
  - destruct (wood_length hz ms amp fade_out_ms kwargs g Hms Hk) as (buf & E & Hl).
    destruct (_create_wood_waveform _ _ _ _ _ _ _) as [[buf' g']|]; [|discriminate].
    injection E as <-. exists buf', g'. split; [reflexivity | exact Hl].
  - destruct (plastic_length hz ms amp fade_out_ms kwargs Hms Hk) as (buf & -> & Hl).
    exists buf, g. split; [reflexivity | exact Hl].
  - destruct (fabric_length hz ms amp fade_out_ms kwargs g Hms Hk) as (buf & E & Hl).
    destruct (_create_fabric_waveform _ _ _ _ _ _ _) as [[buf' g']|]; [|discriminate].
    injection E as <-. exists buf', g'. split; [reflexivity | exact Hl].
  - destruct (ceramic_length hz ms amp fade_out_ms kwargs Hms Hk) as (buf & -> & Hl).
    exists buf, g. split; [reflexivity | exact Hl].
  - destruct (rubber_length hz ms amp fade_out_ms kwargs Hms Hk) as (buf & -> & Hl).
    exists buf, g. split; [reflexivity | exact Hl].
  - destruct (create_sound_buffer_length hz ms amp fade_out_ms Hms) as (buf & -> & Hl).
    exists buf, g. split; [reflexivity | exact Hl].
Qed.


End SoundLengths.

Section SoundLengthExamples.
Local Open Scope Q_scope.
Local Open Scope string_scope.
Import HapticRenderer Notions.


End SoundLengthExamples.

(* ===================================================================== *)
(** * Quantization to 16 bits                                             *)
(* ===================================================================== *)


Section Quantization.
Local Open Scope Q_scope.
Local Open Scope string_scope.
Context `{Libm}.
Import HapticRenderer Notions.


Lemma wrap_int16_id (z : Z) : in_int16 z -> Np.wrap_int16 z = z.
Proof.
  unfold in_int16, Np.wrap_int16. intros Hz.
  rewrite Z.mod_small by lia. lia.
Qed.



Lemma quantize_samples (wave_data : list Q) :
  quantize wave_data = map (fun s => Np.to_int16 (s * 32767)) wave_data.
Proof. unfold quantize, Np.astype_int16, Np.muls. apply map_map. Qed.



End Quantization.

Section QuantizationClaims.
Local Open Scope Q_scope.
Local Open Scope string_scope.
Import HapticRenderer Notions.



End QuantizationClaims.

(* ===================================================================== *)
(** * Determinism of the generators                                       *)
(* ===================================================================== *)

Section Determinism.
Local Open Scope Q_scope.
Local Open Scope string_scope.
Context `{Libm}.
Import HapticRenderer Notions.







End Determinism.

Section DeterminismExamples.
Local Open Scope Q_scope.
Local Open Scope string_scope.
Import HapticRenderer Notions.


End DeterminismExamples.

(* ===================================================================== *)
(** * The audio player along its calls                                *)
(* ===================================================================== *)

Section Dicts.
Import Py.
Context {V : Type}.
Implicit Types (d : dict V) (k : Z).

Lemma dict_get_set_eq k (v : V) d : dict_get k (dict_set k v d) = Some v.
Proof.
  induction d as [|[k' v'] d IH]; cbn [dict_set dict_get].
  - rewrite Z.eqb_refl. reflexivity.
  - destruct (Z.eqb k k') eqn:E; cbn [dict_get]; rewrite ?Z.eqb_refl, ?E; auto.
Qed.

Lemma dict_get_set_ne k k' (v : V) d : k <> k' -> dict_get k' (dict_set k v d) = dict_get k' d.
Proof.
  intros Hne. induction d as [|[k0 v0] d IH]; cbn [dict_set dict_get].
  - destruct (Z.eqb_spec k' k); [congruence | reflexivity].
  - destruct (Z.eqb_spec k k0) as [->|?]; cbn [dict_get].
    + destruct (Z.eqb_spec k' k0); [congruence | reflexivity].
    + destruct (Z.eqb_spec k' k0); [reflexivity | exact IH].
Qed.

Lemma dict_get_del_ne k k' d : k <> k' -> dict_get k' (dict_del k d) = dict_get k' d.
Proof.
  intros Hne. induction d as [|[k0 v0] d IH]; cbn [dict_del dict_get]; [reflexivity|].
  destruct (Z.eqb_spec k k0) as [->|?]; cbn [dict_get].
  - destruct (Z.eqb_spec k' k0); [congruence | reflexivity].
  - destruct (Z.eqb_spec k' k0); [reflexivity | exact IH].
Qed.

Lemma dict_get_None k d : dict_get k d = None <-> ~ In k (dict_keys d).
Proof.
  induction d as [|[k0 v0] d IH]; cbn [dict_get dict_keys map fst In]; [tauto|].
  destruct (Z.eqb_spec k k0) as [->|?].
  - split; [discriminate | tauto].
  - rewrite IH. unfold dict_keys. intuition congruence.
Qed.

Lemma dict_mem_true k d : dict_mem k d = true <-> In k (dict_keys d).
Proof.
  unfold dict_mem. pose proof (dict_get_None k d) as Hn.
  destruct (dict_get k d).
  - split; [|reflexivity]. intros _.
    destruct (in_dec Z.eq_dec k (dict_keys d)) as [Hi|Hi]; [exact Hi|].
    apply Hn in Hi. discriminate.
  - split; [discriminate|]. intros Hi. destruct Hn as [Hn _]. destruct (Hn eq_refl Hi).
Qed.

Lemma dict_mem_false k d : dict_mem k d = false <-> ~ In k (dict_keys d).
Proof.
  rewrite <- dict_mem_true. destruct (dict_mem k d); split; congruence.
Qed.

Lemma dict_get_del_eq k d : List.NoDup (dict_keys d) -> dict_get k (dict_del k d) = None.
Proof.
  induction d as [|[k0 v0] d IH]; cbn [dict_del dict_get dict_keys map fst]; [reflexivity|].
  intros Hnd. apply List.NoDup_cons_iff in Hnd as [Hk0 Hnd].
  destruct (Z.eqb_spec k k0) as [->|Hne].
  - apply dict_get_None. exact Hk0.
  - cbn [dict_get]. destruct (Z.eqb_spec k k0); [congruence|]. apply IH. exact Hnd.
Qed.

Lemma dict_del_set_fresh k (v : V) d : dict_mem k d = false -> dict_del k (dict_set k v d) = d.
Proof.
  rewrite dict_mem_false.
  induction d as [|[k0 v0] d IH]; cbn [dict_set dict_del dict_keys map fst In]; intros Hk.
  - rewrite Z.eqb_refl. reflexivity.
  - destruct (Z.eqb_spec k k0) as [->|Hne]; [tauto|].
    cbn [dict_del]. destruct (Z.eqb_spec k k0); [congruence|].
    rewrite IH; [reflexivity | tauto].
Qed.
End Dicts.

Section DictKeys.
Import Py.
Context {V W : Type}.

(** Assignment and deletion act on the keys alone. *)
Lemma dict_keys_set (k : Z) (v : V) (w : W) (d : dict V) (e : dict W) :
  dict_keys d = dict_keys e -> dict_keys (dict_set k v d) = dict_keys (dict_set k w e).
Proof.
  revert e. induction d as [|[k0 v0] d IH]; intros [|[k1 w1] e]; cbn [dict_keys map fst dict_set];
    try discriminate; [reflexivity|].
  intros E. injection E as -> E.
  destruct (Z.eqb k k1); cbn [map fst]; f_equal; [exact E | apply IH; exact E].
Qed.

Lemma dict_keys_del (k : Z) (d : dict V) (e : dict W) :
  dict_keys d = dict_keys e -> dict_keys (dict_del k d) = dict_keys (dict_del k e).
Proof.
  revert e. induction d as [|[k0 v0] d IH]; intros [|[k1 w1] e]; cbn [dict_keys map fst dict_del];
    try discriminate; [reflexivity|].
  intros E. injection E as -> E.
  destruct (Z.eqb k k1); cbn [map fst]; [exact E | f_equal; apply IH; exact E].
Qed.
End DictKeys.

Section DictKeys2.
Import Py.
Context {V : Type}.

Lemma dict_keys_set_mem (k : Z) (v : V) (d : dict V) :
  dict_keys (dict_set k v d) = if dict_mem k d then dict_keys d else dict_keys d ++ [k].
Proof.
  unfold dict_mem.
  induction d as [|[k0 v0] d IH]; cbn [dict_keys map fst dict_set dict_get app]; [reflexivity|].
  destruct (Z.eqb_spec k k0) as [->|Hne]; cbn [map fst]; [reflexivity|].
  change (map fst (dict_set k v d)) with (dict_keys (dict_set k v d)). rewrite IH.
  destruct (dict_get k d); reflexivity.
Qed.

Lemma dict_keys_del_In (k k' : Z) (d : dict V) :
  In k' (dict_keys (dict_del k d)) -> In k' (dict_keys d).
Proof.
  induction d as [|[k0 v0] d IH]; cbn [dict_keys map fst dict_del In]; [tauto|].
  destruct (Z.eqb k k0); cbn [map fst In]; [tauto|]. intros [?|?]; [tauto|]. right. apply IH. assumption.
Qed.

Lemma dict_keys_del_NoDup (k : Z) (d : dict V) :
  List.NoDup (dict_keys d) -> List.NoDup (dict_keys (dict_del k d)).
Proof.
  induction d as [|[k0 v0] d IH]; cbn [dict_keys map fst dict_del]; [auto|].
  intros Hnd. apply List.NoDup_cons_iff in Hnd as [Hk0 Hnd].
  destruct (Z.eqb k k0); cbn [map fst]; [exact Hnd|].
  apply List.NoDup_cons_iff. split; [|apply IH; exact Hnd].
  intros Hi. apply Hk0. eapply dict_keys_del_In. exact Hi.
Qed.

Lemma dict_keys_set_NoDup (k : Z) (v : V) (d : dict V) :
  List.NoDup (dict_keys d) -> List.NoDup (dict_keys (dict_set k v d)).
Proof.
  intros Hnd. rewrite dict_keys_set_mem. destruct (dict_mem k d) eqn:E; [exact Hnd|].
  apply dict_mem_false in E. apply List.NoDup_app; [exact Hnd | |].
  - constructor; [intros [] | constructor].
  - intros x Hx [<-|[]]. exact (E Hx).
Qed.
End DictKeys2.

(* ===================================================================== *)
(** * The audio player                                                    *)
(* ===================================================================== *)

Section Player.
Local Open Scope Q_scope.
Import Py AudioPlayer PlayerNotions.

Lemma init_consistent (mixer_ok : bool) : consistent (__init__ mixer_ok).
Proof. repeat split. constructor. Qed.

Lemma start_fields (r : Pygame.ref) (ch : Z) (v : Q) (self : t) (m : Pygame.mixer) :
  let s' := (start_continuous_sound r ch v self m).1.2 in
  is_initialized s' = is_initialized self /\
  volume_smooth_factor s' = volume_smooth_factor self /\
  (is_initialized self = false -> s' = self) /\
  (is_initialized self = true ->
   continuous_channels s' = dict_set ch r (continuous_channels self) /\
   target_volumes s' = dict_set ch v (target_volumes self) /\
   current_volumes s' = dict_set ch v (current_volumes self)).
Proof.
  unfold start_continuous_sound. destruct (is_initialized self) eqn:E; cbn.
  - repeat split; try discriminate; auto.
  - repeat split; try discriminate; auto.
Qed.

Lemma start_consistent (r : Pygame.ref) (ch : Z) (v : Q) (self : t) (m : Pygame.mixer) :
  consistent self -> consistent (start_continuous_sound r ch v self m).1.2.
Proof.
  intros (Hnd & Ht & Hc).
  destruct (start_fields r ch v self m) as (_ & _ & Hoff & Hon).
  destruct (is_initialized self).
  - destruct (Hon eq_refl) as (E1 & E2 & E3). unfold consistent. rewrite E1, E2, E3.
    split; [apply dict_keys_set_NoDup; exact Hnd|].
    split; apply dict_keys_set; assumption.
  - rewrite (Hoff eq_refl). repeat split; assumption.
Qed.

Lemma set_continuous_volume_consistent (ch : Z) (v : Q) (self : t) :
  consistent self -> consistent (set_continuous_volume ch v self).
Proof.
  intros (Hnd & Ht & Hc). unfold set_continuous_volume.
  destruct (dict_mem ch (continuous_channels self)) eqn:E; [|repeat split; assumption].
  unfold consistent. cbn [continuous_channels target_volumes current_volumes].
  split; [exact Hnd|]. split; [|exact Hc].
  rewrite dict_keys_set_mem.
  assert (E' : dict_mem ch (target_volumes self) = true).
  { apply dict_mem_true. rewrite Ht. apply dict_mem_true. exact E. }
  rewrite E'. exact Ht.
Qed.

(** What one turn of the loop of [update_volumes] assigns. *)
Lemma update_volume_fields (ch : Z) (self : t) (m : Pygame.mixer) :
  let s' := (update_volume ch (self, m)).1 in
  is_initialized s' = is_initialized self /\
  continuous_channels s' = continuous_channels self /\
  target_volumes s' = target_volumes self /\
  volume_smooth_factor s' = volume_smooth_factor self /\
  current_volumes s' =
    match dict_get ch (target_volumes self), dict_get ch (current_volumes self),
          dict_get ch (continuous_channels self) with
    | Some target_vol, Some current_vol, Some _ =>
        dict_set ch (approach (volume_smooth_factor self) target_vol current_vol)
                 (current_volumes self)
    | _, _, _ => current_volumes self
    end /\
  Pygame.mx_playing (update_volume ch (self, m)).2 = Pygame.mx_playing m.
Proof.
  unfold update_volume, approach.
  destruct (dict_get ch (target_volumes self)) as [t|];
    destruct (dict_get ch (current_volumes self)) as [c|];
    destruct (dict_get ch (continuous_channels self)) as [r|]; cbn [fst snd];
    repeat split; try reflexivity.
  unfold Pygame.set_volume. destruct (ltb _ 0); reflexivity.
Qed.

Lemma update_volume_consistent (ch : Z) (self : t) (m : Pygame.mixer) :
  consistent self -> consistent (update_volume ch (self, m)).1.
Proof.
  intros (Hnd & Ht & Hc).
  destruct (update_volume_fields ch self m) as (_ & E1 & E2 & _ & E3 & _).
  unfold consistent. rewrite E1, E2, E3. split; [exact Hnd|]. split; [exact Ht|].
  destruct (dict_get ch (target_volumes self)) as [t|]; [|exact Hc].
  destruct (dict_get ch (current_volumes self)) as [c|] eqn:Ec; [|exact Hc].
  destruct (dict_get ch (continuous_channels self)) as [r|]; [|exact Hc].
  rewrite dict_keys_set_mem. unfold dict_mem. rewrite Ec. exact Hc.
Qed.

(** The loop of [update_volumes] over the channels [ks]. *)
Lemma update_volume_untouched (k ch : Z) (self : t) (m : Pygame.mixer) :
  ch <> k ->
  dict_get ch (current_volumes (update_volume k (self, m)).1)
  = dict_get ch (current_volumes self).
Proof.
  intros Hne. destruct (update_volume_fields k self m) as (_ & _ & _ & _ & -> & _).
  destruct (dict_get k (target_volumes self)); [|reflexivity].
  destruct (dict_get k (current_volumes self)); [|reflexivity].
  destruct (dict_get k (continuous_channels self)); [|reflexivity].
  apply dict_get_set_ne. congruence.
Qed.

Lemma update_volume_touched (k : Z) (self : t) (m : Pygame.mixer) (target_vol current_vol : Q) :
  dict_mem k (continuous_channels self) = true ->
  dict_get k (target_volumes self) = Some target_vol ->
  dict_get k (current_volumes self) = Some current_vol ->
  dict_get k (current_volumes (update_volume k (self, m)).1)
  = Some (approach (volume_smooth_factor self) target_vol current_vol).
Proof.
  intros Hm Ht Hc. destruct (update_volume_fields k self m) as (_ & _ & _ & _ & -> & _).
  rewrite Ht, Hc. unfold dict_mem in Hm.
  destruct (dict_get k (continuous_channels self)); [|discriminate].
  apply dict_get_set_eq.
Qed.

Lemma update_loop_fields (ks : list Z) (self : t) (m : Pygame.mixer) :
  let s' := (fold_left (fun st ch => update_volume ch st) ks (self, m)).1 in
  consistent self -> List.NoDup ks ->
  consistent s' /\
  is_initialized s' = is_initialized self /\
  continuous_channels s' = continuous_channels self /\
  target_volumes s' = target_volumes self /\
  volume_smooth_factor s' = volume_smooth_factor self /\
  (forall ch target_vol current_vol,
     In ch ks -> dict_mem ch (continuous_channels self) = true ->
     dict_get ch (target_volumes self) = Some target_vol ->
     dict_get ch (current_volumes self) = Some current_vol ->
     dict_get ch (current_volumes s')
     = Some (approach (volume_smooth_factor self) target_vol current_vol)) /\
  (forall ch, ~ In ch ks ->
     dict_get ch (current_volumes s') = dict_get ch (current_volumes self)) /\
  Pygame.mx_playing (fold_left (fun st ch => update_volume ch st) ks (self, m)).2
  = Pygame.mx_playing m.
Proof.
  revert self m. induction ks as [|k ks IH]; intros self m; cbn [fold_left fst snd].
  - intros Hc _. split; [exact Hc|]. repeat split; try reflexivity. intros ch t c [].
  - intros Hc Hnd. apply List.NoDup_cons_iff in Hnd as [Hk Hnd].
    pose proof (update_volume_consistent k self m Hc) as Hc'.
    pose proof (update_volume_untouched k) as Hun.
    pose proof (update_volume_touched k self m) as Hto.
    destruct (update_volume_fields k self m) as (E0 & E1 & E2 & E3 & _ & E5).
    destruct (update_volume k (self, m)) as [s1 m1] eqn:E.
    assert (Hun' : forall ch, ch <> k ->
              dict_get ch (current_volumes s1) = dict_get ch (current_volumes self)).
    { intros ch Hne. specialize (Hun ch self m Hne). rewrite E in Hun. exact Hun. }
    clear Hun. cbn [fst snd] in *.
    destruct (IH s1 m1 Hc' Hnd) as (Hc2 & F0 & F1 & F2 & F3 & F4 & F5 & F6).
    split; [exact Hc2|]. rewrite F0, F1, F2, F3, F6, E0, E1, E2, E3, E5.
    repeat split; try reflexivity.
    + intros ch t c [<-|Hin] Hm Ht Hcur.
      * rewrite (F5 k Hk). apply Hto; assumption.
      * assert (Hne : ch <> k) by (intros ->; exact (Hk Hin)).
        rewrite <- E3. apply F4; try assumption.
        -- rewrite E1. exact Hm.
        -- rewrite E2. exact Ht.
        -- rewrite (Hun' ch Hne). exact Hcur.
    + intros ch Hn. cbn [In] in Hn. rewrite F5 by tauto. apply Hun'. intros ->. tauto.
Qed.

Lemma update_volumes_fields (self : t) (m : Pygame.mixer) :
  let s' := (update_volumes self m).1 in
  consistent self ->
  consistent s' /\
  is_initialized s' = is_initialized self /\
  continuous_channels s' = continuous_channels self /\
  target_volumes s' = target_volumes self /\
  volume_smooth_factor s' = volume_smooth_factor self /\
  (forall ch target_vol current_vol,
     dict_get ch (target_volumes self) = Some target_vol ->
     dict_get ch (current_volumes self) = Some current_vol ->
     dict_get ch (current_volumes s')
     = Some (approach (volume_smooth_factor self) target_vol current_vol)) /\
  (forall ch, dict_get ch (current_volumes self) = None ->
     dict_get ch (current_volumes s') = None) /\
  Pygame.mx_playing (update_volumes self m).2 = Pygame.mx_playing m.
Proof.
  intros s' Hc. pose proof Hc as (Hnd & Ht & Hcur).
  destruct (update_loop_fields (dict_keys (continuous_channels self)) self m Hc Hnd)
    as (Hc' & F0 & F1 & F2 & F3 & F4 & F5 & F6).
  fold (update_volumes self m) in Hc', F0, F1, F2, F3, F4, F5, F6. fold s' in Hc', F0, F1, F2, F3, F4, F5.
  split; [exact Hc'|]. split; [exact F0|]. split; [exact F1|]. split; [exact F2|].
  split; [exact F3|]. split; [|split; [|exact F6]].
  - intros ch t c Et Ec. apply F4; try assumption.
    + rewrite <- Ht. apply dict_mem_true. unfold dict_mem. rewrite Et. reflexivity.
    + apply dict_mem_true. rewrite <- Ht. apply dict_mem_true. unfold dict_mem. rewrite Et. reflexivity.
  - intros ch Ec. rewrite F5; [exact Ec|]. rewrite <- Hcur. apply dict_get_None. exact Ec.
Qed.

Lemma dict_del_absent {V} (k : Z) (d : dict V) : dict_mem k d = false -> dict_del k d = d.
Proof.
  rewrite dict_mem_false.
  induction d as [|[k0 v0] d IH]; cbn [dict_del dict_keys map fst In]; [reflexivity|].
  intros Hk. destruct (Z.eqb_spec k k0) as [->|Hne]; [tauto|].
  rewrite IH; [reflexivity | tauto].
Qed.

Lemma dict_keys_nil {V} (d : dict V) : dict_keys d = [] -> d = [].
Proof. destruct d; [reflexivity | discriminate]. Qed.

Lemma stop_fields (ch : Z) (self : t) (m : Pygame.mixer) :
  let s' := (stop_continuous_sound ch self m).1 in
  consistent self ->
  is_initialized s' = is_initialized self /\
  volume_smooth_factor s' = volume_smooth_factor self /\
  continuous_channels s' = dict_del ch (continuous_channels self) /\
  target_volumes s' = dict_del ch (target_volumes self) /\
  current_volumes s' = dict_del ch (current_volumes self).
Proof.
  intros s' (Hnd & Ht & Hc). subst s'. unfold stop_continuous_sound.
  destruct (dict_mem ch (continuous_channels self)) eqn:E; cbn [fst].
  - repeat split.
  - assert (Et : dict_mem ch (target_volumes self) = false).
    { apply dict_mem_false. rewrite Ht. apply dict_mem_false. exact E. }
    assert (Ec : dict_mem ch (current_volumes self) = false).
    { apply dict_mem_false. rewrite Hc. apply dict_mem_false. exact E. }
    rewrite !dict_del_absent by assumption. repeat split.
Qed.

Lemma stop_consistent (ch : Z) (self : t) (m : Pygame.mixer) :
  consistent self -> consistent (stop_continuous_sound ch self m).1.
Proof.
  intros Hc. destruct (stop_fields ch self m Hc) as (_ & _ & E1 & E2 & E3).
  destruct Hc as (Hnd & Ht & Hc).
  unfold consistent. rewrite E1, E2, E3.
  split; [apply dict_keys_del_NoDup; exact Hnd|].
  split; apply dict_keys_del; assumption.
Qed.

(** The loop that stops every continuous sound empties the three
    dictionaries. *)
Lemma stop_loop (cc : dict Pygame.ref) :
  forall (i : bool) (tv cv : dict Q) (f : Q) (m : Pygame.mixer),
    dict_keys tv = dict_keys cc -> dict_keys cv = dict_keys cc ->
    exists m',
      fold_left (fun st channel_id => stop_continuous_sound channel_id st.1 st.2)
                (dict_keys cc) (mk i cc tv cv f, m)
      = (mk i [] [] [] f, m') /\
      Pygame.mx_sounds m' = Pygame.mx_sounds m.
Proof.
  induction cc as [|[k r] cc IH]; intros i tv cv f m Ht Hc.
  - apply dict_keys_nil in Ht, Hc. subst. exists m. split; reflexivity.
  - destruct tv as [|[k1 t0] tv]; [discriminate|]. destruct cv as [|[k2 c0] cv]; [discriminate|].
    cbn [dict_keys map fst] in Ht, Hc. injection Ht as -> Ht. injection Hc as -> Hc.
    cbn [dict_keys map fst fold_left].
    destruct (IH i tv cv f (Pygame.channel_stop k m) Ht Hc) as (m' & E & Hs).
    exists m'. split; [|exact Hs].
    assert (Es : stop_continuous_sound k (mk i ((k, r) :: cc) ((k, t0) :: tv) ((k, c0) :: cv) f) m
                 = (mk i cc tv cv f, Pygame.channel_stop k m)).
    { unfold stop_continuous_sound, dict_mem.
      cbn [continuous_channels target_volumes current_volumes is_initialized
           volume_smooth_factor dict_get dict_del].
      rewrite Z.eqb_refl. reflexivity. }
    cbn [fst snd]. rewrite Es. exact E.
Qed.

Lemma stop_all_fields (self : t) (m : Pygame.mixer) :
  consistent self ->
  exists m',
    stop_all_continuous self m
    = (mk (is_initialized self) [] [] [] (volume_smooth_factor self), m') /\
    Pygame.mx_sounds m' = Pygame.mx_sounds m.
Proof.
  intros (_ & Ht & Hc). destruct self as [i cc tv cv f]. apply stop_loop; assumption.
Qed.

Lemma quit_fields (self : t) (m : Pygame.mixer) :
  consistent self -> is_initialized self = true ->
  quit self m
  = (mk false [] [] [] (volume_smooth_factor self),
     Pygame.mkMixer (Pygame.mx_sounds m) []).
Proof.
  intros Hc Hi. unfold quit. rewrite Hi.
  destruct (stop_all_fields self m Hc) as (m' & -> & Hs).
  cbn [continuous_channels target_volumes current_volumes volume_smooth_factor].
  unfold Pygame.mixer_quit. rewrite Hs. reflexivity.
Qed.

Lemma invariant_off (self : t) :
  player_invariant self -> is_initialized self = false ->
  self = mk false [] [] [] 0.15.
Proof.
  intros ((_ & Ht & Hc) & Hf & Hoff) Hi. specialize (Hoff Hi).
  rewrite Hoff in Ht, Hc. apply dict_keys_nil in Ht, Hc.
  destruct self as [i cc tv cv f]. cbn in *. subst. reflexivity.
Qed.

Lemma perform_invariant_player (c : PlayerTrace.call) (st : t * Pygame.mixer) :
  player_invariant st.1 -> player_invariant (PlayerTrace.perform c st).1.
Proof.
  destruct st as [self m]. cbn [fst]. intros (Hc & Hf & Hoff).
  destruct c as [r ch v|r ch v|ch v| |ch|]; cbn [PlayerTrace.perform fst snd].
  - split; [exact Hc|]. split; [exact Hf | exact Hoff].
  - pose proof (start_consistent r ch v self m Hc) as Hc'.
    destruct (start_fields r ch v self m) as (Ei & Ef & Eoff & _).
    destruct (start_continuous_sound r ch v self m) as [[b s'] m']. cbn [fst snd] in *.
    split; [exact Hc'|]. split; [congruence|].
    intros Hi. rewrite Ei in Hi. rewrite (Eoff Hi). apply Hoff. exact Hi.
  - split; [apply set_continuous_volume_consistent; exact Hc|].
    unfold set_continuous_volume. destruct (dict_mem ch (continuous_channels self)); cbn; auto.
  - destruct (update_volumes_fields self m Hc) as (Hc' & Ei & Ec & _ & Ef & _).
    split; [exact Hc'|]. split; [congruence|]. rewrite Ei, Ec. exact Hoff.
  - pose proof (stop_consistent ch self m Hc) as Hc'.
    destruct (stop_fields ch self m Hc) as (Ei & Ef & Ec & _).
    split; [exact Hc'|]. split; [congruence|]. rewrite Ei, Ec. intros Hi.
    rewrite (Hoff Hi). reflexivity.
  - destruct (is_initialized self) eqn:Hi.
    + rewrite (quit_fields self m Hc Hi). cbn [fst]. rewrite Hf.
      repeat split; try reflexivity. constructor.
    + unfold quit. rewrite Hi. cbn [fst].
      split; [exact Hc|]. split; [exact Hf|]. intros _. apply Hoff. reflexivity.
Qed.

Lemma run_invariant_player (calls : list PlayerTrace.call) (st : t * Pygame.mixer) :
  player_invariant st.1 -> player_invariant (PlayerTrace.run calls st).1.
Proof.
  revert st. induction calls as [|c calls IH]; intros st Hinv; cbn [PlayerTrace.run fold_left].
  - exact Hinv.
  - apply IH. apply perform_invariant_player. exact Hinv.
Qed.

Lemma init_invariant (mixer_ok : bool) : player_invariant (__init__ mixer_ok).
Proof. split; [apply init_consistent|]. split; reflexivity. Qed.
End Player.

Section DictValues.
Import Py.
Context {V : Type} (P : V -> Prop).

Lemma dict_get_Forall (k : Z) (v : V) (d : dict V) :
  Forall (fun kv => P kv.2) d -> dict_get k d = Some v -> P v.
Proof.
  induction d as [|[k0 v0] d IH]; cbn [dict_get]; [discriminate|].
  intros Hall. apply Forall_cons_1 in Hall as [H0 Hall].
  destruct (Z.eqb k k0); [intros [= <-]; exact H0 | apply IH; exact Hall].
Qed.

Lemma dict_set_Forall (k : Z) (v : V) (d : dict V) :
  P v -> Forall (fun kv => P kv.2) d -> Forall (fun kv => P kv.2) (dict_set k v d).
Proof.
  intros Hv. induction d as [|[k0 v0] d IH]; cbn [dict_set]; intros Hall.
  - apply Forall_cons_2; [exact Hv | apply Forall_nil_2].
  - apply Forall_cons_1 in Hall as [H0 Hall].
    destruct (Z.eqb k k0); apply Forall_cons_2; auto.
Qed.

Lemma dict_del_Forall (k : Z) (d : dict V) :
  Forall (fun kv => P kv.2) d -> Forall (fun kv => P kv.2) (dict_del k d).
Proof.
  induction d as [|[k0 v0] d IH]; cbn [dict_del]; intros Hall; [exact Hall|].
  apply Forall_cons_1 in Hall as [H0 Hall].
  destruct (Z.eqb k k0); [exact Hall | apply Forall_cons_2; auto].
Qed.
End DictValues.

Section Approach.
Local Open Scope Q_scope.
Import PlayerNotions.

Lemma approach_cases (factor target_vol current_vol : Q) :
  approach factor target_vol current_vol = target_vol \/
  approach factor target_vol current_vol
  = current_vol + (target_vol - current_vol) * factor.
Proof. unfold approach. destruct (Py.ltb _ _); auto. Qed.

Lemma approach_between (factor target_vol current_vol : Q) :
  0 <= factor <= 1 ->
  (current_vol <= target_vol ->
   current_vol <= approach factor target_vol current_vol <= target_vol) /\
  (target_vol <= current_vol ->
   target_vol <= approach factor target_vol current_vol <= current_vol).
Proof.
  intros Hf. destruct (approach_cases factor target_vol current_vol) as [-> | ->];
    split; intros Hle; nra.
Qed.

Lemma approach_range (factor target_vol current_vol : Q) :
  0 <= factor <= 1 -> 0 <= target_vol <= 1 -> 0 <= current_vol <= 1 ->
  0 <= approach factor target_vol current_vol <= 1.
Proof.
  intros Hf Ht Hc. destruct (approach_between factor target_vol current_vol Hf) as [Hup Hdown].
  destruct (Qlt_le_dec target_vol current_vol) as [Hlt|Hle].
  - specialize (Hdown (Qlt_le_weak _ _ Hlt)). lra.
  - specialize (Hup Hle). lra.
Qed.

(** Within 0.001 of the target after the move, the volume is the target. *)
Lemma approach_snaps (factor target_vol current_vol : Q) :
  Qabs (current_vol + (target_vol - current_vol) * factor - target_vol) < 0.001 ->
  approach factor target_vol current_vol = target_vol.
Proof.
  intros Hn. unfold approach.
  assert (E : Py.ltb (Py.abs (current_vol + (target_vol - current_vol) * factor - target_vol))
                     0.001 = true) by (apply ltb_true; exact Hn).
  rewrite E. reflexivity.
Qed.

Lemma approach_rest (factor target_vol : Q) : approach factor target_vol target_vol = target_vol.
Proof. apply approach_snaps. apply Qabs_lt_iff. nra. Qed.

(** The distance to the target shrinks by the factor 0.85. *)
Lemma approach_contracts (target_vol current_vol bound : Q) :
  Qabs (current_vol - target_vol) <= bound ->
  Qabs (approach 0.15 target_vol current_vol - target_vol) <= 0.85 * bound.
Proof.
  intros Hb. apply Qabs_le_iff in Hb. apply Qabs_le_iff.
  destruct (approach_cases 0.15 target_vol current_vol) as [-> | ->]; lra.
Qed.

Lemma approach_iter_bound (target_vol current_vol : Q) (n : nat) :
  Qabs (current_vol - target_vol) <= 1 ->
  Qabs (Nat.iter n (approach 0.15 target_vol) current_vol - target_vol)
  <= Nat.iter n (Qmult 0.85) 1.
Proof.
  intros Hd. induction n as [|n IH].
  - exact Hd.
  - rewrite !Nat.iter_succ. apply approach_contracts. exact IH.
Qed.

Lemma approach_iter_rest (target_vol : Q) (n : nat) :
  Nat.iter n (approach 0.15 target_vol) target_vol = target_vol.
Proof.
  induction n as [|n IH]; [reflexivity|]. rewrite Nat.iter_succ, IH. apply approach_rest.
Qed.

(** From a distance of at most 1 the target is reached on the 43rd
    update, and kept. *)
Lemma approach_settles (target_vol current_vol : Q) (n : nat) :
  Qabs (current_vol - target_vol) <= 1 -> (43 <= n)%nat ->
  Nat.iter n (approach 0.15 target_vol) current_vol = target_vol.
Proof.
  intros Hd Hn. replace n with ((n - 43) + 43)%nat by lia.
  rewrite Nat.iter_add.
  assert (E : Nat.iter 43 (approach 0.15 target_vol) current_vol = target_vol).
  { change 43%nat with (S 42). rewrite Nat.iter_succ.
    pose proof (approach_iter_bound target_vol current_vol 42 Hd) as Hb.
    apply approach_snaps. apply Qabs_le_iff in Hb. apply Qabs_lt_iff.
    set (c := Nat.iter 42 (approach 0.15 target_vol) current_vol) in *.
    assert (Hp : Nat.iter 42 (Qmult 0.85) 1 < 1 # 850).
    { vm_compute. reflexivity. }
    lra. }
  rewrite E. apply approach_iter_rest.
Qed.
End Approach.

Section PlayerVolumes.
Local Open Scope Q_scope.
Import Py AudioPlayer PlayerNotions.

Lemma update_volume_unit (ch : Z) (self : t) (m : Pygame.mixer) :
  0 <= volume_smooth_factor self <= 1 ->
  unit_volumes self -> unit_volumes (update_volume ch (self, m)).1.
Proof.
  intros Hf [Ht Hc]. destruct (update_volume_fields ch self m) as (_ & _ & E2 & _ & E4 & _).
  unfold unit_volumes. rewrite E2, E4. split; [exact Ht|].
  destruct (dict_get ch (target_volumes self)) as [tv|] eqn:Et; [|exact Hc].
  destruct (dict_get ch (current_volumes self)) as [cv|] eqn:Ec; [|exact Hc].
  destruct (dict_get ch (continuous_channels self)); [|exact Hc].
  apply (dict_set_Forall (fun v => 0 <= v <= 1)); [|exact Hc].
  apply approach_range; [exact Hf | |].
  - exact (dict_get_Forall (fun v => 0 <= v <= 1) _ _ _ Ht Et).
  - exact (dict_get_Forall (fun v => 0 <= v <= 1) _ _ _ Hc Ec).
Qed.

Lemma update_loop_unit (ks : list Z) (self : t) (m : Pygame.mixer) :
  0 <= volume_smooth_factor self <= 1 ->
  unit_volumes self ->
  unit_volumes (fold_left (fun st ch => update_volume ch st) ks (self, m)).1.
Proof.
  revert self m. induction ks as [|k ks IH]; intros self m Hf Hu; cbn [fold_left]; [exact Hu|].
  pose proof (update_volume_unit k self m Hf Hu) as Hu'.
  destruct (update_volume_fields k self m) as (_ & _ & _ & Ef & _).
  destruct (update_volume k (self, m)) as [s1 m1]. cbn [fst] in *.
  apply IH; [rewrite Ef; exact Hf | exact Hu'].
Qed.

Lemma perform_unit (c : PlayerTrace.call) (st : t * Pygame.mixer) :
  PlayerTrace.starts_in_unit_interval c ->
  player_invariant st.1 -> unit_volumes st.1 -> unit_volumes (PlayerTrace.perform c st).1.
Proof.
  destruct st as [self m]. cbn [fst]. intros Hs (Hc & Hf & Hoff) [Ht Hcur].
  destruct c as [r ch v|r ch v|ch v| |ch|]; cbn [PlayerTrace.perform fst snd].
  - split; assumption.
  - destruct (start_fields r ch v self m) as (_ & _ & Eoff & Eon).
    destruct (start_continuous_sound r ch v self m) as [[b s'] m']. cbn [fst snd] in *.
    destruct (is_initialized self).
    + destruct (Eon eq_refl) as (_ & E2 & E3). unfold unit_volumes. rewrite E2, E3.
      split; apply (dict_set_Forall (fun v => 0 <= v <= 1)); assumption.
    + rewrite (Eoff eq_refl). split; assumption.
  - unfold set_continuous_volume. destruct (dict_mem ch (continuous_channels self)).
    + split; [|exact Hcur]. cbn [target_volumes].
      apply (dict_set_Forall (fun v => 0 <= v <= 1)); [|exact Ht].
      apply clip1_range. discriminate.
    + split; assumption.
  - apply update_loop_unit; [rewrite Hf; split; discriminate | split; assumption].
  - destruct (stop_fields ch self m Hc) as (_ & _ & _ & E2 & E3).
    unfold unit_volumes. rewrite E2, E3.
    split; apply (dict_del_Forall (fun v => 0 <= v <= 1)); assumption.
  - unfold quit. destruct (is_initialized self) eqn:Hi; [|split; assumption].
    destruct (stop_all_fields self m Hc) as (m' & -> & _). split; constructor.
Qed.

Lemma run_unit (calls : list PlayerTrace.call) (st : t * Pygame.mixer) :
  Forall PlayerTrace.starts_in_unit_interval calls ->
  player_invariant st.1 -> unit_volumes st.1 -> unit_volumes (PlayerTrace.run calls st).1.
Proof.
  revert st. induction calls as [|c calls IH]; intros st Hs Hinv Hu; cbn [PlayerTrace.run fold_left].
  - exact Hu.
  - apply Forall_cons_1 in Hs as [Hc Hs].
    apply IH; [exact Hs | apply perform_invariant_player; exact Hinv | apply perform_unit; assumption].
Qed.

(** A player that is not initialised ignores every call. *)
Lemma perform_inert (c : PlayerTrace.call) (m : Pygame.mixer) :
  PlayerTrace.perform c (mk false [] [] [] 0.15, m) = (mk false [] [] [] 0.15, m).
Proof. destruct c; reflexivity. Qed.

Lemma run_inert (calls : list PlayerTrace.call) (m : Pygame.mixer) :
  PlayerTrace.run calls (mk false [] [] [] 0.15, m) = (mk false [] [] [] 0.15, m).
Proof.
  induction calls as [|c calls IH]; [reflexivity|].
  cbn [PlayerTrace.run fold_left]. rewrite perform_inert. exact IH.
Qed.

(** Once the mixer has been opened, a player that is no longer initialised
    has quit, and nothing plays. *)
Lemma run_quiet (mixer_ok : bool) (calls : list PlayerTrace.call) (st : t * Pygame.mixer) :
  player_invariant st.1 ->
  (is_initialized st.1 = false -> mixer_ok = true -> Pygame.mx_playing st.2 = []) ->
  let st' := PlayerTrace.run calls st in
  is_initialized st'.1 = false -> mixer_ok = true -> Pygame.mx_playing st'.2 = [].
Proof.
  revert st. induction calls as [|c calls IH]; intros st Hinv Hq; cbn [PlayerTrace.run fold_left].
  - exact Hq.
  - apply IH; [apply perform_invariant_player; exact Hinv|].
    destruct st as [self m]. cbn [fst snd] in *.
    destruct (is_initialized self) eqn:Hi.
    + destruct Hinv as (Hc & _). destruct c as [r ch v|r ch v|ch v| |ch|];
        cbn [PlayerTrace.perform fst snd].
      * rewrite Hi. discriminate.
      * destruct (start_fields r ch v self m) as (Ei & _).
        destruct (start_continuous_sound r ch v self m) as [[b s'] m']. cbn [fst snd] in *.
        rewrite Ei, Hi. discriminate.
      * unfold set_continuous_volume.
        destruct (dict_mem ch (continuous_channels self)); cbn [is_initialized];
          rewrite Hi; discriminate.
      * destruct (update_volumes_fields self m Hc) as (_ & Ei & _). rewrite Ei, Hi. discriminate.
      * destruct (stop_fields ch self m Hc) as (Ei & _). rewrite Ei, Hi. discriminate.
      * rewrite (quit_fields self m Hc Hi). reflexivity.
    + rewrite (invariant_off self Hinv Hi). rewrite perform_inert. cbn [fst snd].
      intros _. apply Hq. reflexivity.
Qed.
End PlayerVolumes.

Section UpdateRuns.
Local Open Scope Q_scope.
Import Py AudioPlayer PlayerNotions.

(** [n] calls of [update_volumes] in a row, on one channel. *)
Lemma updates_fields (n : nat) (st : t * Pygame.mixer) (ch : Z) (target_vol current_vol : Q) :
  player_invariant st.1 ->
  dict_get ch (target_volumes st.1) = Some target_vol ->
  dict_get ch (current_volumes st.1) = Some current_vol ->
  let st' := PlayerTrace.run (repeat PlayerTrace.UpdateVolumes n) st in
  player_invariant st'.1 /\
  dict_get ch (target_volumes st'.1) = Some target_vol /\
  dict_get ch (current_volumes st'.1)
  = Some (Nat.iter n (approach 0.15 target_vol) current_vol).
Proof.
  revert st current_vol. induction n as [|n IH]; intros st current_vol Hinv Ht Hc.
  - cbn. auto.
  - cbn [repeat PlayerTrace.run fold_left]. rewrite Nat.iter_succ_r.
    destruct st as [self m]. cbn [fst snd PlayerTrace.perform] in *.
    pose proof Hinv as (Hcons & Hf & _).
    destruct (update_volumes_fields self m Hcons) as (_ & _ & _ & E2 & _ & Eup & _).
    apply IH.
    + apply (perform_invariant_player PlayerTrace.UpdateVolumes (self, m)). exact Hinv.
    + rewrite E2. exact Ht.
    + rewrite (Eup ch target_vol current_vol Ht Hc), Hf. reflexivity.
Qed.
End UpdateRuns.

Section PlayerTheorems.
Local Open Scope Q_scope.
Import Py AudioPlayer PlayerNotions.

(** X1.  Along any sequence of calls on a player, a channel is a continuous
    channel exactly when it has a target volume and a current volume, and
    a player that is not initialised has no continuous channel. *)
Theorem continuous_channels_have_volumes (mixer_ok : bool) (m0 : Pygame.mixer)
        (calls : list PlayerTrace.call) (channel_id : Z) :
  let self := (PlayerTrace.run calls (__init__ mixer_ok, m0)).1 in
  (is_continuous_playing channel_id self = true ->
   exists target_vol current_vol,
     dict_get channel_id (target_volumes self) = Some target_vol /\
     dict_get channel_id (current_volumes self) = Some current_vol) /\
  (is_continuous_playing channel_id self = false ->
   dict_get channel_id (target_volumes self) = None /\
   dict_get channel_id (current_volumes self) = None) /\
  (is_initialized self = false -> is_continuous_playing channel_id self = false).
Proof.
  intros self.
  pose proof (run_invariant_player calls (__init__ mixer_ok, m0) (init_invariant mixer_ok))
    as ((Hnd & Ht & Hc) & _ & Hoff).
  fold self in Hnd, Ht, Hc, Hoff. unfold is_continuous_playing.
  split; [|split].
  - intros Hp. apply dict_mem_true in Hp.
    destruct (dict_get channel_id (target_volumes self)) as [tv|] eqn:Et.
    2:{ apply dict_get_None in Et. rewrite Ht in Et. tauto. }
    destruct (dict_get channel_id (current_volumes self)) as [cv|] eqn:Ec.
    2:{ apply dict_get_None in Ec. rewrite Hc in Ec. tauto. }
    exists tv, cv. split; reflexivity.
  - intros Hp. apply dict_mem_false in Hp.
    split; apply dict_get_None; [rewrite Ht | rewrite Hc]; exact Hp.
  - intros Hi. rewrite (Hoff Hi). reflexivity.
Qed.

(** X2.  When every continuous sound is started at a volume in [0, 1], every
    target volume and every current volume of the player stays in [0, 1],
    whatever volumes [set_continuous_volume] is asked for. *)
Theorem player_volumes_stay_in_unit_interval (mixer_ok : bool) (m0 : Pygame.mixer)
        (calls : list PlayerTrace.call) (channel_id : Z) :
  Forall PlayerTrace.starts_in_unit_interval calls ->
  let self := (PlayerTrace.run calls (__init__ mixer_ok, m0)).1 in
  (forall v, dict_get channel_id (target_volumes self) = Some v -> 0 <= v /\ v <= 1) /\
  (forall v, dict_get channel_id (current_volumes self) = Some v -> 0 <= v /\ v <= 1).
Proof.
  intros Hs self.
  assert (Hu : unit_volumes self).
  { apply run_unit; [exact Hs | apply init_invariant | split; constructor]. }
  destruct Hu as [Ht Hc]. split; intros v Hv.
  - exact (dict_get_Forall (fun v => 0 <= v <= 1) _ _ _ Ht Hv).
  - exact (dict_get_Forall (fun v => 0 <= v <= 1) _ _ _ Hc Hv).
Qed.

Lemma player_volumes_stay_in_unit_interval_loop :
  let self :=
    (PlayerTrace.run [PlayerTrace.StartContinuousSound 0%nat 1 0.5;
                      PlayerTrace.SetContinuousVolume 1 7; PlayerTrace.UpdateVolumes]
                     (__init__ true, Pygame.mixer_empty)).1 in
  (forall v, dict_get 1 (target_volumes self) = Some v -> 0 <= v /\ v <= 1) /\
  (forall v, dict_get 1 (current_volumes self) = Some v -> 0 <= v /\ v <= 1).
Proof.
  apply (player_volumes_stay_in_unit_interval true Pygame.mixer_empty).
  repeat constructor; vm_compute; discriminate.
Defined.

(** X3.  [update_volumes] moves the current volume of every continuous
    channel toward its target by 0.15 of the difference and snaps it to the
    target when that leaves it within 0.001: the target is kept, the new
    volume lies between the old one and the target, and the distance to the
    target shrinks at least by the factor 0.85. *)
Theorem update_volumes_moves_toward_target (mixer_ok : bool) (m0 : Pygame.mixer)
        (calls : list PlayerTrace.call) (channel_id : Z) (target_vol current_vol : Q) :
  let st := PlayerTrace.run calls (__init__ mixer_ok, m0) in
  dict_get channel_id (target_volumes st.1) = Some target_vol ->
  dict_get channel_id (current_volumes st.1) = Some current_vol ->
  let st' := update_volumes st.1 st.2 in
  let moved := current_vol + (target_vol - current_vol) * 0.15 in
  let new_vol := if Py.ltb (Py.abs (moved - target_vol)) 0.001 then target_vol else moved in
  dict_get channel_id (target_volumes st'.1) = Some target_vol /\
  dict_get channel_id (current_volumes st'.1) = Some new_vol /\
  Qabs (new_vol - target_vol) <= 0.85 * Qabs (current_vol - target_vol) /\
  (current_vol <= target_vol -> current_vol <= new_vol /\ new_vol <= target_vol) /\
  (target_vol <= current_vol -> target_vol <= new_vol /\ new_vol <= current_vol).
Proof.
  intros st Ht Hc st' moved new_vol.
  pose proof (run_invariant_player calls (__init__ mixer_ok, m0) (init_invariant mixer_ok))
    as (Hcons & Hf & _).
  fold st in Hcons, Hf.
  destruct (update_volumes_fields st.1 st.2 Hcons) as (_ & _ & _ & E2 & _ & Eup & _).
  fold st' in E2, Eup.
  split; [rewrite E2; exact Ht|].
  split; [rewrite (Eup _ _ _ Ht Hc), Hf; reflexivity|].
  change new_vol with (approach 0.15 target_vol current_vol).
  split; [apply approach_contracts; apply Qle_refl|].
  apply approach_between. split; discriminate.
Qed.

Lemma update_volumes_moves_toward_target_loop :
  let st :=
    PlayerTrace.run [PlayerTrace.StartContinuousSound 0%nat 1 0;
                     PlayerTrace.SetContinuousVolume 1 0.8]
                    (__init__ true, Pygame.mixer_empty) in
  let st' := update_volumes st.1 st.2 in
  dict_get 1 (target_volumes st'.1) = Some 0.8 /\
  dict_get 1 (current_volumes st'.1) = Some (0 + (0.8 - 0) * 0.15).
Proof.
  destruct (update_volumes_moves_toward_target true Pygame.mixer_empty
              [PlayerTrace.StartContinuousSound 0%nat 1 0;
               PlayerTrace.SetContinuousVolume 1 0.8] 1 0.8 0)
    as (Ht & Hc & _).
  - reflexivity.
  - reflexivity.
  - split; [exact Ht | exact Hc].
Defined.

(** X4.  When every continuous sound is started at a volume in [0, 1], the
    current volume of a continuous channel reaches the requested target,
    clipped to [0, 1], exactly, within 43 calls of [update_volumes] after
    [set_continuous_volume], and stays there. *)
Theorem continuous_volume_settles (mixer_ok : bool) (m0 : Pygame.mixer)
        (calls : list PlayerTrace.call) (channel_id : Z) (target_volume : Q) (n : nat) :
  Forall PlayerTrace.starts_in_unit_interval calls ->
  let st := PlayerTrace.run calls (__init__ mixer_ok, m0) in
  is_continuous_playing channel_id st.1 = true ->
  (43 <= n)%nat ->
  let st' :=
    PlayerTrace.run (PlayerTrace.SetContinuousVolume channel_id target_volume
                     :: repeat PlayerTrace.UpdateVolumes n) st in
  dict_get channel_id (target_volumes st'.1) = Some (Np.clip1 target_volume 0 1) /\
  dict_get channel_id (current_volumes st'.1) = Some (Np.clip1 target_volume 0 1).
Proof.
  intros Hs st Hp Hn st'.
  pose proof (run_invariant_player calls (__init__ mixer_ok, m0) (init_invariant mixer_ok))
    as Hinv.
  assert (Hu : unit_volumes st.1).
  { apply run_unit; [exact Hs | apply init_invariant | split; constructor]. }
  fold st in Hinv. pose proof Hinv as ((Hnd & Ht & Hc) & _).
  unfold is_continuous_playing in Hp.
  destruct (dict_get channel_id (current_volumes st.1)) as [cv|] eqn:Ec.
  2:{ apply dict_get_None in Ec. rewrite Hc in Ec. apply dict_mem_true in Hp. tauto. }
  assert (Hcv : 0 <= cv <= 1)
    by exact (dict_get_Forall (fun v => 0 <= v <= 1) _ _ _ (proj2 Hu) Ec).
  pose proof (clip1_range target_volume 0 1 ltac:(discriminate)) as Hclip.
  set (st1 := PlayerTrace.perform (PlayerTrace.SetContinuousVolume channel_id target_volume) st).
  assert (Hinv1 : player_invariant st1.1) by (apply perform_invariant_player; exact Hinv).
  assert (Ht1 : dict_get channel_id (target_volumes st1.1) = Some (Np.clip1 target_volume 0 1)).
  { unfold st1. destruct st as [self m]. cbn [PlayerTrace.perform fst snd] in *.
    unfold set_continuous_volume. rewrite Hp. cbn [target_volumes]. apply dict_get_set_eq. }
  assert (Hc1 : dict_get channel_id (current_volumes st1.1) = Some cv).
  { unfold st1. destruct st as [self m]. cbn [PlayerTrace.perform fst snd] in *.
    unfold set_continuous_volume. rewrite Hp. exact Ec. }
  destruct (updates_fields n st1 channel_id _ _ Hinv1 Ht1 Hc1) as (_ & Ht' & Hc').
  change (PlayerTrace.run (repeat PlayerTrace.UpdateVolumes n) st1) with st' in Ht', Hc'.
  split; [exact Ht'|]. rewrite Hc'. f_equal.
  apply approach_settles; [|exact Hn]. apply Qabs_le_iff. lra.
Qed.

Lemma continuous_volume_settles_loop :
  let st :=
    PlayerTrace.run [PlayerTrace.StartContinuousSound 0%nat 1 0]
                    (__init__ true, Pygame.mixer_empty) in
  let st' :=
    PlayerTrace.run (PlayerTrace.SetContinuousVolume 1 0.8
                     :: repeat PlayerTrace.UpdateVolumes 43) st in
  dict_get 1 (current_volumes st'.1) = Some (Np.clip1 0.8 0 1).
Proof.
  apply (continuous_volume_settles true Pygame.mixer_empty
           [PlayerTrace.StartContinuousSound 0%nat 1 0] 1 0.8 43).
  - repeat constructor; vm_compute; discriminate.
  - reflexivity.
  - lia.
Defined.
End PlayerTheorems.

Section PlayerTheorems2.
Local Open Scope Q_scope.
Import Py AudioPlayer PlayerNotions.

(** X5.  On a channel that is not a continuous channel,
    [stop_continuous_sound] undoes [start_continuous_sound]: the player is
    as it was before the two calls; and after [stop_continuous_sound] the
    channel is never a continuous channel. *)
Theorem stop_undoes_start (mixer_ok : bool) (m0 : Pygame.mixer)
        (calls : list PlayerTrace.call) (sound_object : Pygame.ref) (channel_id : Z)
        (initial_volume : Q) :
  let st := PlayerTrace.run calls (__init__ mixer_ok, m0) in
  let started := start_continuous_sound sound_object channel_id initial_volume st.1 st.2 in
  let stopped := stop_continuous_sound channel_id started.1.2 started.2 in
  is_continuous_playing channel_id stopped.1 = false /\
  (is_continuous_playing channel_id st.1 = false -> stopped.1 = st.1).
Proof.
  intros st started stopped.
  pose proof (run_invariant_player calls (__init__ mixer_ok, m0) (init_invariant mixer_ok))
    as (Hcons & _).
  fold st in Hcons.
  pose proof (start_consistent sound_object channel_id initial_volume st.1 st.2 Hcons) as Hcons'.
  destruct (start_fields sound_object channel_id initial_volume st.1 st.2)
    as (_ & _ & Eoff & Eon).
  fold started in Hcons', Eoff, Eon.
  destruct (stop_fields channel_id started.1.2 started.2 Hcons') as (Ei & Ef & E1 & E2 & E3).
  fold stopped in Ei, Ef, E1, E2, E3.
  split.
  - unfold is_continuous_playing, dict_mem. rewrite E1, dict_get_del_eq; [reflexivity|].
    apply Hcons'.
  - intros Hp. unfold is_continuous_playing in Hp.
    destruct Hcons as (_ & Ht & Hc).
    assert (Hpt : dict_mem channel_id (target_volumes st.1) = false).
    { apply dict_mem_false. rewrite Ht. apply dict_mem_false. exact Hp. }
    assert (Hpc : dict_mem channel_id (current_volumes st.1) = false).
    { apply dict_mem_false. rewrite Hc. apply dict_mem_false. exact Hp. }
    destruct (is_initialized st.1) eqn:Hi.
    + destruct (Eon eq_refl) as (F1 & F2 & F3).
      rewrite F1, dict_del_set_fresh in E1 by exact Hp.
      rewrite F2, dict_del_set_fresh in E2 by exact Hpt.
      rewrite F3, dict_del_set_fresh in E3 by exact Hpc.
      destruct (start_fields sound_object channel_id initial_volume st.1 st.2) as (Gi & Gf & _).
      fold started in Gi, Gf. rewrite Gi in Ei. rewrite Gf in Ef.
      destruct stopped.1 as [i cc tv cv f], st.1 as [i' cc' tv' cv' f']. cbn in *. congruence.
    + rewrite (Eoff eq_refl) in E1, E2, E3, Ei, Ef.
      rewrite dict_del_absent in E1 by exact Hp.
      rewrite dict_del_absent in E2 by exact Hpt.
      rewrite dict_del_absent in E3 by exact Hpc.
      destruct stopped.1 as [i cc tv cv f], st.1 as [i' cc' tv' cv' f']. cbn in *. congruence.
Qed.

Lemma stop_undoes_start_loop :
  let st :=
    PlayerTrace.run [PlayerTrace.StartContinuousSound 0%nat 1 0.5]
                    (__init__ true, Pygame.mixer_empty) in
  let started := start_continuous_sound 1%nat 3 0.25 st.1 st.2 in
  let stopped := stop_continuous_sound 3 started.1.2 started.2 in
  stopped.1 = st.1.
Proof.
  apply (stop_undoes_start true Pygame.mixer_empty
           [PlayerTrace.StartContinuousSound 0%nat 1 0.5] 1%nat 3 0.25).
  reflexivity.
Defined.

(** X6.  After [quit] the player is not initialised and keeps no channel
    and no volume; if the mixer had been opened, nothing plays any more;
    and every later call leaves the player and the mixer as they are:
    [play_sound] and [start_continuous_sound] play nothing. *)
Theorem quit_leaves_player_inert (mixer_ok : bool) (m0 : Pygame.mixer)
        (calls later : list PlayerTrace.call) :
  let st := PlayerTrace.run (calls ++ [PlayerTrace.Quit]) (__init__ mixer_ok, m0) in
  st.1 = mk false [] [] [] 0.15 /\
  (mixer_ok = true -> Pygame.mx_playing st.2 = []) /\
  PlayerTrace.run later st = st.
Proof.
  intros st.
  pose proof (run_invariant_player (calls ++ [PlayerTrace.Quit]) (__init__ mixer_ok, m0)
                (init_invariant mixer_ok)) as Hinv.
  fold st in Hinv.
  assert (Hi : is_initialized st.1 = false).
  { unfold st, PlayerTrace.run. rewrite fold_left_app. cbn [fold_left].
    fold (PlayerTrace.run calls (__init__ mixer_ok, m0)).
    pose proof (run_invariant_player calls (__init__ mixer_ok, m0) (init_invariant mixer_ok))
      as (Hcons & _).
    destruct (PlayerTrace.run calls (__init__ mixer_ok, m0)) as [self m].
    cbn [PlayerTrace.perform fst] in *.
    destruct (is_initialized self) eqn:E.
    - rewrite (quit_fields self m Hcons E). reflexivity.
    - unfold quit. rewrite E. exact E. }
  pose proof (invariant_off st.1 Hinv Hi) as Eoff.
  split; [exact Eoff|]. split.
  - intros Hok.
    apply (run_quiet mixer_ok (calls ++ [PlayerTrace.Quit]) (__init__ mixer_ok, m0));
      [apply init_invariant | | exact Hi | exact Hok].
    cbn [fst __init__ is_initialized]. intros E1 E2. congruence.
  - destruct st as [self m]. cbn [fst] in Eoff. rewrite Eoff. apply run_inert.
Qed.



End PlayerTheorems2.

(* ===================================================================== *)
(** * Sound constructors: lengths, bounds and errors                  *)
(* ===================================================================== *)

Section SpecialLengths.
Local Open Scope Q_scope.
Context `{Libm}.
Import HapticRenderer Notions.

Lemma smooth_passes_ok (sizes : list Z) (n_s : Z) :
  Forall (fun kernel_size => (kernel_size <= n_s)%Z) sizes ->
  keeps_length n_s (smooth_passes sizes).
Proof.
  induction sizes as [|k sizes IH]; intros Hs w Hw; cbn [smooth_passes].
  - exists w. split; [reflexivity | exact Hw].
  - apply Forall_cons_1 in Hs as [Hk Hs].
    destruct (2 <? k)%Z eqn:E.
    + apply Z.ltb_lt in E.
      destruct (convolve_box_ok (Z.to_nat k) n_s ltac:(lia) ltac:(lia) w Hw) as (w' & -> & Hw').
      cbn [Py.bind]. apply IH; assumption.
    + cbn [Py.bind]. apply IH; assumption.
Qed.

Lemma sound_of_buffer_new (sound_buffer : list Z) (m : Pygame.mixer) :
  sound_of_buffer sound_buffer m
  = Pygame.Sound_new (if (length sound_buffer =? 0)%nat then [0%Z] else sound_buffer) m.
Proof. unfold sound_of_buffer. destruct (length sound_buffer =? 0)%nat; reflexivity. Qed.


Lemma sa_background_length (hz ms amp fade_out_ms : Q) (m : Pygame.mixer) :
  0 <= ms ->
  exists buf,
    create_sa_background_sound default hz ms amp fade_out_ms m
    = Py.Ok (sound_of_buffer buf m) /\
    length buf = Z.to_nat (samples ms).
Proof.
  intros Hms. unfold create_sa_background_sound.
  destruct (time_axis_ok ms Hms) as (t & -> & Ht). cbn [Py.bind].
  match goal with
  | |- context [Py.bind (if ?c then ?f ?w else _) _] =>
      assert (Hs : exists w', (if c then f w else Py.Ok w) = Py.Ok w'
                              /\ length w' = Z.to_nat (samples ms))
  end.
  { destruct (20 <? samples ms)%Z eqn:E.
    - apply Z.ltb_lt in E. apply smooth_passes_ok; [|lengths].
      cbn [map]. repeat (apply Forall_cons_2; [lia|]). apply Forall_nil_2.
    - eexists. split; [reflexivity | lengths]. }
  destruct Hs as (w & -> & Hw). cbn [Py.bind].
  stage (linear_attack_ok 0.01 (samples ms) ltac:(discriminate)).
  stage (exp_fade_out_ok (-1.2) fade_out_ms (samples ms)).
  eexists. split; [reflexivity | lengths].
Qed.

Lemma ra_click_length (hz ms amp fade_out_ms : Q) (m : Pygame.mixer) :
  0 <= ms ->
  exists buf,
    create_ra_click_sound default hz ms amp fade_out_ms m
    = Py.Ok (sound_of_buffer buf m) /\
    length buf = Z.to_nat (samples ms).
Proof.
  intros Hms. unfold create_ra_click_sound.
  destruct (time_axis_ok ms Hms) as (t & -> & Ht). cbn [Py.bind].
  match goal with
  | |- context [Py.bind (if ?c then ?body else ?other) _] =>
      assert (Hs : exists w', (if c then body else other) = Py.Ok w'
                              /\ length w' = Z.to_nat (samples ms))
  end.
  { destruct (10 <? samples ms)%Z eqn:E; [|eexists; split; [reflexivity | lengths]].
    apply Z.ltb_lt in E.
    destruct (2 <? Z.min 8 (samples ms / 3))%Z eqn:E2; [|eexists; split; [reflexivity | lengths]].
    apply Z.ltb_lt in E2.
    apply (convolve_box_ok (Z.to_nat (Z.min 8 (samples ms / 3))) (samples ms)); [lia | lia | lengths]. }
  destruct Hs as (w & -> & Hw). cbn [Py.bind].
  set (attack_samples := Py.int (0.0001 * inject_Z (sample_rate default))).
  match goal with
  | |- context [Py.bind (if ?c then ?body else ?other) _] =>
      assert (Hs : exists w', (if c then body else other) = Py.Ok w'
                              /\ length w' = Z.to_nat (samples ms))
  end.
  { destruct ((0 <? attack_samples)%Z && (attack_samples <? samples ms)%Z) eqn:E;
      [|eexists; split; [reflexivity | exact Hw]].
    apply andb_prop in E as [E1 E2]. apply Z.ltb_lt in E1, E2.
    destruct (linspace_ok 0 1 attack_samples true ltac:(lia)) as (ramp & -> & Hr).
    cbn [Py.bind]. eexists. split; [reflexivity|].
    rewrite length_imul_head; [exact Hw | rewrite length_sqrt; exact Hr | lia]. }
  destruct Hs as (w2 & -> & Hw2). cbn [Py.bind].
  stage (exp_fade_out_ok (-3) fade_out_ms (samples ms)).
  eexists. split; [reflexivity | lengths].
Qed.

End SpecialLengths.

Section Truncation.
Local Open Scope Q_scope.

Lemma int_opp (x : Q) : Py.int (- x) = (- Py.int x)%Z.
Proof. unfold Py.int. destruct x as [n d]. cbn [Qopp Qnum Qden]. apply Z.quot_opp_l. lia. Qed.

(** Truncation toward zero stays below an integer bound that the value does
    not reach. *)
Lemma int_below (x : Q) (h : Z) : (0 <= h)%Z -> x < inject_Z (h + 1) -> (Py.int x <= h)%Z.
Proof.
  intros Hh Hx. destruct (Qlt_le_dec x 0) as [Hneg|Hpos].
  - assert (Py.int x <= 0)%Z; [|lia].
    unfold Py.int. destruct x as [n d]. cbn [Qnum Qden]. unfold Qlt in Hneg. cbn in Hneg.
    apply Z.quot_le_upper_bound; lia.
  - rewrite int_floor by exact Hpos.
    assert (Hf : inject_Z (Qfloor x) < inject_Z (h + 1)).
    { eapply Qle_lt_trans; [apply Qfloor_le | exact Hx]. }
    rewrite <- Zlt_Qlt in Hf. lia.
Qed.

Lemma int_above (x : Q) (h : Z) : (0 <= h)%Z -> inject_Z (- (h + 1)) < x -> (- h <= Py.int x)%Z.
Proof.
  intros Hh Hx. assert (Py.int (- x) <= h)%Z; [|rewrite int_opp in *; lia].
  apply int_below; [exact Hh|]. rewrite inject_Z_opp in Hx. lra.
Qed.

(** Quantization of a sample of magnitude at most [a <= 1]. *)
Lemma to_int16_bounded (s a : Q) (h : Z) :
  (0 <= h <= 32767)%Z -> a * 32767 < inject_Z (h + 1) ->
  - a <= s -> s <= a ->
  Np.to_int16 (s * 32767) = Py.int (s * 32767) /\ (- h <= Py.int (s * 32767) <= h)%Z.
Proof.
  intros Hh Ha Hlo Hhi.
  assert (Hb : (- h <= Py.int (s * 32767) <= h)%Z).
  { split; [apply int_above | apply int_below]; try lia.
    - rewrite inject_Z_opp. lra.
    - lra. }
  split; [|exact Hb]. unfold Np.to_int16. apply wrap_int16_id. unfold Notions.in_int16. lia.
Qed.
End Truncation.

(** Inversion of a body that returned, one top-level stage at a time. *)
Ltac outcome E :=
  repeat match type of E with
  | Py.bind ?x _ = _ => destruct x as [?|?]; cbn [Py.bind] in E; [|discriminate E]
  | (let '(_, _) := ?p in _) = _ => destruct p
  end.

Section SoftClipping.
Local Open Scope Q_scope.
Context `{Libm}.
Import HapticRenderer Notions.

Lemma saturated_bounded (gain : Q) (wave_data : list Q) :
  0 <= gain ->
  (forall x, -1 <= np_tanh x /\ np_tanh x <= 1) ->
  Forall (fun s => - gain <= s /\ s <= gain) (Np.muls (Np.tanh (Np.muls wave_data 0.9)) gain).
Proof.
  intros Hg Ht. unfold Np.muls, Np.tanh. rewrite !Forall_map. apply Forall_true.
  intros x. cbn. destruct (Ht (x * 0.9)) as [Hlo Hhi]. split; nra.
Qed.

Lemma quantize_bounded (a : Q) (h : Z) (wave_data : list Q) :
  (0 <= h <= 32767)%Z -> a * 32767 < inject_Z (h + 1) ->
  Forall (fun s => - a <= s /\ s <= a) wave_data ->
  quantize wave_data = map (fun s => Py.int (s * 32767)) wave_data /\
  Forall (fun z => - h <= z <= h)%Z (quantize wave_data).
Proof.
  intros Hh Ha Hall. rewrite quantize_samples. split.
  - apply Forall_fmap_ext_1. eapply Forall_impl; [exact Hall|].
    intros s [Hlo Hhi]. apply (to_int16_bounded s a h); assumption.
  - apply Forall_map. eapply Forall_impl; [exact Hall|].
    intros s [Hlo Hhi]. cbn.
    destruct (to_int16_bounded s a h Hh Ha Hlo Hhi) as [-> Hb]. exact Hb.
Qed.

Lemma sound_of_buffer_bounded (h : Z) (buf : list Z) (m : Pygame.mixer) :
  (0 <= h)%Z -> Forall (fun z => - h <= z <= h)%Z buf ->
  exists stored,
    sound_of_buffer buf m = Pygame.Sound_new stored m /\
    Forall (fun z => - h <= z <= h)%Z stored.
Proof.
  intros Hh Hb. rewrite sound_of_buffer_new.
  destruct (length buf =? 0)%nat; eexists; (split; [reflexivity|]); [|exact Hb].
  apply Forall_cons_2; [lia | apply Forall_nil_2].
Qed.

Lemma sa_background_bounded (self : t) (hz ms amp fade_out_ms : Q) (m : Pygame.mixer)
      (r : Pygame.ref) (m' : Pygame.mixer) :
  (forall x, -1 <= np_tanh x /\ np_tanh x <= 1) ->
  create_sa_background_sound self hz ms amp fade_out_ms m = Py.Ok (r, m') ->
  exists stored,
    (r, m') = Pygame.Sound_new stored m /\ Forall (fun z => -31128 <= z <= 31128)%Z stored.
Proof.
  intros Ht E. unfold create_sa_background_sound in E. outcome E.
  injection E as E.
  match type of E with
  | sound_of_buffer (quantize ?w) m = _ =>
      destruct (quantize_bounded 0.95 31128 w ltac:(lia) ltac:(reflexivity)
                  (saturated_bounded 0.95 _ ltac:(discriminate) Ht)) as [_ Hb];
      destruct (sound_of_buffer_bounded 31128 (quantize w) m ltac:(lia) Hb) as (stored & Es & Hs)
  end.
  exists stored. split; [congruence | exact Hs].
Qed.

Lemma ra_click_bounded (self : t) (hz ms amp fade_out_ms : Q) (m : Pygame.mixer)
      (r : Pygame.ref) (m' : Pygame.mixer) :
  (forall x, -1 <= np_tanh x /\ np_tanh x <= 1) ->
  create_ra_click_sound self hz ms amp fade_out_ms m = Py.Ok (r, m') ->
  exists stored,
    (r, m') = Pygame.Sound_new stored m /\ Forall (fun z => -26213 <= z <= 26213)%Z stored.
Proof.
  intros Ht E. unfold create_ra_click_sound in E. outcome E.
  injection E as E.
  match type of E with
  | sound_of_buffer (quantize ?w) m = _ =>
      destruct (quantize_bounded 0.8 26213 w ltac:(lia) ltac:(reflexivity)
                  (saturated_bounded 0.8 _ ltac:(discriminate) Ht)) as [_ Hb];
      destruct (sound_of_buffer_bounded 26213 (quantize w) m ltac:(lia) Hb) as (stored & Es & Hs)
  end.
  exists stored. split; [congruence | exact Hs].
Qed.
End SoftClipping.

Section PlainTone.
Local Open Scope Q_scope.
Context `{Libm}.
Import HapticRenderer Notions.






End PlainTone.

Section GeneratorErrors.
Local Open Scope Q_scope.
Local Open Scope string_scope.
Context `{Libm}.
Import HapticRenderer Notions.

Lemma kwarg_rejects (name : string) (default : Q) (kwargs : gmap string Q) :
  delete name kwargs <> empty -> kwarg name default kwargs = Py.Raise Py.TypeError.
Proof. intros Hk. unfold kwarg. rewrite bool_decide_eq_false_2 by exact Hk. reflexivity. Qed.

Lemma time_axis_negative (ms : Q) :
  (samples ms < 0)%Z -> time_axis default ms = Py.Raise Py.ValueError.
Proof.
  intros Hn. unfold time_axis. fold (samples ms). unfold Np.linspace.
  assert (E : (samples ms <? 0)%Z = true) by (apply Z.ltb_lt; exact Hn).
  rewrite E. reflexivity.
Qed.

(** Keyword arguments that the generator of the material type does not
    take are a [TypeError], before anything is computed. *)
Lemma material_type_error (self : t) (material_type : string) (hz ms amp fade_out_ms : Q)
      (kwargs : gmap string Q) (g : RandomState) :
  ~ valid_kwargs material_type kwargs ->
  material_sound_buffer self material_type hz ms amp fade_out_ms kwargs g
  = Py.Raise Py.TypeError.
Proof.
  unfold valid_kwargs, material_kwarg, material_sound_buffer.
  repeat match goal with
  | |- context [String.eqb material_type ?s] => destruct (String.eqb material_type s)
  end; intros Hk; try (exfalso; apply Hk; exact I).
  - unfold _create_glass_waveform. rewrite kwarg_rejects by exact Hk. reflexivity.
  - unfold _create_metal_waveform. rewrite kwarg_rejects by exact Hk. reflexivity.
  - unfold _create_wood_waveform. rewrite kwarg_rejects by exact Hk. reflexivity.
  - unfold _create_plastic_waveform. rewrite kwarg_rejects by exact Hk. reflexivity.
  - unfold _create_fabric_waveform. rewrite kwarg_rejects by exact Hk. reflexivity.
  - unfold _create_ceramic_waveform. rewrite kwarg_rejects by exact Hk. reflexivity.
  - unfold _create_rubber_waveform. rewrite kwarg_rejects by exact Hk. reflexivity.
Qed.

(** A duration that gives a negative sample count is a [ValueError] of
    [np.linspace]. *)
Lemma material_value_error (material_type : string) (hz ms amp fade_out_ms : Q)
      (kwargs : gmap string Q) (g : RandomState) :
  valid_kwargs material_type kwargs -> (samples ms < 0)%Z ->
  material_sound_buffer default material_type hz ms amp fade_out_ms kwargs g
  = Py.Raise Py.ValueError.
Proof.
  unfold valid_kwargs, material_kwarg, material_sound_buffer.
  repeat match goal with
  | |- context [String.eqb material_type ?s] => destruct (String.eqb material_type s)
  end; intros Hk Hn.
  - unfold _create_glass_waveform. destruct (kwarg_ok _ 2 kwargs Hk) as (p & ->).
    cbn [Py.bind]. rewrite time_axis_negative by exact Hn. reflexivity.
  - unfold _create_metal_waveform. destruct (kwarg_ok _ 1.5 kwargs Hk) as (p & ->).
    cbn [Py.bind]. rewrite time_axis_negative by exact Hn. reflexivity.
  - unfold _create_wood_waveform. destruct (kwarg_ok _ 1 kwargs Hk) as (p & ->).
    cbn [Py.bind]. rewrite time_axis_negative by exact Hn. reflexivity.
  - unfold _create_plastic_waveform. destruct (kwarg_ok _ 1 kwargs Hk) as (p & ->).
    cbn [Py.bind]. rewrite time_axis_negative by exact Hn. reflexivity.
  - unfold _create_fabric_waveform. destruct (kwarg_ok _ 1 kwargs Hk) as (p & ->).
    cbn [Py.bind]. rewrite time_axis_negative by exact Hn. reflexivity.
  - unfold _create_ceramic_waveform. destruct (kwarg_ok _ 1.5 kwargs Hk) as (p & ->).
    cbn [Py.bind]. rewrite time_axis_negative by exact Hn. reflexivity.
  - unfold _create_rubber_waveform. destruct (kwarg_ok _ 1 kwargs Hk) as (p & ->).
    cbn [Py.bind]. rewrite time_axis_negative by exact Hn. reflexivity.
  - unfold create_sound_buffer. rewrite time_axis_negative by exact Hn. reflexivity.
Qed.

Lemma special_value_errors (hz end_hz ms amp fade_out_ms : Q) (m : Pygame.mixer) :
  (samples ms < 0)%Z ->
  create_sound_object default hz ms amp fade_out_ms m = Py.Raise Py.ValueError /\
  create_sweep_sound default hz end_hz ms amp fade_out_ms m = Py.Raise Py.ValueError /\
  create_sa_background_sound default hz ms amp fade_out_ms m = Py.Raise Py.ValueError /\
  create_ra_click_sound default hz ms amp fade_out_ms m = Py.Raise Py.ValueError.
Proof.
  intros Hn.
  unfold create_sound_object, create_sound_buffer, create_sweep_sound,
    create_sa_background_sound, create_ra_click_sound.
  rewrite time_axis_negative by exact Hn. repeat split.
Qed.

Lemma create_material_sound_outcome (material_type : string) (hz ms amp fade_out_ms : Q)
      (kwargs : gmap string Q) (g : RandomState) (m : Pygame.mixer) :
  create_material_sound default material_type hz ms amp fade_out_ms kwargs g m
  = let* bg := material_sound_buffer default material_type hz ms amp fade_out_ms kwargs g in
    Py.Ok ((sound_of_buffer bg.1 m).1, bg.2, (sound_of_buffer bg.1 m).2).
Proof.
  unfold create_material_sound.
  destruct (material_sound_buffer _ _ _ _ _ _ _ _) as [[buf g']|]; cbn [Py.bind fst snd];
    [|reflexivity].
  destruct (sound_of_buffer buf m). reflexivity.
Qed.
End GeneratorErrors.

(* ===================================================================== *)
(** * The coordinator along a session                                 *)
(* ===================================================================== *)

Section SoundCreation.
Local Open Scope Q_scope.
Local Open Scope string_scope.
Context `{Libm}.
Import HapticSystem Notions.

(** The frequencies and cache keys of the three sounds of a material. *)
Let motion_hz (snd_cfg : Config.sound) (props : Config.material) : Z :=
  Py.int (Config.ra_motion_base_hz snd_cfg * Config.f props).
Let click_hz (snd_cfg : Config.sound) (props : Config.material) : Z :=
  Py.int (Config.ra_click_hz snd_cfg * Config.f props).

Lemma sound_new_playing (buf : list Z) (m : Pygame.mixer) :
  Pygame.mx_playing (Pygame.Sound_new buf m).2 = Pygame.mx_playing m.
Proof. reflexivity. Qed.


(** Every sound constructor that returns has allocated one [Sound]. *)
Lemma create_material_sound_new (renderer : HapticRenderer.t) (material_type : string)
      (hz ms amp fade_out_ms : Q) (kwargs : gmap string Q) (g g' : RandomState)
      (m m' : Pygame.mixer) (r : Pygame.ref) :
  HapticRenderer.create_material_sound renderer material_type hz ms amp fade_out_ms kwargs g m
  = Py.Ok (r, g', m') ->
  exists buf, (r, m') = Pygame.Sound_new buf m.
Proof.
  unfold HapticRenderer.create_material_sound. intros E.
  destruct (HapticRenderer.material_sound_buffer _ _ _ _ _ _ _ _) as [[buf g1]|];
    cbn [Py.bind] in E; [|discriminate E].
  rewrite sound_of_buffer_new in E.
  remember (Pygame.Sound_new (if (length buf =? 0)%nat then [0%Z] else buf) m) as p eqn:Ep.
  destruct p as [r1 m1]. injection E as <- _ <-. eexists. exact Ep.
Qed.

Lemma create_sound_object_new (renderer : HapticRenderer.t) (hz ms amp fade_out_ms : Q)
      (m m' : Pygame.mixer) (r : Pygame.ref) :
  HapticRenderer.create_sound_object renderer hz ms amp fade_out_ms m = Py.Ok (r, m') ->
  exists buf, (r, m') = Pygame.Sound_new buf m.
Proof.
  unfold HapticRenderer.create_sound_object. intros E.
  destruct (HapticRenderer.create_sound_buffer _ _ _ _ _) as [buf|]; cbn [Py.bind] in E;
    [|discriminate E].
  rewrite sound_of_buffer_new in E. injection E as <- <-. eexists. reflexivity.
Qed.

Lemma create_ra_click_sound_new (renderer : HapticRenderer.t) (hz ms amp fade_out_ms : Q)
      (m m' : Pygame.mixer) (r : Pygame.ref) :
  HapticRenderer.create_ra_click_sound renderer hz ms amp fade_out_ms m = Py.Ok (r, m') ->
  exists buf, (r, m') = Pygame.Sound_new buf m.
Proof.
  unfold HapticRenderer.create_ra_click_sound. intros E. outcome E.
  rewrite sound_of_buffer_new in E. injection E as <- <-. eexists. reflexivity.
Qed.

Lemma create_sa_background_sound_new (renderer : HapticRenderer.t) (hz ms amp fade_out_ms : Q)
      (m m' : Pygame.mixer) (r : Pygame.ref) :
  HapticRenderer.create_sa_background_sound renderer hz ms amp fade_out_ms m = Py.Ok (r, m') ->
  exists buf, (r, m') = Pygame.Sound_new buf m.
Proof.
  unfold HapticRenderer.create_sa_background_sound. intros E. outcome E.
  rewrite sound_of_buffer_new in E. injection E as <- <-. eexists. reflexivity.
Qed.

(** The sound of a material under one cache key: the material generator
    when the material has a type, the plain tone otherwise. *)
Lemma material_or_plain_new (renderer : HapticRenderer.t) (props : Config.material)
      (hz ms amp fade_out_ms : Q) (g g' : RandomState) (m m' : Pygame.mixer) (r : Pygame.ref) :
  match Config.type props with
  | Some ty =>
      HapticRenderer.create_material_sound renderer ty hz ms amp fade_out_ms
        (Config.params props) g m
  | None =>
      let* rm := HapticRenderer.create_sound_object renderer hz ms amp fade_out_ms m in
      Py.Ok (rm.1, g, rm.2)
  end = Py.Ok (r, g', m') ->
  exists buf, (r, m') = Pygame.Sound_new buf m.
Proof.
  destruct (Config.type props) as [ty|].
  - apply create_material_sound_new.
  - intros E.
    destruct (HapticRenderer.create_sound_object renderer hz ms amp fade_out_ms m)
      as [[r1 m1]|] eqn:Eo; cbn [Py.bind fst snd] in E; [|discriminate E].
    injection E as <- _ <-. eapply create_sound_object_new. exact Eo.
Qed.

(** What a returned [_create_material_sounds] has done: three new sounds
    under three cache keys. *)
Lemma create_material_sounds_cached (renderer : HapticRenderer.t) (snd_cfg : Config.sound)
      (cache : gmap string Pygame.ref) (g : RandomState) (m : Pygame.mixer)
      (key : string) (props : Config.material) (st' : creation_state) :
  _create_material_sounds renderer snd_cfg (cache, g, m) (key, props) = Py.Ok st' ->
  exists buf1 buf2 buf3,
    let n := length (Pygame.mx_sounds m) in
    st'.1.1 =
      <[cache_key "ra_motion_loop" key (motion_hz snd_cfg props) := S (S n)]>
        (<[cache_key "ra_click" key (click_hz snd_cfg props) := S n]>
           (<[cache_key "ra_motion" key (motion_hz snd_cfg props) := n]> cache)) /\
    st'.2 = Pygame.mkMixer
              (Pygame.mx_sounds m
               ++ [Pygame.mkSound buf1 1; Pygame.mkSound buf2 1; Pygame.mkSound buf3 1])
              (Pygame.mx_playing m).
Proof.
  unfold _create_material_sounds. fold (motion_hz snd_cfg props) (click_hz snd_cfg props).
  intros E.
  match type of E with
  | Py.bind ?x _ = _ => destruct x as [[[r1 g1] m1]|] eqn:E1; cbn [Py.bind] in E; [|discriminate E]
  end.
  match type of E with
  | Py.bind ?x _ = _ => destruct x as [[r2 m2]|] eqn:E2; cbn [Py.bind] in E; [|discriminate E]
  end.
  match type of E with
  | Py.bind ?x _ = _ => destruct x as [[[r3 g3] m3]|] eqn:E3; cbn [Py.bind] in E; [|discriminate E]
  end.
  injection E as <-. cbn [fst snd].
  apply material_or_plain_new in E1 as (buf1 & E1).
  apply create_ra_click_sound_new in E2 as (buf2 & E2).
  apply material_or_plain_new in E3 as (buf3 & E3).
  exists buf1, buf2, buf3. cbn zeta.
  unfold Pygame.Sound_new in E1, E2, E3.
  injection E1 as -> ->. cbn [Pygame.mx_sounds Pygame.mx_playing] in E2.
  injection E2 as -> ->. cbn [Pygame.mx_sounds Pygame.mx_playing] in E3.
  injection E3 as -> ->.
  rewrite !length_app. cbn [length]. rewrite !Nat.add_1_r.
  split; [reflexivity|]. rewrite <- !app_assoc. reflexivity.
Qed.
End SoundCreation.

Section Frames.
Local Open Scope Q_scope.
Context `{SpikeEncoderImpl}.
Import HapticSystem Notions PlayerNotions SystemNotions.

Lemma same_materials_refl (s : t) : same_materials s s.
Proof. repeat split. Qed.

Lemma controller_blocks_frame (fired : bool) (now : Q) (self : t) :
  let s4 := snap (smooth (retarget (refresh_rate now (record_spike fired now self)))) in
  same_materials self s4 /\ audio_player s4 = audio_player self.
Proof.
  cbn zeta. rewrite snap_assignments, retarget_assignments, refresh_rate_assignments.
  unfold smooth, record_spike, same_materials. fields. repeat split.
Qed.

(** The sound side of a controller tick: the volume goes to the player,
    which then updates the volumes of its channels. *)
Lemma update_ra_motion_volume_player (fired : bool) (now : Q) (self : t) (m : Pygame.mixer) :
  let st' := _update_ra_motion_volume fired now self m in
  let player := audio_player self in
  same_materials self st'.1 /\
  (audio_player st'.1, st'.2)
  = AudioPlayer.update_volumes
      (if AudioPlayer.is_continuous_playing 1 player
       then AudioPlayer.set_continuous_volume 1 (current_volume st'.1) player
       else player) m.
Proof.
  cbn zeta. unfold _update_ra_motion_volume.
  destruct (controller_blocks_frame fired now self) as (Hm & Hp).
  revert Hm Hp.
  generalize (snap (smooth (retarget (refresh_rate now (record_spike fired now self))))).
  intros s4 Hm Hp. unfold push_target. rewrite Hp.
  destruct (AudioPlayer.is_continuous_playing 1 (audio_player self)).
  - fields.
    destruct (AudioPlayer.update_volumes
                (AudioPlayer.set_continuous_volume 1 (current_volume s4) (audio_player self)) m)
      as [ap m'] eqn:Eu.
    cbn [fst snd]. unfold log_volume, same_materials in *.
    repeat branch; fields; rewrite ?Eu; (split; [exact Hm | reflexivity]).
  - rewrite Hp.
    destruct (AudioPlayer.update_volumes (audio_player self) m) as [ap m'] eqn:Eu.
    cbn [fst snd]. unfold log_volume, same_materials in *.
    repeat branch; fields; (split; [exact Hm | reflexivity]).
Qed.
End Frames.

Section MixerFrames.
Local Open Scope Q_scope.
Import Py.

Lemma set_volume_other (r r' : Pygame.ref) (value : Q) (m : Pygame.mixer) :
  r' <> r ->
  lookup r' (Pygame.mx_sounds (Pygame.set_volume r value m)) = lookup r' (Pygame.mx_sounds m).
Proof.
  intros Hne. unfold Pygame.set_volume. destruct (ltb value 0); [reflexivity|].
  cbn [Pygame.mx_sounds]. apply list_lookup_alter_ne. congruence.
Qed.

Lemma set_volume_playing (r : Pygame.ref) (value : Q) (m : Pygame.mixer) :
  Pygame.mx_playing (Pygame.set_volume r value m) = Pygame.mx_playing m.
Proof. unfold Pygame.set_volume. destruct (ltb value 0); reflexivity. Qed.

(** A one-shot sound on a channel other than [channel_id'] leaves that
    channel and every other sound alone. *)
Lemma play_sound_frame (r : Pygame.ref) (channel_id channel_id' : Z) (volume : Q)
      (player : AudioPlayer.t) (m : Pygame.mixer) :
  channel_id <> channel_id' ->
  let m' := (AudioPlayer.play_sound r channel_id volume player m).2 in
  dict_get channel_id' (Pygame.mx_playing m') = dict_get channel_id' (Pygame.mx_playing m) /\
  (forall r', r' <> r -> lookup r' (Pygame.mx_sounds m') = lookup r' (Pygame.mx_sounds m)) /\
  (AudioPlayer.is_initialized player = false -> m' = m).
Proof.
  intros Hne. cbn zeta. unfold AudioPlayer.play_sound.
  destruct (AudioPlayer.is_initialized player); cbn [negb snd]; [|auto].
  destruct (channel_id <? 0)%Z; cbn [snd]; [split; [|split]; auto; discriminate|].
  unfold Pygame.channel_play. cbn [Pygame.mx_sounds Pygame.mx_playing].
  split; [|split; [|discriminate]].
  - rewrite dict_get_set_ne by exact Hne. rewrite set_volume_playing. reflexivity.
  - intros r' Hr. apply set_volume_other. exact Hr.
Qed.
End MixerFrames.

Section Frames2.
Local Open Scope Q_scope.
Context `{SpikeEncoderImpl}.
Import HapticSystem Notions PlayerNotions SystemNotions.

Lemma one_shots_refl (self : t) (m : Pygame.mixer) : one_shots self m m.
Proof. repeat split. Qed.

Lemma one_shots_sa (self : t) (volume : Q) (m m1 : Pygame.mixer) :
  one_shots self m m1 ->
  one_shots self m (AudioPlayer.play_sound (sa_sound self) 0 volume (audio_player self) m1).2.
Proof.
  intros (H1 & H2 & H3).
  destruct (play_sound_frame (sa_sound self) 0 1 volume (audio_player self) m1 ltac:(lia))
    as (F1 & F2 & F3).
  split; [congruence|]. split.
  - intros r Hs Hc. rewrite F2 by exact Hs. apply H2; assumption.
  - intros Hi. rewrite F3 by exact Hi. apply H3. exact Hi.
Qed.

Lemma one_shots_click (self : t) (volume : Q) (m m1 : Pygame.mixer) :
  one_shots self m m1 ->
  one_shots self m (AudioPlayer.play_sound (ra_click_sound self) 2 volume (audio_player self) m1).2.
Proof.
  intros (H1 & H2 & H3).
  destruct (play_sound_frame (ra_click_sound self) 2 1 volume (audio_player self) m1 ltac:(lia))
    as (F1 & F2 & F3).
  split; [congruence|]. split.
  - intros r Hs Hc. rewrite F2 by exact Hc. apply H2; assumption.
  - intros Hi. rewrite F3 by exact Hi. apply H3. exact Hi.
Qed.

(** A tick: the one-shot sounds of the spikes, then the controller tick. *)
Lemma step_player (mouse_speed avg_mouse_speed now : Q) (self : t) (m : Pygame.mixer) :
  let res := step mouse_speed avg_mouse_speed now self m in
  let player := audio_player self in
  exists m1,
    same_materials self res.1.2 /\ one_shots self m m1 /\
    (audio_player res.1.2, res.2)
    = AudioPlayer.update_volumes
        (if AudioPlayer.is_continuous_playing 1 player
         then AudioPlayer.set_continuous_volume 1 (current_volume res.1.2) player
         else player) m1.
Proof.
  cbn zeta. unfold step.
  destruct (SpikeEncoder_step _ _ _ _ _) as [[[[[[sa_fired fired] click_fired] ?] ?] ?] enc].
  match goal with
  | |- context [_update_ra_motion_volume fired now ?s ?m1] =>
      pose proof (update_ra_motion_volume_player fired now s m1) as Hu;
      assert (Hone : one_shots self m m1);
      [|exists m1; destruct (_update_ra_motion_volume fired now s m1) as [s' m'] eqn:Eu]
  end.
  - fields. destruct click_fired; destruct sa_fired;
      repeat first [apply one_shots_click | apply one_shots_sa | apply one_shots_refl].
  - cbn [fst snd] in *. unfold same_materials in *. fields in Hu.
    destruct Hu as (Hm & Hp). split; [exact Hm|]. split; [exact Hone | exact Hp].
Qed.

Lemma mouse_press_player (click_magnitude : option Q) (self : t) (m : Pygame.mixer) :
  let res := mouse_press click_magnitude self m in
  same_materials self res.1 /\ audio_player res.1 = audio_player self /\
  one_shots self m res.2.
Proof.
  cbn zeta. unfold mouse_press, same_materials. fields.
  split; [repeat split|]. split; [reflexivity|].
  apply one_shots_click. apply one_shots_refl.
Qed.

Lemma mouse_release_player (self : t) :
  let s' := mouse_release self in
  let player := audio_player self in
  same_materials self s' /\
  audio_player s' =
    (if AudioPlayer.is_continuous_playing 1 player
     then AudioPlayer.set_continuous_volume 1 0 player else player).
Proof.
  cbn zeta. unfold mouse_release, same_materials. fields.
  destruct (AudioPlayer.is_continuous_playing 1 (audio_player self)); fields; repeat split.
Qed.
End Frames2.

Section ChangeMaterial.
Local Open Scope Q_scope.
Context `{SpikeEncoderImpl}.
Import HapticSystem Notions PlayerNotions SystemNotions.

(** An index that is out of range is rejected before anything is
    assigned. *)
Lemma change_material_rejects (material_index : Z) (self : t) (m : Pygame.mixer) :
  (material_index < 0 \/ Z.of_nat (length (material_keys self)) <= material_index)%Z ->
  change_material material_index self m = Py.Ok (false, self, m).
Proof.
  intros Hout. unfold change_material.
  destruct (Z.leb_spec 0 material_index) as [H0|H0]; [|reflexivity].
  destruct (Z.ltb_spec material_index (Z.of_nat (length (material_keys self)))) as [H1|H1];
    [lia | reflexivity].
Qed.

(** [change_material] on an index in range, given the material and its
    cached sounds. *)
Lemma change_material_selects (material_index : Z) (self : t) (m : Pygame.mixer)
      (key : string) (props : Config.material) (motion click loop : Pygame.ref) :
  (0 <= material_index < Z.of_nat (length (material_keys self)))%Z ->
  lookup (Z.to_nat material_index) (material_keys self) = Some key ->
  materials_get key (materials self) = Py.Ok props ->
  current_material_sounds (Config.snd (config self)) (materials self) key (sound_cache self)
  = Py.Ok (motion, click, loop) ->
  let stopped :=
    if AudioPlayer.is_continuous_playing 1 (audio_player self)
    then AudioPlayer.stop_continuous_sound 1 (audio_player self) m
    else (audio_player self, m) in
  let started :=
    AudioPlayer.start_continuous_sound loop 1 (current_volume self) stopped.1 stopped.2 in
  exists s',
    change_material material_index self m = Py.Ok (true, s', started.2) /\
    audio_player s' = started.1.2 /\
    config s' = config self /\ materials s' = materials self /\
    material_keys s' = material_keys self /\ sound_cache s' = sound_cache self /\
    sa_sound s' = sa_sound self /\
    current_material_key s' = key /\ current_roughness s' = Config.r props /\
    ra_motion_sound s' = motion /\ ra_click_sound s' = click /\
    ra_motion_loop_sound s' = loop /\
    same_controller self s'.
Proof.
  intros Hi Hk Hp Hs. cbn zeta. unfold change_material.
  assert (E : (0 <=? material_index)%Z
              && (material_index <? Z.of_nat (length (material_keys self)))%Z = true).
  { apply andb_true_intro. split; [apply Z.leb_le | apply Z.ltb_lt]; lia. }
  rewrite E, Hk. cbn [Py.bind]. fields. rewrite Hp. cbn [Py.bind]. fields.
  unfold _update_current_material_sounds.
  destruct (if AudioPlayer.is_continuous_playing 1 (audio_player self)
            then AudioPlayer.stop_continuous_sound 1 (audio_player self) m
            else (audio_player self, m)) as [ap1 m1].
  fields. rewrite Hs. cbn [Py.bind]. fields.
  destruct (AudioPlayer.start_continuous_sound loop 1 (current_volume self) ap1 m1)
    as [[b ap2] m2].
  eexists. split; [reflexivity|]. unfold same_controller, same_constants. fields.
  repeat split.
Qed.
End ChangeMaterial.

Section SessionInvariant.
Local Open Scope Q_scope.
Context `{SpikeEncoderImpl}.
Import HapticSystem Notions PlayerNotions SystemNotions.

Lemma set_up_same (s s' : t) : same_materials s s' -> set_up s -> set_up s'.
Proof.
  intros (E1 & E2 & E3 & E4 & E5 & E6 & E7 & E8 & E9 & E10) (Hm & Hk & Hc & Hs).
  unfold set_up, sounds_cached, material_selected in *.
  rewrite E1, E2, E3, E4, E5, E6, E8, E9, E10. auto.
Qed.

Lemma clip_unit (v : Q) : 0 <= v <= 1 -> Np.clip1 v 0 1 = v.
Proof. intros [H0 H1]. apply clip1_id; assumption. Qed.

(** The player side of a tick when the loop follows the controller. *)
Lemma push_and_update (player : AudioPlayer.t) (loop : Pygame.ref) (volume old v : Q)
      (m : Pygame.mixer) :
  0 <= volume <= 1 -> 0 <= v <= 1 ->
  AudioPlayer.is_initialized player = true ->
  AudioPlayer.continuous_channels player = [(1%Z, loop)] ->
  AudioPlayer.target_volumes player = [(1%Z, old)] ->
  AudioPlayer.current_volumes player = [(1%Z, v)] ->
  AudioPlayer.volume_smooth_factor player = 0.15 ->
  let res :=
    AudioPlayer.update_volumes
      (if AudioPlayer.is_continuous_playing 1 player
       then AudioPlayer.set_continuous_volume 1 volume player else player) m in
  AudioPlayer.is_initialized res.1 = true /\
  AudioPlayer.continuous_channels res.1 = [(1%Z, loop)] /\
  AudioPlayer.target_volumes res.1 = [(1%Z, volume)] /\
  AudioPlayer.current_volumes res.1 = [(1%Z, PlayerNotions.approach 0.15 volume v)] /\
  AudioPlayer.volume_smooth_factor res.1 = 0.15 /\
  res.2 = Pygame.set_volume loop (PlayerNotions.approach 0.15 volume v) m.
Proof.
  intros Hv Hc Hi Hcc Ht Hcur Hf. destruct player as [i cc tv cv f]. cbn in Hi, Hcc, Ht, Hcur, Hf.
  subst. cbn zeta.
  unfold AudioPlayer.is_continuous_playing, AudioPlayer.set_continuous_volume, Py.dict_mem.
  cbn [AudioPlayer.continuous_channels AudioPlayer.target_volumes AudioPlayer.current_volumes
       AudioPlayer.is_initialized AudioPlayer.volume_smooth_factor
       Py.dict_get Py.dict_set Z.eqb Pos.eqb].
  rewrite (clip_unit volume Hv).
  unfold AudioPlayer.update_volumes, AudioPlayer.update_volume, Py.dict_keys.
  cbn [AudioPlayer.continuous_channels AudioPlayer.target_volumes AudioPlayer.current_volumes
       AudioPlayer.is_initialized AudioPlayer.volume_smooth_factor
       Py.dict_get Py.dict_set Z.eqb Pos.eqb map fst snd fold_left].
  repeat split.
Qed.

Lemma approach_unit (target v : Q) :
  0 <= target <= 1 -> 0 <= v <= 1 -> 0 <= PlayerNotions.approach 0.15 target v <= 1.
Proof. intros Ht Hv. apply approach_range; [split; discriminate | exact Ht | exact Hv]. Qed.

Lemma loop_follows_tick (self s' : t) (m m1 m' : Pygame.mixer) :
  same_materials self s' -> one_shots self m m1 ->
  (0 <= current_volume s' <= 1) ->
  (audio_player s', m')
  = AudioPlayer.update_volumes
      (if AudioPlayer.is_continuous_playing 1 (audio_player self)
       then AudioPlayer.set_continuous_volume 1 (current_volume s') (audio_player self)
       else audio_player self) m1 ->
  loop_follows_controller self m -> loop_follows_controller s' m'.
Proof.
  intros (_ & _ & _ & _ & _ & _ & _ & _ & _ & El) (H1 & _ & H3) Hv Eu.
  unfold loop_follows_controller. cbn zeta. rewrite El.
  destruct (AudioPlayer.is_initialized (audio_player self)) eqn:Hi.
  - intros (Hcc & Ht & (v & Hcur & Hv0 & Hv1) & Hf & Hp).
    destruct (push_and_update (audio_player self) (ra_motion_loop_sound self)
                (current_volume s') (current_volume self) v m1 Hv (conj Hv0 Hv1)
                Hi Hcc Ht Hcur Hf) as (F0 & F1 & F2 & F3 & F4 & F5).
    rewrite <- Eu in F0, F1, F2, F3, F4, F5. cbn [fst snd] in *.
    rewrite F0. split; [exact F1|]. split; [exact F2|].
    split; [eexists; split; [exact F3 | apply approach_unit; [exact Hv | split; assumption]]|].
    split; [exact F4|]. rewrite F5, set_volume_playing, H1. exact Hp.
  - intros Hoff. rewrite Hoff in Eu. cbn in Eu. injection Eu as -> _. reflexivity.
Qed.
End SessionInvariant.

Section SessionInvariant2.
Local Open Scope Q_scope.
Context `{SpikeEncoderImpl}.
Import HapticSystem Notions PlayerNotions SystemNotions.

Lemma current_material_sounds_props (snd_cfg : Config.sound)
      (materials : list (string * Config.material)) (key : string)
      (cache : gmap string Pygame.ref) (sounds : Pygame.ref * Pygame.ref * Pygame.ref) :
  current_material_sounds snd_cfg materials key cache = Py.Ok sounds ->
  exists props, materials_get key materials = Py.Ok props.
Proof.
  unfold current_material_sounds. destruct (materials_get key materials) as [props|];
    [eexists; reflexivity | discriminate].
Qed.

Lemma step_operational (mouse_speed avg_mouse_speed now : Q) (self : t) (m : Pygame.mixer) :
  unit_scales (config self) -> operational self m ->
  let res := step mouse_speed avg_mouse_speed now self m in
  operational res.1.2 res.2 /\ config res.1.2 = config self.
Proof.
  intros [Hmin Hmax] (Hs & Hl & Hc). cbn zeta.
  destruct (step_player mouse_speed avg_mouse_speed now self m) as (m1 & Hm & Hone & Eu).
  pose proof (perform_invariant (Trace.Step mouse_speed avg_mouse_speed now) (self, m)
                Hmin Hmax Hc) as Hc'.
  cbn [Trace.perform fst snd] in Hc'.
  destruct (step mouse_speed avg_mouse_speed now self m) as [[out s'] m']. cbn [fst snd] in *.
  split; [|apply Hm]. split; [eapply set_up_same; eassumption|]. split; [|exact Hc'].
  eapply loop_follows_tick; try eassumption. apply Hc'.
Qed.

Lemma mouse_press_operational (click_magnitude : option Q) (self : t) (m : Pygame.mixer) :
  operational self m ->
  let res := mouse_press click_magnitude self m in
  operational res.1 res.2 /\ config res.1 = config self.
Proof.
  intros (Hs & Hl & Hc). cbn zeta.
  destruct (mouse_press_player click_magnitude self m) as (Hm & Hp & (H1 & _ & H3)).
  destruct (mouse_press_fields click_magnitude self m)
    as ((_ & Ea & Ed & _) & _ & Et & Ecv & _).
  destruct (mouse_press click_magnitude self m) as [s' m']. cbn [fst snd] in *.
  split; [|apply Hm]. split; [eapply set_up_same; eassumption|]. split.
  - unfold loop_follows_controller in *. cbn zeta in *.
    destruct Hm as (_ & _ & _ & _ & _ & _ & _ & _ & _ & El). rewrite Hp, El, Ecv.
    destruct (AudioPlayer.is_initialized (audio_player self)); [|exact Hl].
    destruct Hl as (? & ? & ? & ? & ?). repeat split; try assumption. congruence.
  - unfold controller_invariant, volumes_in_unit_interval in *. rewrite Ea, Ed, Et, Ecv. exact Hc.
Qed.

Lemma mouse_release_operational (self : t) (m : Pygame.mixer) :
  operational self m ->
  operational (mouse_release self) m /\ config (mouse_release self) = config self.
Proof.
  intros (Hs & Hl & Hc).
  destruct (mouse_release_player self) as (Hm & Hp).
  destruct (mouse_release_fields self) as ((_ & Ea & Ed & _) & _ & Et & Ecv & _).
  split; [|apply Hm]. split; [eapply set_up_same; eassumption|]. split.
  - unfold loop_follows_controller in *. cbn zeta in *.
    destruct Hm as (_ & _ & _ & _ & _ & _ & _ & _ & _ & El). rewrite Hp, El, Ecv.
    destruct (AudioPlayer.is_initialized (audio_player self)) eqn:Hi.
    + destruct Hl as (Hcc & Ht & Hcur & Hf & Hpl).
      unfold AudioPlayer.is_continuous_playing, Py.dict_mem. rewrite Hcc.
      cbn [Py.dict_get Z.eqb Pos.eqb]. unfold AudioPlayer.set_continuous_volume, Py.dict_mem.
      rewrite Hcc, Ht. cbn [Py.dict_get Z.eqb Pos.eqb Py.dict_set
                            AudioPlayer.is_initialized AudioPlayer.continuous_channels
                            AudioPlayer.target_volumes AudioPlayer.current_volumes
                            AudioPlayer.volume_smooth_factor].
      rewrite Hi. repeat split; try assumption.
    + rewrite Hl. cbn. reflexivity.
  - unfold controller_invariant, volumes_in_unit_interval in *. rewrite Ea, Ed, Et, Ecv.
    destruct Hc as (? & ? & _). repeat split; try tauto; discriminate.
Qed.

Lemma update_mouse_state_operational (pressed : bool) (speed avg_speed : Q)
      (self : t) (m : Pygame.mixer) :
  operational self m ->
  operational (update_mouse_state pressed speed avg_speed self) m /\
  config (update_mouse_state pressed speed avg_speed self) = config self.
Proof.
  intros (Hs & Hl & Hc). unfold update_mouse_state.
  split; [|reflexivity]. split; [|split].
  - eapply set_up_same; [|exact Hs]. unfold same_materials. fields. repeat split.
  - exact Hl.
  - exact Hc.
Qed.
End SessionInvariant2.

Section SessionInvariant3.
Local Open Scope Q_scope.
Context `{SpikeEncoderImpl}.
Import HapticSystem Notions PlayerNotions SystemNotions.

(** On an index in range of an object that is set up, [change_material]
    returns [True] and selects the material. *)
Lemma change_material_operational (material_index : Z) (self : t) (m : Pygame.mixer) :
  operational self m ->
  (0 <= material_index < Z.of_nat (length (material_keys self)))%Z ->
  exists s' m' key props,
    change_material material_index self m = Py.Ok (true, s', m') /\
    operational s' m' /\ config s' = config self /\
    lookup (Z.to_nat material_index) (material_keys self) = Some key /\
    materials_get key (materials self) = Py.Ok props /\
    current_material_key s' = key /\ current_roughness s' = Config.r props /\
    same_controller self s' /\ material_keys s' = material_keys self /\
    materials s' = materials self.
Proof.
  intros (Hs & Hl & Hc) Hi. pose proof Hs as (Hmat & Hkeys & Hcached & Hsel).
  destruct (lookup_lt_is_Some_2 (material_keys self) (Z.to_nat material_index) ltac:(lia))
    as (key & Hk).
  assert (Hin : In key (material_keys self)).
  { apply list_elem_of_In. eapply list_elem_of_lookup_2. exact Hk. }
  destruct (Hcached key Hin) as ([[motion click] loop] & Hsounds).
  destruct (current_material_sounds_props _ _ _ _ _ Hsounds) as (props & Hp).
  destruct (change_material_selects material_index self m key props motion click loop
              Hi Hk Hp Hsounds)
    as (s' & E & Eap & Ecfg & Emat & Ekeys & Ecache & Esa & Ekey & Er & Emo & Ecl & Elo & Hsame).
  eexists s', _, key, props. split; [exact E|].
  split; [|split; [exact Ecfg|]; split; [exact Hk|]; split; [exact Hp|]; split; [exact Ekey|];
           split; [exact Er|]; split; [exact Hsame|]; split; [exact Ekeys | exact Emat]].
  split; [|split].
  - unfold set_up, sounds_cached, material_selected.
    rewrite Ecfg, Emat, Ekeys, Ecache, Ekey, Er, Emo, Ecl, Elo.
    split; [exact Hmat|]. split; [exact Hkeys|]. split; [exact Hcached|].
    split; [exists props; split; [exact Hp | reflexivity] | exact Hsounds].
  - destruct Hsame as (_ & _ & _ & Ecv & _).
    unfold loop_follows_controller in *. cbn zeta in *. rewrite Eap, Elo, Ecv.
    destruct (AudioPlayer.is_initialized (audio_player self)) eqn:Hinit.
    + destruct Hl as (Hcc & Ht & (v & Hcur & Hv) & Hf & Hpl).
      destruct (audio_player self) as [i cc tv cv f]. cbn in Hinit, Hcc, Ht, Hcur, Hf. subst.
      cbn.
      split; [reflexivity|]. split; [reflexivity|].
      split; [|split; [reflexivity|apply dict_get_set_eq]].
      eexists. split; [reflexivity|]. apply Hc.
    + rewrite Hl. cbn. reflexivity.
  - destruct Hsame as ((_ & Ea & Ed & _) & _ & Et & Ecv & _).
    unfold controller_invariant, volumes_in_unit_interval in *. rewrite Ea, Ed, Et, Ecv. exact Hc.
Qed.

Lemma perform_operational (c : Session.call) (st : t * Pygame.mixer) :
  unit_scales (config st.1) -> operational st.1 st.2 ->
  exists st', Session.perform c st = Py.Ok st' /\
    operational st'.1 st'.2 /\ config st'.1 = config st.1.
Proof.
  destruct st as [self m]. cbn [fst snd]. intros Hu Hop.
  destruct c as [ms av now|cm| |p sp av|i]; cbn [Session.perform].
  - pose proof (step_operational ms av now self m Hu Hop) as Hs.
    destruct (step ms av now self m) as [[out s'] m']. eexists. split; [reflexivity | exact Hs].
  - pose proof (mouse_press_operational cm self m Hop) as Hs.
    destruct (mouse_press cm self m) as [s' m']. eexists. split; [reflexivity | exact Hs].
  - eexists. split; [reflexivity|]. apply mouse_release_operational. exact Hop.
  - eexists. split; [reflexivity|]. apply update_mouse_state_operational. exact Hop.
  - destruct (Z_lt_le_dec i 0) as [Hneg|Hpos];
      [|destruct (Z_lt_le_dec i (Z.of_nat (length (material_keys self)))) as [Hin|Hout]].
    + rewrite change_material_rejects by (left; exact Hneg).
      eexists. split; [reflexivity|]. split; [exact Hop | reflexivity].
    + destruct (change_material_operational i self m Hop ltac:(lia))
        as (s' & m' & key & props & -> & Hop' & Ecfg & _).
      eexists. split; [reflexivity|]. split; [exact Hop' | exact Ecfg].
    + rewrite change_material_rejects by (right; exact Hout).
      eexists. split; [reflexivity|]. split; [exact Hop | reflexivity].
Qed.

Lemma run_operational (calls : list Session.call) (st : t * Pygame.mixer) :
  unit_scales (config st.1) -> operational st.1 st.2 ->
  exists st', Session.run calls st = Py.Ok st' /\
    operational st'.1 st'.2 /\ config st'.1 = config st.1.
Proof.
  revert st. induction calls as [|c calls IH]; intros st Hu Hop; cbn [Session.run].
  - exists st. split; [reflexivity|]. split; [exact Hop | reflexivity].
  - destruct (perform_operational c st Hu Hop) as (st1 & -> & Hop1 & Ecfg). cbn [Py.bind].
    destruct (IH st1 ltac:(rewrite Ecfg; exact Hu) Hop1) as (st' & E & Hop' & Ecfg').
    exists st'. split; [exact E|]. split; [exact Hop' | congruence].
Qed.
End SessionInvariant3.

Section Construction.
Local Open Scope Q_scope.
Local Open Scope string_scope.
Context `{Libm} `{SpikeEncoderImpl}.
Import HapticSystem Notions PlayerNotions SystemNotions.

Lemma materials_get_In (key : string) (materials : list (string * Config.material)) :
  In key (map fst materials) ->
  exists props, materials_get key materials = Py.Ok props /\ In (key, props) materials.
Proof.
  induction materials as [|[k props] materials IH]; cbn [map fst In materials_get]; [tauto|].
  intros Hin. destruct (String.eqb_spec key k) as [->|Hne].
  - exists props. split; [reflexivity | left; reflexivity].
  - destruct Hin as [E|Hin]; [congruence|].
    destruct (IH Hin) as (p & E & Hp). exists p. split; [exact E | right; exact Hp].
Qed.

Lemma insert_is_Some (k k' : string) (r : Pygame.ref) (cache : gmap string Pygame.ref) :
  is_Some (cache !! k') -> is_Some (<[k := r]> cache !! k').
Proof.
  intros Hs. destruct (decide (k = k')) as [->|Hne].
  - rewrite lookup_insert_eq. eexists. reflexivity.
  - rewrite lookup_insert_ne by exact Hne. exact Hs.
Qed.

Lemma create_all_cached (renderer : HapticRenderer.t) (snd_cfg : Config.sound)
      (materials : list (string * Config.material)) (st st' : creation_state) :
  create_all_material_sounds renderer snd_cfg materials st = Py.Ok st' ->
  (forall k, is_Some (st.1.1 !! k) -> is_Some (st'.1.1 !! k)) /\
  Forall (material_cached snd_cfg st'.1.1) materials /\
  Pygame.mx_playing st'.2 = Pygame.mx_playing st.2.
Proof.
  revert st. induction materials as [|[key props] materials IH]; intros st;
    cbn [create_all_material_sounds].
  - intros [= <-]. split; [auto|]. split; [constructor | reflexivity].
  - destruct (_create_material_sounds renderer snd_cfg st (key, props)) as [st1|] eqn:E1;
      cbn [Py.bind]; [|discriminate].
    intros E. destruct (IH st1 E) as (Hkeep & Hall & Hplay).
    destruct st as [[cache g] m].
    destruct (create_material_sounds_cached renderer snd_cfg cache g m key props st1 E1)
      as (b1 & b2 & b3 & Ec & Em).
    cbn zeta in Ec. cbn [fst snd] in *.
    split; [|split].
    + intros k Hk. apply Hkeep. rewrite Ec. do 3 apply insert_is_Some. exact Hk.
    + constructor; [|exact Hall]. unfold material_cached. cbn [fst snd].
      repeat split; apply Hkeep; rewrite Ec.
      * do 2 apply insert_is_Some. rewrite lookup_insert_eq. eexists; reflexivity.
      * apply insert_is_Some. rewrite lookup_insert_eq. eexists; reflexivity.
      * rewrite lookup_insert_eq. eexists; reflexivity.
    + rewrite Hplay, Em. reflexivity.
Qed.

Lemma cached_sounds (snd_cfg : Config.sound) (materials : list (string * Config.material))
      (cache : gmap string Pygame.ref) (key : string) :
  Forall (material_cached snd_cfg cache) materials -> In key (map fst materials) ->
  exists sounds, current_material_sounds snd_cfg materials key cache = Py.Ok sounds.
Proof.
  intros Hall Hin. destruct (materials_get_In key materials Hin) as (props & Eg & Hp).
  rewrite Forall_forall in Hall. apply list_elem_of_In in Hp.
  destruct (Hall _ Hp) as ((r1 & E1) & (r2 & E2) & (r3 & E3)). cbn [fst snd] in *.
  unfold current_material_sounds, cache_get. rewrite Eg. cbn [Py.bind].
  rewrite E1. cbn [Py.bind]. rewrite E2. cbn [Py.bind]. rewrite E3. cbn [Py.bind].
  eexists. reflexivity.
Qed.
End Construction.

Section Construction2.
Local Open Scope Q_scope.
Local Open Scope string_scope.
Context `{Libm} `{SpikeEncoderImpl}.
Import HapticSystem Notions PlayerNotions SystemNotions.

(** What the constructor has set up when it returns. *)
Lemma init_operational (config : Config.t) (mixer_ok : bool) (g g' : RandomState) (now : Q)
      (s : t) (m : Pygame.mixer) :
  __init__ config mixer_ok g now = Py.Ok (s, g', m) ->
  operational s m /\ HapticSystem.config s = config /\
  AudioPlayer.is_initialized (audio_player s) = mixer_ok /\
  head (material_keys s) = Some (current_material_key s).
Proof.
  unfold __init__. intros E.
  destruct (map fst (Config.materials config)) as [|key keys] eqn:Ekeys;
    cbn [Py.bind] in E; [discriminate E|].
  destruct (materials_get key (Config.materials config)) as [props|] eqn:Eprops;
    cbn [Py.bind] in E; [|discriminate E].
  destruct (HapticRenderer.create_sa_background_sound _ _ _ _ _ _) as [[sa m1]|] eqn:Esa;
    cbn [Py.bind] in E; [|discriminate E].
  destruct (create_all_material_sounds _ _ _ _) as [[[cache g2] m2]|] eqn:Eall;
    cbn [Py.bind] in E; [|discriminate E].
  destruct (current_material_sounds _ _ _ _) as [[[motion click] loop]|] eqn:Ecur;
    cbn [Py.bind] in E; [|discriminate E].
  destruct (AudioPlayer.start_continuous_sound loop 1 0 (AudioPlayer.__init__ mixer_ok) m2)
    as [[b ap] m3] eqn:Estart.
  injection E as <- _ <-.
  destruct (create_all_cached _ _ _ _ _ Eall) as (_ & Hall & _).
  cbn [fst snd] in Hall.
  split; [|split; [reflexivity|]]; [split; [|split]|].
  - unfold set_up, sounds_cached, material_selected. fields. rewrite Ekeys.
    split; [reflexivity|]. split; [reflexivity|]. split.
    + intros k Hk. apply cached_sounds; [exact Hall | rewrite Ekeys; exact Hk].
    + split; [exists props; split; [exact Eprops | reflexivity] | exact Ecur].
  - unfold loop_follows_controller. fields.
    unfold AudioPlayer.start_continuous_sound, AudioPlayer.__init__ in Estart.
    destruct mixer_ok; cbn in Estart; injection Estart as _ <- <-; cbn.
    + split; [reflexivity|]. split; [reflexivity|].
      split; [exists 0; repeat split; discriminate|]. split; [reflexivity|].
      apply dict_get_set_eq.
    + reflexivity.
  - unfold controller_invariant, volumes_in_unit_interval. fields.
    repeat split; discriminate.
  - fields. unfold AudioPlayer.start_continuous_sound, AudioPlayer.__init__ in Estart.
    split; [|reflexivity].
    destruct mixer_ok; cbn in Estart; injection Estart as _ <- _; reflexivity.
Qed.
End Construction2.

Section Construction3.
Local Open Scope Q_scope.
Local Open Scope string_scope.
Context `{Libm} `{SpikeEncoderImpl}.
Import HapticSystem Notions PlayerNotions SystemNotions.

Lemma material_or_plain_ok (props : Config.material) (hz ms amp fade_out_ms : Q)
      (g : RandomState) (m : Pygame.mixer) :
  0 <= ms -> material_valid ("", props) ->
  exists r,
    match Config.type props with
    | Some ty =>
        HapticRenderer.create_material_sound HapticRenderer.default ty hz ms amp fade_out_ms
          (Config.params props) g m
    | None =>
        let* rm := HapticRenderer.create_sound_object HapticRenderer.default hz ms amp
                     fade_out_ms m in
        Py.Ok (rm.1, g, rm.2)
    end = Py.Ok r.
Proof.
  intros Hms Hv. unfold material_valid in Hv. cbn [snd] in Hv.
  destruct (Config.type props) as [ty|].
  - rewrite create_material_sound_outcome.
    destruct (material_sound_buffer_length ty hz ms amp fade_out_ms (Config.params props) g
                Hms Hv) as (buf & g' & -> & _).
    cbn [Py.bind]. eexists. reflexivity.
  - unfold HapticRenderer.create_sound_object.
    destruct (create_sound_buffer_length hz ms amp fade_out_ms Hms) as (buf & -> & _).
    cbn [Py.bind]. eexists. reflexivity.
Qed.

Lemma create_material_sounds_ok (snd_cfg : Config.sound) (st : creation_state)
      (entry : string * Config.material) :
  0 <= Config.ra_motion_ms snd_cfg -> 0 <= Config.ra_click_ms snd_cfg ->
  material_valid entry ->
  exists st', _create_material_sounds HapticRenderer.default snd_cfg st entry = Py.Ok st'.
Proof.
  intros Hmo Hcl Hv. destruct entry as [key props]. destruct st as [[cache g] m].
  unfold _create_material_sounds.
  match goal with
  | |- context [Py.bind ?x _] =>
      lazymatch x with
      | match Config.type props with _ => _ end =>
          let Hx := fresh in
          assert (Hx : exists r, x = Py.Ok r) by (apply material_or_plain_ok; assumption);
          destruct Hx as ([[r1 g1] m1] & ->)
      end
  end.
  cbn [Py.bind].
  match goal with
  | |- context [HapticRenderer.create_ra_click_sound ?r ?hz ?ms ?amp ?f ?m] =>
      destruct (ra_click_length hz ms amp f m Hcl) as (buf & -> & _)
  end.
  cbn [Py.bind]. destruct (HapticRenderer.sound_of_buffer buf m1) as [r2 m2].
  match goal with
  | |- context [Py.bind ?x _] =>
      lazymatch x with
      | match Config.type props with _ => _ end =>
          let Hx := fresh in
          assert (Hx : exists r, x = Py.Ok r)
            by (apply material_or_plain_ok; [discriminate | assumption]);
          destruct Hx as ([[r3 g3] m3] & ->)
      end
  end.
  cbn [Py.bind]. eexists. reflexivity.
Qed.

Lemma create_all_ok (snd_cfg : Config.sound) (materials : list (string * Config.material))
      (st : creation_state) :
  0 <= Config.ra_motion_ms snd_cfg -> 0 <= Config.ra_click_ms snd_cfg ->
  Forall material_valid materials ->
  exists st',
    create_all_material_sounds HapticRenderer.default snd_cfg materials st = Py.Ok st'.
Proof.
  intros Hmo Hcl Hall. revert st. induction Hall as [|entry materials Hv Hall IH]; intros st;
    cbn [create_all_material_sounds].
  - eexists. reflexivity.
  - destruct (create_material_sounds_ok snd_cfg st entry Hmo Hcl Hv) as (st1 & ->).
    cbn [Py.bind]. apply IH.
Qed.

(** The constructor returns on every configuration it can accept. *)
Lemma init_returns (config : Config.t) (mixer_ok : bool) (g : RandomState) (now : Q) :
  constructible config ->
  exists s g' m, __init__ config mixer_ok g now = Py.Ok (s, g', m).
Proof.
  intros (Hne & Hsa & Hmo & Hcl & Hall). unfold __init__.
  destruct (Config.materials config) as [|[key props] materials] eqn:Emat; [congruence|].
  cbn [map fst Py.bind materials_get]. rewrite String.eqb_refl. cbn [Py.bind].
  destruct (sa_background_length (Config.sa_hz (Config.snd config))
              (Config.sa_ms (Config.snd config)) (Config.sa_amp (Config.snd config)) 20
              Pygame.mixer_empty Hsa) as (buf & -> & _).
  cbn [Py.bind]. destruct (HapticRenderer.sound_of_buffer buf Pygame.mixer_empty) as [sa m1].
  destruct (create_all_ok (Config.snd config) ((key, props) :: materials) (∅, g, m1)
              Hmo Hcl Hall) as ([[cache g2] m2] & Eall).
  rewrite Eall. cbn [Py.bind].
  destruct (create_all_cached _ _ _ _ _ Eall) as (_ & Hcached & _). cbn [fst snd] in Hcached.
  destruct (cached_sounds (Config.snd config) ((key, props) :: materials) cache key Hcached)
    as ([[motion click] loop] & ->); [left; reflexivity|].
  cbn [Py.bind].
  destruct (AudioPlayer.start_continuous_sound loop 1 0 (AudioPlayer.__init__ mixer_ok) m2)
    as [[b ap] m3].
  eexists _, _, _. reflexivity.
Qed.

Lemma shipped_constructible : constructible Config.get_haptic_config.
Proof.
  split; [discriminate|]. split; [discriminate|]. split; [discriminate|].
  split; [discriminate|].
  repeat (apply Forall_cons_2; [vm_compute; reflexivity|]). apply Forall_nil_2.
Qed.
End Construction3.

Section SpikeRate.
Local Open Scope Q_scope.
Context `{SpikeEncoderImpl}.
Import HapticSystem Notions PlayerNotions SystemNotions.

Lemma calculate_spike_rate_bounds (now : Q) (self : t) :
  spike_window_duration_sec self = 0.025 ->
  let spike_count :=
    Z.of_nat (length (filter (fun e => snd e = true)
                             (prune (now - 0.025) (ra_motion_spike_timestamps self)))) in
  40 * inject_Z spike_count <= (_calculate_spike_rate now self).1 /\
  (_calculate_spike_rate now self).1 <= 200 * inject_Z spike_count.
Proof.
  intros Hw. cbn zeta. unfold _calculate_spike_rate. fields. rewrite Hw.
  set (window := prune (now - 0.025) (ra_motion_spike_timestamps self)).
  set (c := inject_Z (Z.of_nat (length (filter (fun e => snd e = true) window)))).
  assert (Hc : 0 <= c).
  { unfold c. change 0 with (inject_Z 0). rewrite <- Zle_Qle. lia. }
  set (eff := match window with
              | (oldest_time, _) :: _ => Py.max (Py.min (now - oldest_time) 0.025) 0.005
              | [] => 0.025
              end).
  assert (He : 0.005 <= eff /\ eff <= 0.025).
  { unfold eff. destruct window as [|[oldest ?] ?]; [split; discriminate|].
    unfold Py.max, Py.min. float_cases; lra. }
  assert (Hpos : Py.ltb 0 eff = true) by (apply ltb_true; lra).
  rewrite Hpos. cbn [fst]. split.
  - apply Qle_shift_div_l; [lra | nra].
  - apply Qle_shift_div_r; [lra | nra].
Qed.

Lemma rate_of_count_zero : rate_of_count 0.
Proof. exists 0%Z. split; [lia|]. split; discriminate. Qed.

(** The spike rate after a controller tick. *)
Lemma update_ra_motion_volume_rate (fired : bool) (now : Q) (self : t) (m : Pygame.mixer) :
  spike_window_duration_sec self = 0.025 ->
  rate_of_count (current_spike_rate self) ->
  rate_of_count (current_spike_rate (_update_ra_motion_volume fired now self m).1).
Proof.
  intros Hw Hr.
  destruct (update_ra_motion_volume_controller fired now self m)
    as (_ & _ & _ & _ & -> & _).
  rewrite snap_assignments, retarget_assignments, refresh_rate_assignments.
  unfold smooth, record_spike. fields.
  destruct (_ <=? _)%Z; [|exact Hr].
  match goal with
  | |- rate_of_count (_calculate_spike_rate now ?s).1 =>
      pose proof (calculate_spike_rate_bounds now s Hw) as Hb; cbn zeta in Hb
  end.
  eexists. split; [|exact Hb]. lia.
Qed.
End SpikeRate.

Section SessionController.
Local Open Scope Q_scope.
Context `{SpikeEncoderImpl}.
Import HapticSystem Notions PlayerNotions SystemNotions.

(** [change_material] leaves the volume controller alone, whatever it
    returns. *)
Lemma change_material_controller (material_index : Z) (self s' : t) (m m' : Pygame.mixer)
      (changed : bool) :
  change_material material_index self m = Py.Ok (changed, s', m') ->
  same_controller self s'.
Proof.
  unfold change_material. intros E.
  destruct (_ && _).
  2:{ injection E as _ <- _. unfold same_controller, same_constants. repeat split. }
  destruct (lookup _ (material_keys self)) as [key|]; cbn [Py.bind] in E; [|discriminate E].
  fields in E.
  destruct (materials_get key (materials self)) as [props|]; cbn [Py.bind] in E;
    [|discriminate E].
  fields in E.
  destruct (if AudioPlayer.is_continuous_playing 1 (audio_player self)
            then AudioPlayer.stop_continuous_sound 1 (audio_player self) m
            else (audio_player self, m)) as [ap1 m1].
  unfold _update_current_material_sounds in E. fields in E.
  destruct (current_material_sounds _ _ _ _) as [[[motion click] loop]|]; cbn [Py.bind] in E;
    [|discriminate E].
  fields in E.
  destruct (AudioPlayer.start_continuous_sound loop 1 (current_volume self) ap1 m1)
    as [[b ap2] m2].
  injection E as _ <- _. unfold same_controller, same_constants. fields. repeat split.
Qed.

Lemma same_controller_sym_fields (s s' : t) :
  same_controller s s' ->
  spike_window_duration_sec s' = spike_window_duration_sec s /\
  current_spike_rate s' = current_spike_rate s /\
  config s' = config s.
Proof. intros ((E1 & _ & _ & E4 & _) & _ & _ & _ & E5 & _). auto. Qed.

(** Every call of a session keeps the window length and leaves a spike
    rate that comes from a spike count. *)
Lemma perform_rate (c : Session.call) (st st' : t * Pygame.mixer) :
  Session.perform c st = Py.Ok st' ->
  spike_window_duration_sec st.1 = 0.025 -> rate_of_count (current_spike_rate st.1) ->
  spike_window_duration_sec st'.1 = 0.025 /\ rate_of_count (current_spike_rate st'.1).
Proof.
  destruct st as [self m]. cbn [fst]. intros E Hw Hr.
  destruct c as [ms av now|cm| |p sp av|i]; cbn [Session.perform] in E.
  - destruct (after_step_is_update ms av now self m) as (fired & enc & m1 & Eu).
    destruct (step_fields ms av now self m) as ((_ & _ & _ & Ew & _) & _).
    unfold after_step in *.
    destruct (step ms av now self m) as [[out s1] m2]. injection E as <-. cbn [fst snd] in *.
    split; [congruence|]. rewrite Eu. apply update_ra_motion_volume_rate; assumption.
  - injection E as <-. unfold mouse_press. fields. split; assumption.
  - injection E as <-. cbn [fst]. unfold mouse_release.
    destruct (AudioPlayer.is_continuous_playing _ _); fields; split; assumption.
  - injection E as <-. cbn [fst]. unfold update_mouse_state. fields. split; assumption.
  - destruct (change_material i self m) as [[[b s1] m1]|] eqn:Ec; cbn [Py.bind] in E;
      [|discriminate E].
    injection E as <-. cbn [fst snd].
    destruct (same_controller_sym_fields _ _ (change_material_controller _ _ _ _ _ _ Ec))
      as (-> & -> & _).
    split; assumption.
Qed.

Lemma run_rate (calls : list Session.call) (st st' : t * Pygame.mixer) :
  Session.run calls st = Py.Ok st' ->
  spike_window_duration_sec st.1 = 0.025 -> rate_of_count (current_spike_rate st.1) ->
  spike_window_duration_sec st'.1 = 0.025 /\ rate_of_count (current_spike_rate st'.1).
Proof.
  revert st. induction calls as [|c calls IH]; intros st E Hw Hr; cbn [Session.run] in E.
  - injection E as <-. split; assumption.
  - destruct (Session.perform c st) as [st1|] eqn:E1; cbn [Py.bind] in E; [|discriminate E].
    destruct (perform_rate c st st1 E1 Hw Hr) as (Hw1 & Hr1).
    apply (IH st1); assumption.
Qed.
End SessionController.

Section Cleanup.
Local Open Scope Q_scope.
Context `{SpikeEncoderImpl}.
Import HapticSystem Notions PlayerNotions SystemNotions.

Lemma cleanup_fields (self : t) (m : Pygame.mixer) :
  loop_follows_controller self m ->
  let res := cleanup self m in
  audio_player res.1 = AudioPlayer.mk false [] [] [] 0.15 /\
  same_materials self res.1 /\ same_controller self res.1 /\
  (AudioPlayer.is_initialized (audio_player self) = true -> Pygame.mx_playing res.2 = []) /\
  (AudioPlayer.is_initialized (audio_player self) = false -> res.2 = m) /\
  Pygame.mx_sounds res.2 = Pygame.mx_sounds m.
Proof.
  unfold loop_follows_controller. cbn zeta. intros Hl. unfold cleanup.
  destruct (AudioPlayer.is_initialized (audio_player self)) eqn:Hi.
  - destruct Hl as (Hcc & Ht & (v & Hcur & _) & Hf & _).
    destruct (audio_player self) as [i cc tv cv f]. cbn in Hi, Hcc, Ht, Hcur, Hf. subst.
    cbn. unfold same_materials, same_controller, same_constants. fields.
    repeat split; discriminate.
  - rewrite Hl. cbn. unfold same_materials, same_controller, same_constants. fields.
    repeat split; discriminate.
Qed.

Lemma change_material_player (material_index : Z) (self s' : t) (m m' : Pygame.mixer)
      (changed : bool) :
  change_material material_index self m = Py.Ok (changed, s', m') ->
  audio_player self = AudioPlayer.mk false [] [] [] 0.15 ->
  audio_player s' = AudioPlayer.mk false [] [] [] 0.15 /\ m' = m.
Proof.
  unfold change_material. intros E Hoff.
  destruct (_ && _).
  2:{ injection E as _ <- <-. split; [exact Hoff | reflexivity]. }
  destruct (lookup _ (material_keys self)) as [key|]; cbn [Py.bind] in E; [|discriminate E].
  fields in E.
  destruct (materials_get key (materials self)) as [props|]; cbn [Py.bind] in E;
    [|discriminate E].
  fields in E. rewrite Hoff in E. cbn [AudioPlayer.is_continuous_playing Py.dict_mem
    Py.dict_get AudioPlayer.continuous_channels] in E.
  unfold _update_current_material_sounds in E. fields in E.
  destruct (current_material_sounds _ _ _ _) as [[[motion click] loop]|]; cbn [Py.bind] in E;
    [|discriminate E].
  fields in E. unfold AudioPlayer.start_continuous_sound in E.
  cbn [AudioPlayer.is_initialized negb] in E.
  injection E as _ <- <-. fields. split; reflexivity.
Qed.

(** With a player that is off, no call of a session reaches the mixer. *)
Lemma perform_off (c : Session.call) (st st' : t * Pygame.mixer) :
  Session.perform c st = Py.Ok st' ->
  audio_player st.1 = AudioPlayer.mk false [] [] [] 0.15 ->
  audio_player st'.1 = AudioPlayer.mk false [] [] [] 0.15 /\ st'.2 = st.2.
Proof.
  destruct st as [self m]. cbn [fst snd]. intros E Hoff.
  destruct c as [ms av now|cm| |p sp av|i]; cbn [Session.perform] in E.
  - destruct (step_player ms av now self m) as (m1 & _ & (_ & _ & H3) & Eu).
    destruct (step ms av now self m) as [[out s1] m2]. injection E as <-. cbn [fst snd] in *.
    rewrite Hoff in Eu, H3. cbn in Eu. injection Eu as -> ->.
    split; [reflexivity | apply H3; reflexivity].
  - destruct (mouse_press_player cm self m) as (_ & Hp & (_ & _ & H3)).
    destruct (mouse_press cm self m) as [s1 m1]. injection E as <-. cbn [fst snd] in *.
    rewrite Hp. split; [exact Hoff|]. apply H3. rewrite Hoff. reflexivity.
  - injection E as <-. cbn [fst snd].
    destruct (mouse_release_player self) as (_ & ->). rewrite Hoff. split; reflexivity.
  - injection E as <-. cbn [fst snd]. unfold update_mouse_state. fields.
    split; [exact Hoff | reflexivity].
  - destruct (change_material i self m) as [[[b s1] m1]|] eqn:Ec; cbn [Py.bind] in E;
      [|discriminate E].
    injection E as <-. cbn [fst snd]. eapply change_material_player; eassumption.
Qed.

Lemma run_off (calls : list Session.call) (st st' : t * Pygame.mixer) :
  Session.run calls st = Py.Ok st' ->
  audio_player st.1 = AudioPlayer.mk false [] [] [] 0.15 ->
  audio_player st'.1 = AudioPlayer.mk false [] [] [] 0.15 /\ st'.2 = st.2.
Proof.
  revert st. induction calls as [|c calls IH]; intros st E Hoff; cbn [Session.run] in E.
  - injection E as <-. split; [exact Hoff | reflexivity].
  - destruct (Session.perform c st) as [st1|] eqn:E1; cbn [Py.bind] in E; [|discriminate E].
    destruct (perform_off c st st1 E1 Hoff) as (Hoff1 & Em).
    destruct (IH st1 E Hoff1) as (Hoff' & Em'). split; [exact Hoff' | congruence].
Qed.
End Cleanup.

Section SetUp.
Local Open Scope Q_scope.
Context `{SpikeEncoderImpl}.
Import HapticSystem Notions PlayerNotions SystemNotions.

Lemma change_material_set_up (material_index : Z) (self : t) (m : Pygame.mixer) :
  set_up self ->
  (0 <= material_index < Z.of_nat (length (material_keys self)))%Z ->
  exists s' m' key props,
    change_material material_index self m = Py.Ok (true, s', m') /\
    set_up s' /\ config s' = config self /\
    lookup (Z.to_nat material_index) (material_keys self) = Some key /\
    materials_get key (materials self) = Py.Ok props /\
    current_material_key s' = key /\ current_roughness s' = Config.r props.
Proof.
  intros Hs Hi. pose proof Hs as (Hmat & Hkeys & Hcached & Hsel).
  destruct (lookup_lt_is_Some_2 (material_keys self) (Z.to_nat material_index) ltac:(lia))
    as (key & Hk).
  assert (Hin : In key (material_keys self)).
  { apply list_elem_of_In. eapply list_elem_of_lookup_2. exact Hk. }
  destruct (Hcached key Hin) as ([[motion click] loop] & Hsounds).
  destruct (current_material_sounds_props _ _ _ _ _ Hsounds) as (props & Hp).
  destruct (change_material_selects material_index self m key props motion click loop
              Hi Hk Hp Hsounds)
    as (s' & E & Eap & Ecfg & Emat & Ekeys & Ecache & Esa & Ekey & Er & Emo & Ecl & Elo & Hsame).
  eexists s', _, key, props. split; [exact E|].
  split; [|split; [exact Ecfg|]; split; [exact Hk|]; split; [exact Hp|];
           split; [exact Ekey | exact Er]].
  unfold set_up, sounds_cached, material_selected.
  rewrite Ecfg, Emat, Ekeys, Ecache, Ekey, Er, Emo, Ecl, Elo.
  split; [exact Hmat|]. split; [exact Hkeys|]. split; [exact Hcached|].
  split; [exists props; split; [exact Hp | reflexivity] | exact Hsounds].
Qed.

Lemma perform_set_up (c : Session.call) (st : t * Pygame.mixer) :
  set_up st.1 ->
  exists st', Session.perform c st = Py.Ok st' /\ set_up st'.1 /\ config st'.1 = config st.1.
Proof.
  destruct st as [self m]. cbn [fst snd]. intros Hs.
  destruct c as [ms av now|cm| |p sp av|i]; cbn [Session.perform].
  - destruct (step_player ms av now self m) as (m1 & Hm & _).
    destruct (step ms av now self m) as [[out s'] m']. eexists. split; [reflexivity|].
    cbn [fst snd] in *. split; [eapply set_up_same; eassumption | apply Hm].
  - destruct (mouse_press_player cm self m) as (Hm & _).
    destruct (mouse_press cm self m) as [s' m']. eexists. split; [reflexivity|].
    cbn [fst snd] in *. split; [eapply set_up_same; eassumption | apply Hm].
  - destruct (mouse_release_player self) as (Hm & _).
    eexists. split; [reflexivity|].
    cbn [fst snd] in *. split; [eapply set_up_same; eassumption | apply Hm].
  - eexists. split; [reflexivity|]. cbn [fst]. unfold update_mouse_state.
    split; [|reflexivity]. eapply set_up_same; [|exact Hs].
    unfold same_materials. fields. repeat split.
  - destruct (Z_lt_le_dec i 0) as [Hneg|Hpos];
      [|destruct (Z_lt_le_dec i (Z.of_nat (length (material_keys self)))) as [Hin|Hout]].
    + rewrite change_material_rejects by (left; exact Hneg).
      eexists. split; [reflexivity|]. split; [exact Hs | reflexivity].
    + destruct (change_material_set_up i self m Hs ltac:(lia))
        as (s' & m' & key & props & -> & Hs' & Ecfg & _).
      eexists. split; [reflexivity|]. split; [exact Hs' | exact Ecfg].
    + rewrite change_material_rejects by (right; exact Hout).
      eexists. split; [reflexivity|]. split; [exact Hs | reflexivity].
Qed.

Lemma run_set_up (calls : list Session.call) (st : t * Pygame.mixer) :
  set_up st.1 ->
  exists st', Session.run calls st = Py.Ok st' /\ set_up st'.1 /\ config st'.1 = config st.1.
Proof.
  revert st. induction calls as [|c calls IH]; intros st Hs; cbn [Session.run].
  - exists st. split; [reflexivity|]. split; [exact Hs | reflexivity].
  - destruct (perform_set_up c st Hs) as (st1 & -> & Hs1 & Ecfg). cbn [Py.bind].
    destruct (IH st1 Hs1) as (st' & E & Hs' & Ecfg').
    exists st'. split; [exact E|]. split; [exact Hs' | congruence].
Qed.
End SetUp.

Section SessionPlayer.
Local Open Scope Q_scope.
Context `{SpikeEncoderImpl}.
Import HapticSystem Notions PlayerNotions SystemNotions.

Lemma player_call (c : PlayerTrace.call) (mixer_ok : bool) (p : AudioPlayer.t)
      (m : Pygame.mixer) :
  c <> PlayerTrace.Quit ->
  player_invariant p /\ AudioPlayer.is_initialized p = mixer_ok ->
  player_invariant (PlayerTrace.perform c (p, m)).1 /\
  AudioPlayer.is_initialized (PlayerTrace.perform c (p, m)).1 = mixer_ok.
Proof.
  intros Hq [Hinv Hi].
  split; [apply (perform_invariant_player c (p, m)); exact Hinv|].
  pose proof Hinv as (Hc & _).
  destruct c as [r ch v|r ch v|ch v| |ch|]; cbn [PlayerTrace.perform fst snd].
  - exact Hi.
  - destruct (start_fields r ch v p m) as (Ei & _).
    destruct (AudioPlayer.start_continuous_sound r ch v p m) as [[b s'] m']. cbn [fst snd] in *.
    congruence.
  - unfold AudioPlayer.set_continuous_volume.
    destruct (Py.dict_mem ch (AudioPlayer.continuous_channels p)); exact Hi.
  - destruct (update_volumes_fields p m Hc) as (_ & Ei & _). congruence.
  - destruct (stop_fields ch p m Hc) as (Ei & _). congruence.
  - congruence.
Qed.

Lemma change_material_live (material_index : Z) (self s' : t) (m m' : Pygame.mixer)
      (changed : bool) (mixer_ok : bool) :
  change_material material_index self m = Py.Ok (changed, s', m') ->
  player_live mixer_ok self -> player_live mixer_ok s'.
Proof.
  unfold change_material, player_live. intros E Hinv.
  destruct (_ && _).
  2:{ injection E as _ <- _. exact Hinv. }
  destruct (lookup _ (material_keys self)) as [key|]; cbn [Py.bind] in E; [|discriminate E].
  fields in E.
  destruct (materials_get key (materials self)) as [props|]; cbn [Py.bind] in E;
    [|discriminate E].
  fields in E.
  assert (H1 : let stopped :=
                 if AudioPlayer.is_continuous_playing 1 (audio_player self)
                 then AudioPlayer.stop_continuous_sound 1 (audio_player self) m
                 else (audio_player self, m) in
               player_invariant stopped.1 /\ AudioPlayer.is_initialized stopped.1 = mixer_ok).
  { cbn zeta. destruct (AudioPlayer.is_continuous_playing 1 (audio_player self)); [|exact Hinv].
    apply (player_call (PlayerTrace.StopContinuousSound 1)); [discriminate | exact Hinv]. }
  cbn zeta in H1.
  destruct (if AudioPlayer.is_continuous_playing 1 (audio_player self)
            then AudioPlayer.stop_continuous_sound 1 (audio_player self) m
            else (audio_player self, m)) as [ap1 m1].
  cbn [fst] in H1.
  unfold _update_current_material_sounds in E. fields in E.
  destruct (current_material_sounds _ _ _ _) as [[[motion click] loop]|]; cbn [Py.bind] in E;
    [|discriminate E].
  fields in E.
  pose proof (player_call (PlayerTrace.StartContinuousSound loop 1 (current_volume self))
                mixer_ok ap1 m1 ltac:(discriminate) H1) as H2.
  cbn [PlayerTrace.perform] in H2.
  destruct (AudioPlayer.start_continuous_sound loop 1 (current_volume self) ap1 m1)
    as [[b ap2] m2].
  injection E as _ <- _. fields. exact H2.
Qed.

Lemma perform_live (c : Session.call) (st st' : t * Pygame.mixer) (mixer_ok : bool) :
  Session.perform c st = Py.Ok st' -> player_live mixer_ok st.1 -> player_live mixer_ok st'.1.
Proof.
  destruct st as [self m]. cbn [fst]. intros E Hinv.
  destruct c as [ms av now|cm| |p sp av|i]; cbn [Session.perform] in E.
  - destruct (step_player ms av now self m) as (m1 & _ & _ & Eu).
    destruct (step ms av now self m) as [[out s1] m2]. injection E as <-. cbn [fst snd] in *.
    assert (Hp : let pushed :=
                   if AudioPlayer.is_continuous_playing 1 (audio_player self)
                   then AudioPlayer.set_continuous_volume 1 (current_volume s1)
                          (audio_player self)
                   else audio_player self in
                 player_invariant pushed /\ AudioPlayer.is_initialized pushed = mixer_ok).
    { cbn zeta. destruct (AudioPlayer.is_continuous_playing 1 (audio_player self));
        [|exact Hinv].
      apply (player_call (PlayerTrace.SetContinuousVolume 1 (current_volume s1)) mixer_ok
               (audio_player self) m); [discriminate | exact Hinv]. }
    cbn zeta in Hp.
    pose proof (player_call PlayerTrace.UpdateVolumes mixer_ok _ m1 ltac:(discriminate) Hp)
      as Hu.
    cbn [PlayerTrace.perform] in Hu. rewrite <- Eu in Hu. exact Hu.
  - destruct (mouse_press_player cm self m) as (_ & Hp & _).
    destruct (mouse_press cm self m) as [s1 m1]. injection E as <-. cbn [fst snd] in *.
    unfold player_live. rewrite Hp. exact Hinv.
  - injection E as <-. cbn [fst].
    destruct (mouse_release_player self) as (_ & Hp). unfold player_live. rewrite Hp.
    destruct (AudioPlayer.is_continuous_playing 1 (audio_player self)); [|exact Hinv].
    apply (player_call (PlayerTrace.SetContinuousVolume 1 0) mixer_ok (audio_player self) m);
      [discriminate | exact Hinv].
  - injection E as <-. cbn [fst]. unfold update_mouse_state, player_live. fields. exact Hinv.
  - destruct (change_material i self m) as [[[b s1] m1]|] eqn:Ec; cbn [Py.bind] in E;
      [|discriminate E].
    injection E as <-. cbn [fst snd]. eapply change_material_live; eassumption.
Qed.

Lemma run_live (calls : list Session.call) (st st' : t * Pygame.mixer) (mixer_ok : bool) :
  Session.run calls st = Py.Ok st' -> player_live mixer_ok st.1 -> player_live mixer_ok st'.1.
Proof.
  revert st. induction calls as [|c calls IH]; intros st E Hinv; cbn [Session.run] in E.
  - injection E as <-. exact Hinv.
  - destruct (Session.perform c st) as [st1|] eqn:E1; cbn [Py.bind] in E; [|discriminate E].
    apply (IH st1 E). eapply perform_live; eassumption.
Qed.

Lemma loop_follows_invariant (s : t) (m : Pygame.mixer) :
  loop_follows_controller s m -> player_invariant (audio_player s).
Proof.
  unfold loop_follows_controller. cbn zeta.
  destruct (AudioPlayer.is_initialized (audio_player s)) eqn:Hi.
  - intros (Hcc & Ht & (v & Hcur & _) & Hf & _).
    split; [|split; [exact Hf | congruence]].
    unfold consistent. rewrite Hcc, Ht, Hcur. cbn.
    split; [|split; reflexivity].
    apply List.NoDup_cons; [intros [] | apply List.NoDup_nil].
  - intros ->. apply init_invariant.
Qed.

(** [cleanup] on a player that satisfies its invariant. *)
Lemma cleanup_player (self : t) (m : Pygame.mixer) :
  player_invariant (audio_player self) ->
  let res := cleanup self m in
  audio_player res.1 = AudioPlayer.mk false [] [] [] 0.15 /\
  same_materials self res.1 /\ same_controller self res.1 /\
  (AudioPlayer.is_initialized (audio_player self) = true -> Pygame.mx_playing res.2 = []) /\
  (AudioPlayer.is_initialized (audio_player self) = false -> res.2 = m) /\
  Pygame.mx_sounds res.2 = Pygame.mx_sounds m.
Proof.
  intros Hinv. cbn zeta. unfold cleanup.
  destruct (AudioPlayer.is_initialized (audio_player self)) eqn:Hi.
  - pose proof Hinv as (Hc & Hf & _).
    destruct (stop_all_fields (audio_player self) m Hc) as (m1 & -> & Hs).
    rewrite Hi, Hf. cbn. unfold same_materials, same_controller, same_constants. fields.
    rewrite Hs. repeat split; discriminate.
  - rewrite (invariant_off _ Hinv Hi). cbn.
    unfold same_materials, same_controller, same_constants. fields.
    repeat split; discriminate.
Qed.

Lemma fresh_rate (s : t) : freshly_constructed s -> current_spike_rate s = 0.
Proof.
  intros (? & ? & ? & ? & ? & ? & ? & ? & ? & ? & ? & ? & ? & ? & ->). reflexivity.
Qed.
End SessionPlayer.

Section Restart.
Local Open Scope Q_scope.
Context `{SpikeEncoderImpl}.
Import HapticSystem Notions PlayerNotions SystemNotions.

(** When [change_material] returns [True] on an initialised player, the
    looping sound it selected plays on channel 1 and the player keeps the
    volume of the controller for it. *)
Lemma change_material_restarts (material_index : Z) (self s' : t) (m m' : Pygame.mixer) :
  change_material material_index self m = Py.Ok (true, s', m') ->
  player_live true self ->
  Py.dict_get 1 (Pygame.mx_playing m') = Some (ra_motion_loop_sound s', (-1)%Z) /\
  Py.dict_get 1 (AudioPlayer.continuous_channels (audio_player s'))
  = Some (ra_motion_loop_sound s') /\
  Py.dict_get 1 (AudioPlayer.target_volumes (audio_player s')) = Some (current_volume self) /\
  Py.dict_get 1 (AudioPlayer.current_volumes (audio_player s')) = Some (current_volume self).
Proof.
  unfold change_material. intros E Hinv.
  destruct (_ && _); [|discriminate E].
  destruct (lookup _ (material_keys self)) as [key|]; cbn [Py.bind] in E; [|discriminate E].
  fields in E.
  destruct (materials_get key (materials self)) as [props|]; cbn [Py.bind] in E;
    [|discriminate E].
  fields in E.
  assert (H1 : let stopped :=
                 if AudioPlayer.is_continuous_playing 1 (audio_player self)
                 then AudioPlayer.stop_continuous_sound 1 (audio_player self) m
                 else (audio_player self, m) in
               player_invariant stopped.1 /\ AudioPlayer.is_initialized stopped.1 = true).
  { cbn zeta. destruct (AudioPlayer.is_continuous_playing 1 (audio_player self)); [|exact Hinv].
    apply (player_call (PlayerTrace.StopContinuousSound 1)); [discriminate | exact Hinv]. }
  cbn zeta in H1.
  destruct (if AudioPlayer.is_continuous_playing 1 (audio_player self)
            then AudioPlayer.stop_continuous_sound 1 (audio_player self) m
            else (audio_player self, m)) as [ap1 m1].
  cbn [fst] in H1. destruct H1 as (_ & Hi).
  unfold _update_current_material_sounds in E. fields in E.
  destruct (current_material_sounds _ _ _ _) as [[[motion click] loop]|]; cbn [Py.bind] in E;
    [|discriminate E].
  fields in E. unfold AudioPlayer.start_continuous_sound in E. rewrite Hi in E.
  cbn [negb] in E. injection E as <- <-. fields.
  unfold Pygame.channel_play.
  cbn [Pygame.mx_playing AudioPlayer.continuous_channels AudioPlayer.target_volumes
       AudioPlayer.current_volumes].
  repeat split; apply dict_get_set_eq.
Qed.

Lemma rate_of_count_gap (rate : Q) : rate_of_count rate -> 0 <= rate /\ (0 < rate -> 40 <= rate).
Proof.
  intros (spike_count & Hc & Hlo & Hhi).
  assert (H0 : inject_Z 0 <= inject_Z spike_count) by (rewrite <- Zle_Qle; exact Hc).
  change (inject_Z 0) with 0 in H0.
  split; [lra|]. intros Hpos.
  assert (H1 : inject_Z 1 <= inject_Z spike_count).
  { rewrite <- Zle_Qle. destruct (Z.eq_dec spike_count 0%Z) as [->|Hne]; [|lia].
    change (inject_Z 0) with 0 in Hhi. lra. }
  change (inject_Z 1) with 1 in H1. lra.
Qed.
End Restart.

Section SessionReturns.
Local Open Scope Q_scope.
Import HapticSystem Notions PlayerNotions SystemNotions.

(** Every session on a constructed coordinator returns. *)
Lemma session_returns `{Libm} `{SpikeEncoderImpl}
      (config : Config.t) (mixer_ok : bool) (g g' : RandomState) (now : Q)
      (s0 : t) (m0 : Pygame.mixer) (calls : list Session.call) :
  __init__ config mixer_ok g now = Py.Ok (s0, g', m0) ->
  exists s m, Session.run calls (s0, m0) = Py.Ok (s, m).
Proof.
  intros E.
  destruct (init_operational config mixer_ok g g' now s0 m0 E) as ((Hs & _) & _).
  destruct (run_set_up calls (s0, m0) Hs) as ([s m] & Er & _).
  exists s, m. exact Er.
Qed.
End SessionReturns.

Section SystemTheorems.
Local Open Scope Q_scope.
Local Open Scope string_scope.
Import HapticSystem Notions PlayerNotions SystemNotions.



(** X9.  Every call of a session on a constructed coordinator returns: no
    [step], [mouse_press], [mouse_release], [update_mouse_state] or
    [change_material] raises, whatever its arguments.  Between the calls
    the materials are those of the configuration, the selected material is
    one of them, the roughness is its roughness, and the three selected
    sounds are its sounds in the cache. *)
Theorem session_keeps_material_selected `{Libm} `{SpikeEncoderImpl}
        (config : Config.t) (mixer_ok : bool) (g g' : RandomState) (now : Q)
        (s0 : t) (m0 : Pygame.mixer) (calls : list Session.call) :
  __init__ config mixer_ok g now = Py.Ok (s0, g', m0) ->
  exists s m,
    Session.run calls (s0, m0) = Py.Ok (s, m) /\
    HapticSystem.config s = config /\
    materials s = Config.materials config /\
    material_keys s = map fst (Config.materials config) /\
    material_selected s.
Proof.
  intros E.
  destruct (init_operational config mixer_ok g g' now s0 m0 E) as ((Hs & _) & Ecfg & _).
  destruct (run_set_up calls (s0, m0) Hs) as ([s m] & Er & (Emat & Ekeys & _ & Hsel) & Ec).
  cbn [fst] in *. exists s, m. split; [exact Er|].
  split; [congruence|]. split; [congruence|]. split; [congruence | exact Hsel].
Qed.

Lemma session_keeps_material_selected_shipped :
  exists s0 g' m0 s m,
    @__init__ Fixture.silent SpecEncoder.impl Config.get_haptic_config true (fun _ => 0) 0
    = Py.Ok (s0, g', m0) /\
    Session.run [Session.MousePress None; Session.Step 300 250 0.001;
                 Session.ChangeMaterial 2; Session.Step 500 400 0.002;
                 Session.MouseRelease] (s0, m0) = Py.Ok (s, m) /\
    material_selected s.
Proof.
  destruct (@init_returns Fixture.silent SpecEncoder.impl Config.get_haptic_config true
              (fun _ => 0) 0 shipped_constructible) as (s0 & g' & m0 & E).
  destruct (@session_keeps_material_selected Fixture.silent SpecEncoder.impl
              Config.get_haptic_config true (fun _ => 0) g' 0 s0 m0
              [Session.MousePress None; Session.Step 300 250 0.001;
               Session.ChangeMaterial 2; Session.Step 500 400 0.002;
               Session.MouseRelease] E) as (s & m & Er & _ & _ & _ & Hsel).
  exists s0, g', m0, s, m. split; [exact E|]. split; [exact Er | exact Hsel].
Defined.
(** X10.  After any session on a constructed coordinator, [change_material]
    on the index of a material of the configuration returns [True]: the
    material of that index is selected with its roughness and its cached
    sounds, the volume controller is left as it was, and when the mixer was
    opened the looping sound of the new material plays on channel 1 and
    the player restarts at the current volume of the controller, which is
    both its target volume and its current volume for the channel. *)
Theorem change_material_selects_and_restarts `{Libm} `{SpikeEncoderImpl}
        (config : Config.t) (mixer_ok : bool) (g g' : RandomState) (now : Q)
        (s0 s : t) (m0 m : Pygame.mixer) (calls : list Session.call)
        (material_index : Z) (key : string) (props : Config.material) :
  __init__ config mixer_ok g now = Py.Ok (s0, g', m0) ->
  Session.run calls (s0, m0) = Py.Ok (s, m) ->
  (0 <= material_index)%Z ->
  lookup (Z.to_nat material_index) (Config.materials config) = Some (key, props) ->
  exists s' m',
    change_material material_index s m = Py.Ok (true, s', m') /\
    current_material_key s' = key /\
    material_selected s' /\
    same_controller s s' /\
    (mixer_ok = true ->
     Py.dict_get 1 (Pygame.mx_playing m') = Some (ra_motion_loop_sound s', (-1)%Z) /\
     Py.dict_get 1 (AudioPlayer.target_volumes (audio_player s')) = Some (current_volume s) /\
     Py.dict_get 1 (AudioPlayer.current_volumes (audio_player s')) = Some (current_volume s)).
Proof.
  intros E Er Hi Hk.
  destruct (init_operational config mixer_ok g g' now s0 m0 E) as ((Hs0 & Hl0 & _) & Ecfg & Ei & _).
  destruct (run_set_up calls (s0, m0) Hs0) as (st & Er' & Hs & Ec).
  rewrite Er in Er'. injection Er' as <-. cbn [fst] in Hs, Ec.
  assert (Hlive : player_live mixer_ok s).
  { apply (run_live calls (s0, m0) (s, m) mixer_ok Er).
    split; [eapply loop_follows_invariant; exact Hl0 | exact Ei]. }
  pose proof Hs as (Emat & Ekeys & _).
  assert (Hk' : lookup (Z.to_nat material_index) (material_keys s) = Some key).
  { rewrite Ekeys, Emat, Ec, Ecfg, list_lookup_fmap, Hk. reflexivity. }
  assert (Hin : (0 <= material_index < Z.of_nat (length (material_keys s)))%Z).
  { apply lookup_lt_Some in Hk'. lia. }
  destruct (change_material_set_up material_index s m Hs Hin)
    as (s' & m' & key' & props' & Ecm & Hs' & _ & Hk'' & _ & Ekey & _).
  exists s', m'. split; [exact Ecm|]. split; [congruence|].
  split; [apply Hs'|]. split; [eapply change_material_controller; exact Ecm|].
  intros ->.
  destruct (change_material_restarts material_index s s' m m' Ecm Hlive) as (F1 & _ & F3 & F4).
  split; [exact F1|]. split; [exact F3 | exact F4].
Qed.

Lemma change_material_selects_and_restarts_wood :
  exists s0 g' m0 s' m',
    @__init__ Fixture.silent SpecEncoder.impl Config.get_haptic_config true (fun _ => 0) 0
    = Py.Ok (s0, g', m0) /\
    change_material 2 s0 m0 = Py.Ok (true, s', m') /\
    current_material_key s' = "Wood" /\
    Py.dict_get 1 (Pygame.mx_playing m') = Some (ra_motion_loop_sound s', (-1)%Z).
Proof.
  destruct (@init_returns Fixture.silent SpecEncoder.impl Config.get_haptic_config true
              (fun _ => 0) 0 shipped_constructible) as (s0 & g' & m0 & E).
  destruct (@change_material_selects_and_restarts Fixture.silent SpecEncoder.impl
              Config.get_haptic_config true (fun _ => 0) g' 0 s0 s0 m0 m0 [] 2 "Wood"
              (Config.mkMaterial 1.8 0.8 (Some "wood") {[ "warmth" := 2.5 ]}) E)
    as (s' & m' & Ecm & Ekey & _ & _ & Hon).
  - reflexivity.
  - lia.
  - reflexivity.
  - exists s0, g', m0, s', m'. split; [exact E|]. split; [exact Ecm|]. split; [exact Ekey|].
    destruct (Hon eq_refl) as (F1 & _). exact F1.
Defined.

(** X11.  With volume scales in [0, 1] and an opened mixer, between any two
    calls of a session channel 1 loops the looping sound of the selected
    material and is the only continuous channel of the player; the target
    volume that the player keeps for it is the current volume of the
    controller, and the volume the player has reached and both volumes of
    the controller lie in [0, 1]. *)
Theorem loop_follows_volume_controller `{Libm} `{SpikeEncoderImpl}
        (config : Config.t) (g g' : RandomState) (now : Q)
        (s0 s : t) (m0 m : Pygame.mixer) (calls : list Session.call) :
  __init__ config true g now = Py.Ok (s0, g', m0) ->
  unit_scales config ->
  Session.run calls (s0, m0) = Py.Ok (s, m) ->
  AudioPlayer.continuous_channels (audio_player s) = [(1%Z, ra_motion_loop_sound s)] /\
  Py.dict_get 1 (Pygame.mx_playing m) = Some (ra_motion_loop_sound s, (-1)%Z) /\
  AudioPlayer.target_volumes (audio_player s) = [(1%Z, current_volume s)] /\
  (exists v, AudioPlayer.current_volumes (audio_player s) = [(1%Z, v)] /\ 0 <= v /\ v <= 1) /\
  volumes_in_unit_interval s.
Proof.
  intros E Hu Er.
  destruct (init_operational config true g g' now s0 m0 E) as (Hop0 & Ecfg & Ei & _).
  destruct (run_operational calls (s0, m0) ltac:(cbn [fst]; rewrite Ecfg; exact Hu) Hop0)
    as (st & Er' & (_ & Hl & Hc) & _).
  rewrite Er in Er'. injection Er' as <-. cbn [fst snd] in Hl, Hc.
  assert (Hlive : player_live true s).
  { apply (run_live calls (s0, m0) (s, m) true Er).
    split; [eapply loop_follows_invariant; apply Hop0 | exact Ei]. }
  destruct Hlive as (_ & Hi). unfold loop_follows_controller in Hl. cbn zeta in Hl.
  rewrite Hi in Hl. destruct Hl as (Hcc & Ht & Hv & _ & Hp).
  split; [exact Hcc|]. split; [exact Hp|]. split; [exact Ht|]. split; [exact Hv | apply Hc].
Qed.

Lemma loop_follows_volume_controller_shipped :
  exists s0 g' m0 s m,
    @__init__ Fixture.silent SpecEncoder.impl Config.get_haptic_config true (fun _ => 0) 0
    = Py.Ok (s0, g', m0) /\
    Session.run [Session.MousePress None; Session.Step 300 250 0.001;
                 Session.Step 500 400 0.002] (s0, m0) = Py.Ok (s, m) /\
    AudioPlayer.target_volumes (audio_player s) = [(1%Z, current_volume s)].
Proof.
  destruct (@init_returns Fixture.silent SpecEncoder.impl Config.get_haptic_config true
              (fun _ => 0) 0 shipped_constructible) as (s0 & g' & m0 & E).
  destruct (@session_returns Fixture.silent SpecEncoder.impl
              Config.get_haptic_config true (fun _ => 0) g' 0 s0 m0
              [Session.MousePress None; Session.Step 300 250 0.001;
               Session.Step 500 400 0.002] E) as (s & m & Er).
  exists s0, g', m0, s, m. split; [exact E|]. split; [exact Er|].
  destruct (@loop_follows_volume_controller Fixture.silent SpecEncoder.impl
              Config.get_haptic_config (fun _ => 0) g' 0 s0 s m0 m
              [Session.MousePress None; Session.Step 300 250 0.001;
               Session.Step 500 400 0.002] E) as (_ & _ & Ht & _).
  - unfold unit_scales. cbn. repeat split; discriminate.
  - exact Er.
  - exact Ht.
Defined.

(** X12.  After any session on a constructed coordinator the stored spike
    rate lies between 40 and 200 times a spike count: it is never negative
    and never between 0 and 40 Hz.  And the rate computed at any time lies
    between 40 and 200 times the number of spikes left in the window. *)
Theorem spike_rate_is_zero_or_at_least_40 `{Libm} `{SpikeEncoderImpl}
        (config : Config.t) (mixer_ok : bool) (g g' : RandomState) (now : Q)
        (s0 s : t) (m0 m : Pygame.mixer) (calls : list Session.call) :
  __init__ config mixer_ok g now = Py.Ok (s0, g', m0) ->
  Session.run calls (s0, m0) = Py.Ok (s, m) ->
  rate_of_count (current_spike_rate s) /\
  0 <= current_spike_rate s /\
  (0 < current_spike_rate s -> 40 <= current_spike_rate s) /\
  (forall current_time,
     let spike_count :=
       Z.of_nat (length (filter (fun e => snd e = true)
                                (prune (current_time - 0.025)
                                       (ra_motion_spike_timestamps s)))) in
     40 * inject_Z spike_count <= (_calculate_spike_rate current_time s).1 /\
     (_calculate_spike_rate current_time s).1 <= 200 * inject_Z spike_count).
Proof.
  intros E Er.
  destruct (init_is_fresh config mixer_ok g g' now s0 m0 E) as (Hf & _).
  destruct (fresh_controller s0 Hf) as (_ & _ & Ew & _).
  destruct (run_rate calls (s0, m0) (s, m) Er Ew) as (Hw & Hr).
  { cbn [fst]. rewrite (fresh_rate s0 Hf). apply rate_of_count_zero. }
  cbn [fst] in Hw, Hr. split; [exact Hr|].
  destruct (rate_of_count_gap _ Hr) as (Hnn & H40).
  split; [exact Hnn|]. split; [exact H40|].
  intros current_time. apply calculate_spike_rate_bounds. exact Hw.
Qed.

Lemma spike_rate_is_zero_or_at_least_40_shipped :
  exists s0 g' m0 s m,
    @__init__ Fixture.silent SpecEncoder.impl Config.get_haptic_config true (fun _ => 0) 0
    = Py.Ok (s0, g', m0) /\
    Session.run [Session.MousePress None; Session.Step 300 250 0.001;
                 Session.Step 500 400 0.002] (s0, m0) = Py.Ok (s, m) /\
    (0 < current_spike_rate s -> 40 <= current_spike_rate s).
Proof.
  destruct (@init_returns Fixture.silent SpecEncoder.impl Config.get_haptic_config true
              (fun _ => 0) 0 shipped_constructible) as (s0 & g' & m0 & E).
  destruct (@session_returns Fixture.silent SpecEncoder.impl
              Config.get_haptic_config true (fun _ => 0) g' 0 s0 m0
              [Session.MousePress None; Session.Step 300 250 0.001;
               Session.Step 500 400 0.002] E) as (s & m & Er).
  exists s0, g', m0, s, m. split; [exact E|]. split; [exact Er|].
  apply (@spike_rate_is_zero_or_at_least_40 Fixture.silent SpecEncoder.impl
           Config.get_haptic_config true (fun _ => 0) g' 0 s0 s m0 m
           [Session.MousePress None; Session.Step 300 250 0.001;
            Session.Step 500 400 0.002] E Er).
Defined.

(** X13.  [cleanup] after any session on a constructed coordinator leaves a
    player that is not initialised and keeps no channel and no volume; if
    the mixer had been opened nothing plays any more, and otherwise the
    mixer is untouched; the sounds and the volume controller are as they
    were.  Every later call of a session still returns, and leaves the
    mixer as [cleanup] left it. *)
Theorem cleanup_leaves_player_off `{Libm} `{SpikeEncoderImpl}
        (config : Config.t) (mixer_ok : bool) (g g' : RandomState) (now : Q)
        (s0 s : t) (m0 m : Pygame.mixer) (calls later : list Session.call) :
  __init__ config mixer_ok g now = Py.Ok (s0, g', m0) ->
  Session.run calls (s0, m0) = Py.Ok (s, m) ->
  let res := cleanup s m in
  audio_player res.1 = AudioPlayer.mk false [] [] [] 0.15 /\
  (mixer_ok = true -> Pygame.mx_playing res.2 = []) /\
  (mixer_ok = false -> res.2 = m) /\
  Pygame.mx_sounds res.2 = Pygame.mx_sounds m /\
  same_controller s res.1 /\
  exists s',
    Session.run later res = Py.Ok (s', res.2) /\
    audio_player s' = AudioPlayer.mk false [] [] [] 0.15.
Proof.
  intros E Er res.
  destruct (init_operational config mixer_ok g g' now s0 m0 E) as ((Hs0 & Hl0 & _) & _ & Ei & _).
  destruct (run_set_up calls (s0, m0) Hs0) as (st & Er' & Hs & _).
  rewrite Er in Er'. injection Er' as <-. cbn [fst] in Hs.
  assert (Hlive : player_live mixer_ok s).
  { apply (run_live calls (s0, m0) (s, m) mixer_ok Er).
    split; [eapply loop_follows_invariant; exact Hl0 | exact Ei]. }
  destruct Hlive as (Hinv & Hi).
  destruct (cleanup_player s m Hinv) as (Hoff & Hm & Hc & Hon & Hno & Hsnd).
  fold res in Hoff, Hm, Hc, Hon, Hno, Hsnd. rewrite Hi in Hon, Hno.
  split; [exact Hoff|]. split; [exact Hon|]. split; [exact Hno|]. split; [exact Hsnd|].
  split; [exact Hc|].
  destruct (run_set_up later res (set_up_same _ _ Hm Hs)) as ([s' m'] & El & _).
  destruct (run_off later res (s', m') El Hoff) as (Hoff' & Em). cbn [fst snd] in Hoff', Em.
  exists s'. split; [rewrite El, Em; reflexivity | exact Hoff'].
Qed.

Lemma cleanup_leaves_player_off_shipped :
  exists s0 g' m0,
    @__init__ Fixture.silent SpecEncoder.impl Config.get_haptic_config true (fun _ => 0) 0
    = Py.Ok (s0, g', m0) /\
    Pygame.mx_playing (cleanup s0 m0).2 = [].
Proof.
  destruct (@init_returns Fixture.silent SpecEncoder.impl Config.get_haptic_config true
              (fun _ => 0) 0 shipped_constructible) as (s0 & g' & m0 & E).
  exists s0, g', m0. split; [exact E|].
  destruct (@cleanup_leaves_player_off Fixture.silent SpecEncoder.impl
              Config.get_haptic_config true (fun _ => 0) g' 0 s0 s0 m0 m0 [] [] E eq_refl)
    as (_ & Hon & _).
  apply Hon. reflexivity.
Defined.
End SystemTheorems.

Section RendererHelpers.
Local Open Scope Q_scope.
Context `{Libm}.
Import HapticRenderer Notions RendererNotions.


Lemma new_sound_stored (stored : list Z) (m : Pygame.mixer) :
  Pygame.snd_buffer <$> lookup (Pygame.Sound_new stored m).1
                               (Pygame.mx_sounds (Pygame.Sound_new stored m).2)
  = Some stored.
Proof.
  unfold Pygame.Sound_new. cbn [fst snd Pygame.mx_sounds].
  rewrite list_lookup_middle by reflexivity. reflexivity.
Qed.
End RendererHelpers.

Section RendererTheorems.
Local Open Scope Q_scope.
Local Open Scope string_scope.
Import HapticRenderer Notions RendererNotions.



(** X15.  When [np.tanh] stays within [-1, 1], no sample of the pressure
    sound exceeds 31128 in magnitude and no sample of the click sound
    exceeds 26213, whatever the amplitude asked for: the soft clipping
    keeps them below the 16-bit full scale. *)
Theorem saturated_sounds_stay_below_full_scale `{Libm}
        (self : t) (hz ms amp fade_out_ms : Q) (m m' : Pygame.mixer) (r : Pygame.ref) :
  (forall x, -1 <= np_tanh x /\ np_tanh x <= 1) ->
  (create_sa_background_sound self hz ms amp fade_out_ms m = Py.Ok (r, m') ->
   exists buf,
     Pygame.snd_buffer <$> lookup r (Pygame.mx_sounds m') = Some buf /\
     Forall (fun z => -31128 <= z <= 31128)%Z buf) /\
  (create_ra_click_sound self hz ms amp fade_out_ms m = Py.Ok (r, m') ->
   exists buf,
     Pygame.snd_buffer <$> lookup r (Pygame.mx_sounds m') = Some buf /\
     Forall (fun z => -26213 <= z <= 26213)%Z buf).
Proof.
  intros Ht. split; intros E.
  - destruct (sa_background_bounded self hz ms amp fade_out_ms m r m' Ht E) as (stored & Es & Hb).
    exists stored. split; [|exact Hb].
    pose proof (new_sound_stored stored m) as Hs. rewrite <- Es in Hs. exact Hs.
  - destruct (ra_click_bounded self hz ms amp fade_out_ms m r m' Ht E) as (stored & Es & Hb).
    exists stored. split; [|exact Hb].
    pose proof (new_sound_stored stored m) as Hs. rewrite <- Es in Hs. exact Hs.
Qed.

Lemma saturated_sounds_stay_below_full_scale_click :
  exists r m' buf,
    @create_ra_click_sound Fixture.silent default 150 70 2.5 5 Pygame.mixer_empty
    = Py.Ok (r, m') /\
    Pygame.snd_buffer <$> lookup r (Pygame.mx_sounds m') = Some buf /\
    Forall (fun z => -26213 <= z <= 26213)%Z buf.
Proof.
  destruct (@ra_click_length Fixture.silent 150 70 2.5 5 Pygame.mixer_empty) as (b & E & _);
    [discriminate|].
  destruct (HapticRenderer.sound_of_buffer b Pygame.mixer_empty) as [r m'].
  destruct (@saturated_sounds_stay_below_full_scale Fixture.silent default 150 70 2.5 5
              Pygame.mixer_empty m' r) as (_ & Hclick).
  - intros x. split; discriminate.
  - destruct (Hclick E) as (buf & Hs & Hb). exists r, m', buf.
    split; [exact E|]. split; [exact Hs | exact Hb].
Defined.



(** X17.  [create_material_sound] raises [TypeError] when the keyword
    arguments name anything but the parameter of the generator of the
    material type, whatever the other arguments; with acceptable keyword
    arguments it raises [ValueError] when the duration gives a negative
    sample count, and returns a sound when the duration is not negative.
    The other four constructors raise [ValueError] on a negative sample
    count as well. *)
Theorem sound_constructors_reject_bad_arguments `{Libm}
        (material_type : string) (hz end_hz ms amp fade_out_ms : Q)
        (kwargs : gmap string Q) (g : RandomState) (m : Pygame.mixer) :
  (~ valid_kwargs material_type kwargs ->
   create_material_sound default material_type hz ms amp fade_out_ms kwargs g m
   = Py.Raise Py.TypeError) /\
  (valid_kwargs material_type kwargs -> (samples ms < 0)%Z ->
   create_material_sound default material_type hz ms amp fade_out_ms kwargs g m
   = Py.Raise Py.ValueError) /\
  (valid_kwargs material_type kwargs -> 0 <= ms ->
   exists r g' m',
     create_material_sound default material_type hz ms amp fade_out_ms kwargs g m
     = Py.Ok (r, g', m')) /\
  ((samples ms < 0)%Z ->
   create_sound_object default hz ms amp fade_out_ms m = Py.Raise Py.ValueError /\
   create_sweep_sound default hz end_hz ms amp fade_out_ms m = Py.Raise Py.ValueError /\
   create_sa_background_sound default hz ms amp fade_out_ms m = Py.Raise Py.ValueError /\
   create_ra_click_sound default hz ms amp fade_out_ms m = Py.Raise Py.ValueError).
Proof.
  split; [|split; [|split]].
  - intros Hk. rewrite create_material_sound_outcome, material_type_error by exact Hk.
    reflexivity.
  - intros Hk Hn. rewrite create_material_sound_outcome, material_value_error by assumption.
    reflexivity.
  - intros Hk Hms. rewrite create_material_sound_outcome.
    destruct (material_sound_buffer_length material_type hz ms amp fade_out_ms kwargs g Hms Hk)
      as (buf & g' & -> & _).
    cbn [Py.bind]. eexists _, _, _. reflexivity.
  - apply special_value_errors.
Qed.

Lemma sound_constructors_reject_bad_arguments_glass :
  @create_material_sound Fixture.silent default "glass" 48 100 0.8 10 {[ "warmth" := 2.5 ]}
    (fun _ => 0) Pygame.mixer_empty = Py.Raise Py.TypeError /\
  @create_material_sound Fixture.silent default "glass" 48 (-1) 0.8 10 {[ "brightness" := 3 ]}
    (fun _ => 0) Pygame.mixer_empty = Py.Raise Py.ValueError.
Proof.
  split.
  - apply (@sound_constructors_reject_bad_arguments Fixture.silent "glass" 48 48 100 0.8 10).
    intros Hk. apply (f_equal (fun kw => kw !! "warmth")) in Hk. vm_compute in Hk.
    discriminate Hk.
  - apply (@sound_constructors_reject_bad_arguments Fixture.silent "glass" 48 48 (-1) 0.8 10).
    + vm_compute. reflexivity.
    + reflexivity.
Defined.
End RendererTheorems.
